(** * GenAI observability suite, Node.js SDK: configuration, cost, redaction
      and span instrumentation

    A shallow embedding of [sdk/nodejs/src]: [config.ts] (configuration
    state), [cost.ts] (cost calculator), [redaction.ts] (redaction engine)
    and [instrumentation.ts] (span lifecycle wrappers), with the properties
    the specification states about them.

    Conventions of the embedding.
    - A JavaScript number is a binary64 float ([float], the primitive type);
      arithmetic and comparisons are the IEEE ones, so [NaN] compares false
      with everything.
    - A JavaScript string is a [string] whose characters stand for code
      units below 256 (the Latin-1 block).
    - A JavaScript object used as a map is an association list in property
      creation order, with the own properties only.
    - Module-level mutable state ([config], [PATTERNS], [REPLACEMENTS], the
      calculator's [pricing]) is passed explicitly; a function that can throw
      returns a [completion]. *)

From Stdlib Require Import Bool Ascii String List ZArith Floats Lia Permutation.
From Stdlib Require DecimalString DecimalN.
Import ListNotations.

Set Warnings "-inexact-float,-register-all".

Local Open Scope string_scope.
Local Open Scope Z_scope.

(** ** JavaScript strings *)

Module JsString.

Definition code (c : ascii) : N := N_of_ascii c.

(** [String.prototype.toLowerCase] on one code unit: A-Z, and the Latin-1
    capitals U+00C0..U+00DE except the multiplication sign U+00D7. *)
Definition lower_char (c : ascii) : ascii :=
  let n := code c in
  if ((65 <=? n) && (n <=? 90))%N then ascii_of_N (n + 32)
  else if ((192 <=? n) && (n <=? 222) && negb (n =? 215))%N then ascii_of_N (n + 32)
  else c.

Fixpoint toLowerCase (s : string) : string :=
  match s with
  | EmptyString => EmptyString
  | String c r => String (lower_char c) (toLowerCase r)
  end.

(** White space and line terminators below 256: TAB, LF, VT, FF, CR, SP and
    NBSP. *)
Definition is_space (c : ascii) : bool :=
  let n := code c in
  ((9 <=? n) && (n <=? 13) || (n =? 32) || (n =? 160))%N.

Fixpoint trimStart (s : string) : string :=
  match s with
  | EmptyString => EmptyString
  | String c r => if is_space c then trimStart r else s
  end.

(** [trimEnd] keeps a character when it or something after it is not white
    space. *)
Fixpoint trimEnd (s : string) : string :=
  match s with
  | EmptyString => EmptyString
  | String c r =>
      match trimEnd r with
      | EmptyString => if is_space c then EmptyString else String c EmptyString
      | r' => String c r'
      end
  end.

Definition trim (s : string) : string := trimEnd (trimStart s).

(** [s.includes(sub)]: [sub] occurs in [s] as a contiguous run. *)
Fixpoint includes (s sub : string) : bool :=
  String.prefix sub s ||
  match s with
  | EmptyString => false
  | String _ r => includes r sub
  end.

(** [s.substring(0, n)] for an integer [n] already clamped below at 0. *)
Fixpoint take (n : nat) (s : string) : string :=
  match n, s with
  | O, _ => EmptyString
  | S _, EmptyString => EmptyString
  | S k, String c r => String c (take k r)
  end.

(** [s.split(',')] and the like, for a one-character separator. *)
Fixpoint split (sep : ascii) (s : string) : list string :=
  match s with
  | EmptyString => [EmptyString]
  | String c r =>
      if Ascii.eqb c sep then EmptyString :: split sep r
      else match split sep r with
           | [] => [String c EmptyString]
           | h :: t => String c h :: t
           end
  end.

Fixpoint repeat_string (n : nat) (s : string) : string :=
  match n with
  | O => EmptyString
  | S k => s ++ repeat_string k s
  end.

End JsString.

(** ** JavaScript numbers *)

Module JsNumber.

Local Open Scope float_scope.

Definition number := float.

(** The result of [ToIntegerOrInfinity]. *)
Inductive integer_or_infinity :=
| Int (z : Z)
| PlusInfinity
| MinusInfinity.

(** A finite double is [m * 2^e]; truncation towards zero drops the bits
    below the binary point. *)
Definition ToIntegerOrInfinity (x : number) : integer_or_infinity :=
  match Prim2SF x with
  | S754_nan => Int 0
  | S754_zero _ => Int 0
  | S754_infinity false => PlusInfinity
  | S754_infinity true => MinusInfinity
  | S754_finite s m e =>
      let a := (if 0 <=? e then Z.shiftl (Zpos m) e else Z.shiftr (Zpos m) (- e))%Z in
      Int (if s then - a else a)%Z
  end.

(** The Number value of a positive rational [p / q]: the nearest double,
    ties to even. The quotient is taken with at least two bits more than the
    precision and a sticky bit for the remainder, then rounded once. *)
Definition of_ratio (neg : bool) (p q : positive) : number :=
  let k := (Z.max 0 (prec + 3 + Z.log2 (Zpos q) - Z.log2 (Zpos p)))%Z in
  let d := (Z.shiftl (Zpos p) k / Zpos q)%Z in
  let r := (Z.shiftl (Zpos p) k mod Zpos q)%Z in
  let m := (2 * d + (if r =? 0 then 0 else 1))%Z in
  SF2Prim (binary_normalize prec emax (if neg then - m else m)%Z (- k - 1)%Z neg).

(** The Number value of [m * 10^e], with a signed zero for [m = 0]. *)
Definition of_decimal (neg : bool) (m : N) (e : Z) : number :=
  match m with
  | N0 => if neg then (-0) else 0
  | Npos p =>
      if (0 <=? e)%Z then of_ratio neg (p * Z.to_pos (10 ^ e)) 1
      else of_ratio neg p (Z.to_pos (10 ^ (- e))%Z)
  end.

Definition of_Z (z : Z) : number :=
  match z with
  | Z0 => 0
  | Zpos p => of_ratio false p 1
  | Zneg p => of_ratio true p 1
  end.

Definition of_nat (n : nat) : number := of_Z (Z.of_nat n).

Definition isNaN (x : number) : bool := negb (x =? x).

(** *** Reading numbers: [parseFloat] and [parseInt] *)

Definition digit_of (radix : N) (c : ascii) : option N :=
  let n := N_of_ascii c in
  let d := if ((48 <=? n) && (n <=? 57))%N then Some (n - 48)%N
           else if ((97 <=? n) && (n <=? 122))%N then Some (n - 87)%N
           else if ((65 <=? n) && (n <=? 90))%N then Some (n - 55)%N
           else None in
  match d with
  | Some v => if (v <? radix)%N then Some v else None
  | None => None
  end.

(** The longest run of digits at the front of [s]: its value, its length and
    what follows it. *)
Fixpoint digits (radix : N) (acc : N) (len : nat) (s : string) : N * nat * string :=
  match s with
  | EmptyString => (acc, len, s)
  | String c r =>
      match digit_of radix c with
      | Some d => digits radix (acc * radix + d)%N (S len) r
      | None => (acc, len, s)
      end
  end.

(** The value of a string of decimal digits read after the value [acc]. *)
Fixpoint decimal_value (acc : N) (s : string) : N :=
  match s with
  | EmptyString => acc
  | String c r => decimal_value (acc * 10 + (N_of_ascii c - 48))%N r
  end.

Definition is_decimal_digit (c : ascii) : bool :=
  let n := N_of_ascii c in ((48 <=? n) && (n <=? 57))%N.

Fixpoint decimal_digits (s : string) : bool :=
  match s with
  | EmptyString => true
  | String c r => is_decimal_digit c && decimal_digits r
  end.

(** What can follow a run of digits: nothing, or a character that is not a
    digit. *)
Definition ends_digits (rest : string) : Prop :=
  match rest with
  | EmptyString => True
  | String c _ => digit_of 10 c = None
  end.

Definition sign_prefix (s : string) : bool * string :=
  match s with
  | String "-" r => (true, r)
  | String "+" r => (false, r)
  | _ => (false, s)
  end.

(** [ExponentPart]: an [e] or [E], an optional sign and at least one digit;
    anything else is not part of the literal. The exponent and what follows
    the literal. *)
Definition exponent_part (s : string) : Z * string :=
  match s with
  | String c r =>
      if (Ascii.eqb c "e" || Ascii.eqb c "E")%bool then
        let '(neg, r1) := sign_prefix r in
        let '(v, len, r2) := digits 10 0 O r1 in
        match len with
        | O => (0%Z, s)
        | S _ => (if neg then (- Z.of_N v)%Z else Z.of_N v, r2)
        end
      else (0%Z, s)
  | EmptyString => (0%Z, s)
  end.

(** The longest prefix of [s] that is a [StrDecimalLiteral]: its Number
    value and what follows it; [None] when there is no such prefix. *)
Definition read_decimal (s : string) : option (number * string) :=
  let '(neg, r) := sign_prefix s in
  if String.prefix "Infinity" r then
    Some (if neg then neg_infinity else infinity, String.substring 8 (String.length r - 8) r)
  else
    let '(ip, ilen, r1) := digits 10 0 O r in
    let '(m, flen, r2) :=
      match r1 with
      | String "." r1' =>
          let '(m, flen, r2) := digits 10 ip O r1' in
          match ilen, flen with
          | O, O => (m, flen, r1)
          | _, _ => (m, flen, r2)
          end
      | _ => (ip, O, r1)
      end in
    match ilen, flen with
    | O, O => None
    | _, _ =>
        let '(e, r3) := exponent_part r2 in
        Some (of_decimal neg m (e - Z.of_nat flen)%Z, r3)
    end.

(** [parseFloat(s)]: leading white space is skipped and the longest prefix
    that is a [StrDecimalLiteral] is read; [NaN] when there is none. *)
Definition parseFloat (s : string) : number :=
  match read_decimal (JsString.trimStart s) with
  | Some (n, _) => n
  | None => nan
  end.

(** [parseInt(s)] with no radix: radix 16 after a [0x] prefix, 10 otherwise. *)
Definition parseInt (s : string) : number :=
  let '(neg, r) := sign_prefix (JsString.trimStart s) in
  let '(radix, r1) :=
    match r with
    | String "0" (String x r') =>
        if (Ascii.eqb x "x" || Ascii.eqb x "X")%bool then (16%N, r') else (10%N, r)
    | _ => (10%N, r)
    end in
  let '(v, len, _) := digits radix 0 O r1 in
  match len with
  | O => nan
  | S _ => of_decimal neg v 0
  end.

(** [StringToNumber(s)], the conversion [ToNumber] applies to a string:
    the whole trimmed string has to be a numeric literal. *)
Definition StringToNumber (s : string) : number :=
  let t := JsString.trim s in
  let radix_literal (radix : N) (r : string) :=
    match digits radix 0 O r with
    | (v, S _, EmptyString) => of_decimal false v 0
    | _ => nan
    end in
  match t with
  | EmptyString => 0
  | String "0" (String x r) =>
      if (Ascii.eqb x "x" || Ascii.eqb x "X")%bool then radix_literal 16%N r
      else if (Ascii.eqb x "o" || Ascii.eqb x "O")%bool then radix_literal 8%N r
      else if (Ascii.eqb x "b" || Ascii.eqb x "B")%bool then radix_literal 2%N r
      else match read_decimal t with
           | Some (n, EmptyString) => n
           | _ => nan
           end
  | _ =>
      match read_decimal t with
      | Some (n, EmptyString) => n
      | _ => nan
      end
  end.

(** *** Writing numbers: [toFixed] *)

(** The integer [n] nearest to [m * 2^e * 10^f], the larger one on a tie. *)
Definition nearest_scaled (f : nat) (m : positive) (e : Z) : Z :=
  (if 0 <=? e then Zpos m * 2 ^ e * 10 ^ Z.of_nat f
   else (2 * Zpos m * 10 ^ Z.of_nat f + 2 ^ (- e)) / 2 ^ (- e + 1))%Z.

Definition decimal_string (n : Z) : string :=
  DecimalString.NilZero.string_of_uint (N.to_uint (Z.to_N n)).

(** The digits of [n] with a decimal point before the last [f] of them,
    padded with zeros to at least one digit before the point. *)
Definition fixed_digits (f : nat) (n : Z) : string :=
  let m := decimal_string n in
  let k := String.length m in
  let m := if Nat.leb k f then JsString.repeat_string (f + 1 - k) "0" ++ m else m in
  let k := String.length m in
  match f with
  | O => m
  | S _ => (String.substring 0 (k - f) m ++ "." ++ String.substring (k - f) f m)%string
  end.

(** [x.toFixed(f)]. [None] stands for the branch [x >= 10^21], where the
    result is [Number::toString(x)]. *)
Definition toFixed (f : nat) (x : number) : option string :=
  match Prim2SF x with
  | S754_nan => Some "NaN"%string
  | S754_infinity s => Some (if s then "-Infinity" else "Infinity")%string
  | S754_zero _ => Some (fixed_digits f 0)
  | S754_finite s m e =>
      if (10 ^ 21 * 2 ^ Z.max 0 (- e) <=? Zpos m * 2 ^ Z.max 0 e)%Z then None
      else Some ((if s then "-" else EmptyString) ++ fixed_digits f (nearest_scaled f m e))%string
  end.

End JsNumber.

(** ** Completions *)

(** How a call ends: it returns a value or throws one. *)
Inductive completion (E A : Type) : Type :=
| Normal (a : A)
| Throw (e : E).

Arguments Normal {E A} a.
Arguments Throw {E A} e.

(** ** Configuration state ([config.ts]) *)

Module Config.

Import JsNumber.
Local Open Scope float_scope.

Record GenAIConfig := {
  serviceName : string;
  environment : string;
  otlpEndpoint : string;
  otlpProtocol : string;
  logPrompts : bool;
  sampleRate : number;
  redactPatterns : list string;
  tenantId : option string;
  userId : option string;
  maxAttributeLength : number
}.

(** [Partial<GenAIConfig>]: every property may be absent. *)
Record PartialConfig := {
  p_serviceName : option string;
  p_environment : option string;
  p_otlpEndpoint : option string;
  p_otlpProtocol : option string;
  p_logPrompts : option bool;
  p_sampleRate : option number;
  p_redactPatterns : option (list string);
  p_tenantId : option (option string);
  p_userId : option (option string);
  p_maxAttributeLength : option number
}.

(** The empty object literal. *)
Definition no_update : PartialConfig :=
  {| p_serviceName := None; p_environment := None; p_otlpEndpoint := None;
     p_otlpProtocol := None; p_logPrompts := None; p_sampleRate := None;
     p_redactPatterns := None; p_tenantId := None; p_userId := None;
     p_maxAttributeLength := None |}.

(** [process.env]: a variable is set to a string or is absent. *)
Definition Env := string -> option string.

Definition empty_env : Env := fun _ => None.

(** [process.env.X || d]: an absent or empty variable gives the default. *)
Definition env_or (v : option string) (d : string) : string :=
  match v with
  | None => d
  | Some EmptyString => d
  | Some s => s
  end.

Definition defaultConfig (env : Env) : GenAIConfig :=
  {| serviceName := env_or (env "OTEL_SERVICE_NAME") "genai-app";
     environment := env_or (env "GENAI_ENVIRONMENT") "dev";
     otlpEndpoint := env_or (env "OTEL_EXPORTER_OTLP_ENDPOINT") "http://localhost:4317";
     otlpProtocol := env_or (env "OTEL_EXPORTER_OTLP_PROTOCOL") "grpc";
     logPrompts :=
       match env "GENAI_OTEL_LOG_PROMPTS" with
       | Some s => String.eqb (JsString.toLowerCase s) "true"
       | None => false
       end;
     sampleRate := parseFloat (env_or (env "GENAI_OTEL_SAMPLE_RATE") "0.01");
     redactPatterns :=
       JsString.split "," (env_or (env "GENAI_OTEL_REDACT_PATTERNS") "email,ssn,api_key,credit_card");
     tenantId := env "GENAI_TENANT_ID";
     userId := env "GENAI_USER_ID";
     maxAttributeLength := parseInt (env_or (env "GENAI_MAX_ATTR_LENGTH") "2000") |}.

Definition getConfig (config : GenAIConfig) : GenAIConfig := config.

Definition override {A : Type} (old : A) (new : option A) : A :=
  match new with
  | Some a => a
  | None => old
  end.

(** [{ ...config, ...newConfig }]: a property present in [newConfig]
    replaces the one of [config]. *)
Definition spread (config : GenAIConfig) (newConfig : PartialConfig) : GenAIConfig :=
  {| serviceName := override (serviceName config) (p_serviceName newConfig);
     environment := override (environment config) (p_environment newConfig);
     otlpEndpoint := override (otlpEndpoint config) (p_otlpEndpoint newConfig);
     otlpProtocol := override (otlpProtocol config) (p_otlpProtocol newConfig);
     logPrompts := override (logPrompts config) (p_logPrompts newConfig);
     sampleRate := override (sampleRate config) (p_sampleRate newConfig);
     redactPatterns := override (redactPatterns config) (p_redactPatterns newConfig);
     tenantId := override (tenantId config) (p_tenantId newConfig);
     userId := override (userId config) (p_userId newConfig);
     maxAttributeLength := override (maxAttributeLength config) (p_maxAttributeLength newConfig) |}.

Inductive Error := mkError (message : string).

(** [setConfig]: the module variable [config] is assigned the merged record
    first and validated afterwards; the second component is the value of
    [config] when the call ends. *)
Definition setConfig (newConfig : PartialConfig) (config : GenAIConfig)
  : completion Error unit * GenAIConfig :=
  let config := spread config newConfig in
  if (sampleRate config <? 0) || (1 <? sampleRate config) then
    (Throw (mkError "sampleRate must be between 0 and 1"), config)
  else if maxAttributeLength config <? 100 then
    (Throw (mkError "maxAttributeLength must be at least 100"), config)
  else (Normal tt, config).

(** The configuration observable after a sequence of [setConfig] calls,
    whatever way each of them ended. *)
Definition run (updates : list PartialConfig) (config : GenAIConfig) : GenAIConfig :=
  fold_left (fun c p => snd (setConfig p c)) updates config.

Definition succeeds (newConfig : PartialConfig) (config : GenAIConfig) : bool :=
  match fst (setConfig newConfig config) with
  | Normal _ => true
  | Throw _ => false
  end.

(** Every call of the sequence returns normally. *)
Fixpoint all_succeed (updates : list PartialConfig) (config : GenAIConfig) : bool :=
  match updates with
  | [] => true
  | p :: rest => succeeds p config && all_succeed rest (snd (setConfig p config))
  end.

(** The bounds of the data model: [sampleRate] in [0,1] and
    [maxAttributeLength >= 100]. *)
Definition in_bounds (c : GenAIConfig) : bool :=
  (0 <=? sampleRate c) && (sampleRate c <=? 1) && (100 <=? maxAttributeLength c).

(** Both numeric settings are numbers, not [NaN]. *)
Definition numeric (c : GenAIConfig) : bool :=
  negb (isNaN (sampleRate c)) && negb (isNaN (maxAttributeLength c)).

(** The update [{ sampleRate: x }]. *)
Definition only_sampleRate (x : number) : PartialConfig :=
  {| p_serviceName := None; p_environment := None; p_otlpEndpoint := None;
     p_otlpProtocol := None; p_logPrompts := None; p_sampleRate := Some x;
     p_redactPatterns := None; p_tenantId := None; p_userId := None;
     p_maxAttributeLength := None |}.

(** The update [{ maxAttributeLength: x }]. *)
Definition only_maxAttributeLength (x : number) : PartialConfig :=
  {| p_serviceName := None; p_environment := None; p_otlpEndpoint := None;
     p_otlpProtocol := None; p_logPrompts := None; p_sampleRate := None;
     p_redactPatterns := None; p_tenantId := None; p_userId := None;
     p_maxAttributeLength := Some x |}.

(** The update [{ redactPatterns: names }]. *)
Definition only_redactPatterns (names : list string) : PartialConfig :=
  {| p_serviceName := None; p_environment := None; p_otlpEndpoint := None;
     p_otlpProtocol := None; p_logPrompts := None; p_sampleRate := None;
     p_redactPatterns := Some names; p_tenantId := None; p_userId := None;
     p_maxAttributeLength := None |}.

(** The update [{ logPrompts: true, maxAttributeLength: n, redactPatterns:
    names }]. *)
Definition logging_update (n : number) (names : list string) : PartialConfig :=
  {| p_serviceName := None; p_environment := None; p_otlpEndpoint := None;
     p_otlpProtocol := None; p_logPrompts := Some true; p_sampleRate := None;
     p_redactPatterns := Some names; p_tenantId := None; p_userId := None;
     p_maxAttributeLength := Some n |}.

(** An environment with one variable set. *)
Definition env_with (name value : string) : Env :=
  fun k => if String.eqb k name then Some value else None.

End Config.

(** ** JavaScript objects used as maps *)

Module JsObject.

(** A plain object, one whose prototype is [Object.prototype] as the
    engine made it: its own string-keyed properties in creation order; a key
    occurs once. *)
Definition t (V : Type) := list (string * V).

Definition empty {V : Type} : t V := [].

(** The names every plain object inherits from [Object.prototype]. Reading
    one of them off an object that has no own property of that name gives a
    built-in: a function, or the prototype itself for [__proto__]; each is
    truthy. *)
Definition Object_prototype : list string :=
  [ "constructor"; "__defineGetter__"; "__defineSetter__"; "hasOwnProperty";
    "__lookupGetter__"; "__lookupSetter__"; "isPrototypeOf"; "propertyIsEnumerable";
    "toString"; "valueOf"; "__proto__"; "toLocaleString" ].

Definition inherited (k : string) : bool := existsb (String.eqb k) Object_prototype.

(** The own property [k] of [o], if it has one. A read [o[k]] gives it; with
    no own property the read gives the inherited built-in when [inherited k],
    and [undefined] otherwise. *)
Fixpoint get {V : Type} (o : t V) (k : string) : option V :=
  match o with
  | [] => None
  | (k', v) :: r => if String.eqb k' k then Some v else get r k
  end.

(** [o[k] = v] for a key other than [__proto__]: an existing property
    keeps its place, a new one goes last. (For [__proto__] the assignment
    makes no property: it replaces the prototype of [o] when [v] is an
    object and does nothing when it is not; that is left to the callers.) *)
Fixpoint set {V : Type} (o : t V) (k : string) (v : V) : t V :=
  match o with
  | [] => [(k, v)]
  | (k', v') :: r => if String.eqb k' k then (k', v) :: r else (k', v') :: set r k v
  end.

(** [Object.assign(o, src)]: the own properties of [src], assigned to [o]
    in their order. *)
Definition assign {V : Type} (o src : t V) : t V :=
  fold_left (fun acc kv => set acc (fst kv) (snd kv)) src o.

Fixpoint all_digits (s : string) : bool :=
  match s with
  | EmptyString => true
  | String c r => (let n := N_of_ascii c in (48 <=? n) && (n <=? 57))%N && all_digits r
  end.

(** An array index: the canonical decimal form of an integer below
    [2^32 - 1]. *)
Definition array_index (k : string) : option N :=
  match k with
  | EmptyString => None
  | String "0" EmptyString => Some 0%N
  | String "0" _ => None
  | _ =>
      if all_digits k then
        let '(v, _, _) := JsNumber.digits 10 0 O k in
        if (v <? 4294967295)%N then Some v else None
      else None
  end.

Fixpoint insert_index {V : Type} (i : N) (kv : string * V) (l : list (N * (string * V)))
  : list (N * (string * V)) :=
  match l with
  | [] => [(i, kv)]
  | (j, kv') :: r => if (i <? j)%N then (i, kv) :: l else (j, kv') :: insert_index i kv r
  end.

Definition index_entries {V : Type} (o : t V) : list (string * V) :=
  map snd
    (fold_left
       (fun acc kv => match array_index (fst kv) with
                      | Some i => insert_index i kv acc
                      | None => acc
                      end) o []).

Definition is_index (k : string) : bool :=
  match array_index k with
  | Some _ => true
  | None => false
  end.

(** [Object.entries(o)]: array-index keys in ascending order, then the
    other keys in creation order. *)
Definition entries {V : Type} (o : t V) : list (string * V) :=
  index_entries o ++ filter (fun kv => negb (is_index (fst kv))) o.

End JsObject.

(** ** Cost calculator ([cost.ts]) *)

Module Cost.

Import JsNumber.
Local Open Scope float_scope.

Record ModelPricing := { input : number; output : number }.

Definition ProviderPricing := JsObject.t ModelPricing.

(** Pricing per 1M tokens (USD). *)
Definition PRICING_TABLE : JsObject.t ProviderPricing :=
  [ ("openai",
      [ ("gpt-4-turbo", {| input := 10.0; output := 30.0 |});
        ("gpt-4", {| input := 30.0; output := 60.0 |});
        ("gpt-3.5-turbo", {| input := 0.5; output := 1.5 |});
        ("text-embedding-3-small", {| input := 0.02; output := 0.0 |});
        ("text-embedding-3-large", {| input := 0.13; output := 0.0 |});
        ("text-embedding-ada-002", {| input := 0.1; output := 0.0 |}) ]);
    ("anthropic",
      [ ("claude-3-opus-20240229", {| input := 15.0; output := 75.0 |});
        ("claude-3-sonnet-20240229", {| input := 3.0; output := 15.0 |});
        ("claude-3-haiku-20240307", {| input := 0.25; output := 1.25 |});
        ("claude-3-5-sonnet-20241022", {| input := 3.0; output := 15.0 |}) ]);
    ("cohere",
      [ ("command-r-plus", {| input := 3.0; output := 15.0 |});
        ("command-r", {| input := 0.5; output := 1.5 |});
        ("embed-english-v3.0", {| input := 0.1; output := 0.0 |});
        ("rerank-english-v3.0", {| input := 2.0; output := 0.0 |}) ]);
    ("together",
      [ ("meta-llama/Llama-3-70b", {| input := 0.9; output := 0.9 |});
        ("meta-llama/Llama-3-8b", {| input := 0.2; output := 0.2 |});
        ("mistralai/Mixtral-8x7B-Instruct-v0.1", {| input := 0.6; output := 0.6 |}) ]) ].

(** The state of a [CostCalculator]: what its [pricing] field reads, table
    by table. The provider tables are objects shared between
    [PRICING_TABLE] and every calculator built from it; a value of this type
    is what one calculator reads at one moment. *)
Definition CostCalculator := JsObject.t ProviderPricing.

(** The [pricing] field the constructor builds when the module's table
    reads [tables]: [{ ...PRICING_TABLE }], then
    [Object.assign(this.pricing, customPricing)]. *)
Definition merged_pricing (tables : JsObject.t ProviderPricing)
  (customPricing : option (JsObject.t ProviderPricing)) : CostCalculator :=
  match customPricing with
  | Some custom => JsObject.assign tables custom
  | None => tables
  end.

(** [new CostCalculator(customPricing)] in a module whose table reads as it
    is declared: no [addCustomPricing] on a built-in provider has gone
    before, on any calculator. *)
Definition new_CostCalculator (customPricing : option (JsObject.t ProviderPricing))
  : CostCalculator :=
  merged_pricing PRICING_TABLE customPricing.

Definition normalizeModelName (model : string) : string :=
  JsString.toLowerCase (JsString.trim model).

(** The loop over [Object.entries]: the first known model that contains the
    normalized name or is contained in it. *)
Definition partial_match (table : ProviderPricing) (modelNormalized : string)
  : option ModelPricing :=
  option_map snd
    (find (fun kv => JsString.includes (fst kv) modelNormalized
                     || JsString.includes modelNormalized (fst kv))
          (JsObject.entries table)).

(** What a value without [input] and [output] properties prices with: the
    two reads give [undefined], which multiplies as [NaN]. *)
Definition unpriced : ModelPricing := {| input := nan; output := nan |}.

(** The prices of [modelPricing] when the lookups are over ([None] on the
    two paths that return [0.0]). With no entry of its own under the
    normalized name, the table still answers the names it inherits, with a
    built-in that is truthy and has no prices: the fallback is not tried.
    The provider is looked up among the own tables of the calculator: for
    [constructor] and [__proto__], which a calculator with no such table
    inherits, the code goes on with a built-in as the table; its members are
    the engine's and are not modelled, and the properties of this
    development leave these two providers out. *)
Definition findPricing (pricing : CostCalculator) (provider model : string)
  : option ModelPricing :=
  let providerLower := JsString.toLowerCase provider in
  let modelNormalized := normalizeModelName model in
  match JsObject.get pricing providerLower with
  | None => None
  | Some table =>
      match JsObject.get table modelNormalized with
      | Some modelPricing => Some modelPricing
      | None =>
          if JsObject.inherited modelNormalized then Some unpriced
          else partial_match table modelNormalized
      end
  end.

(** [parseFloat(x.toFixed(8))]. For [x >= 10^21] the string is
    [Number::toString(x)], which reads back as [x]. *)
Definition round8 (x : number) : number :=
  match toFixed 8 x with
  | Some s => parseFloat s
  | None => x
  end.

Definition costOf (modelPricing : ModelPricing) (inputTokens outputTokens : number) : number :=
  let inputCost := (inputTokens / 1000000) * input modelPricing in
  let outputCost := (outputTokens / 1000000) * output modelPricing in
  round8 (inputCost + outputCost).

(** [outputTokens] defaults to [0] in the source; callers of the model pass
    it. *)
Definition calculateCost (pricing : CostCalculator) (provider model : string)
  (inputTokens outputTokens : number) : number :=
  match findPricing pricing provider model with
  | None => 0.0
  | Some modelPricing => costOf modelPricing inputTokens outputTokens
  end.

(** What the calculator reads after [addCustomPricing]. A provider that
    the calculator has no table for but inherits ([constructor],
    [__proto__]) is truthy, so no table is made and the write goes onto the
    built-in, not into the calculator. The model name [__proto__] makes the
    write replace the prototype of the provider table with the prices; it
    is kept here as the entry a later read of that name gives. *)
Definition addCustomPricing (provider model : string) (inputPricePer1M outputPricePer1M : number)
  (pricing : CostCalculator) : CostCalculator :=
  let providerLower := JsString.toLowerCase provider in
  let pricing :=
    match JsObject.get pricing providerLower with
    | None =>
        if JsObject.inherited providerLower then pricing
        else JsObject.set pricing providerLower JsObject.empty
    | Some _ => pricing
    end in
  match JsObject.get pricing providerLower with
  | Some table =>
      JsObject.set pricing providerLower
        (JsObject.set table model {| input := inputPricePer1M; output := outputPricePer1M |})
  | None => pricing
  end.

(** [getCostCalculator()]: the module's calculator, created on first use,
    from the table as it is declared (see [new_CostCalculator]). *)
Definition getCostCalculator (calculator : option CostCalculator)
  : CostCalculator * option CostCalculator :=
  match calculator with
  | Some c => (c, calculator)
  | None => let c := new_CostCalculator None in (c, Some c)
  end.

End Cost.

(** ** JavaScript values *)

Module JsValue.

Import JsNumber.
Local Open Scope float_scope.

(** The values a wrapped function takes, returns or throws: primitives,
    arrays and objects. [VObject ctor props] has the properties [props]:
    what a read of the object answers under a string key, from a property
    of its own or from one its class gives it (an [Error] made without a
    message answers the empty string under [message]); [ctor] is what
    [o.constructor.name] gives ([None] for an object that has no
    constructor). *)
Inductive value : Type :=
| VUndefined
| VNull
| VBool (b : bool)
| VNumber (n : number)
| VString (s : string)
| VArray (elements : list value)
| VObject (ctor : option string) (props : list (string * value)).

Definition plain (props : list (string * value)) : value :=
  VObject (Some "Object") props.

(** [new C(message)] for an error class [C]. *)
Definition error_object (ctor message : string) : value :=
  VObject (Some ctor) [("message", VString message)].

Definition TypeError (message : string) : value := error_object "TypeError" message.

(** [ToBoolean]. *)
Definition truthy (v : value) : bool :=
  match v with
  | VUndefined | VNull => false
  | VBool b => b
  | VNumber n => negb ((n =? 0) || isNaN n)
  | VString EmptyString => false
  | VString _ => true
  | VArray _ | VObject _ _ => true
  end.

Definition is_nullish (v : value) : bool :=
  match v with
  | VUndefined | VNull => true
  | _ => false
  end.

Definition char_at (s : string) (i : nat) : value :=
  match String.get i s with
  | Some c => VString (String c EmptyString)
  | None => VUndefined
  end.

(** [v[k]] for a [v] that is neither [undefined] nor [null], for the keys
    that are data: the properties of an object, [length] and indices. *)
Definition prop (v : value) (k : string) : value :=
  match v with
  | VObject _ props =>
      match JsObject.get props k with
      | Some x => x
      | None => VUndefined
      end
  | VArray l =>
      if String.eqb k "length" then VNumber (of_nat (List.length l))
      else match JsObject.array_index k with
           | Some i => nth (N.to_nat i) l VUndefined
           | None => VUndefined
           end
  | VString s =>
      if String.eqb k "length" then VNumber (of_nat (String.length s))
      else match JsObject.array_index k with
           | Some i => char_at s (N.to_nat i)
           | None => VUndefined
           end
  | _ => VUndefined
  end.

(** What reading property [k] of [undefined] or [null] throws. *)
Definition read_error (v : value) (k : string) : value :=
  TypeError ("Cannot read properties of "
             ++ (match v with VNull => "null" | _ => "undefined" end)
             ++ " (reading '" ++ k ++ "')").

(** [v.k]: a [TypeError] on [undefined] and [null]. *)
Definition get_prop (v : value) (k : string) : completion value value :=
  if is_nullish v then Throw (read_error v k) else Normal (prop v k).

(** [v?.k]. *)
Definition opt_prop (v : value) (k : string) : value :=
  if is_nullish v then VUndefined else prop v k.

(** [v.constructor.name]. *)
Definition constructor_name (v : value) : completion value value :=
  match v with
  | VUndefined | VNull => get_prop v "constructor"
  | VBool _ => Normal (VString "Boolean")
  | VNumber _ => Normal (VString "Number")
  | VString _ => Normal (VString "String")
  | VArray _ => Normal (VString "Array")
  | VObject (Some c) _ => Normal (VString c)
  | VObject None _ => Throw (read_error VUndefined "name")
  end.

(** The number of bytes of [s] in UTF-8: one for a code unit below 128, two
    for the others. *)
Fixpoint utf8_length (s : string) : nat :=
  match s with
  | EmptyString => O
  | String c r => (if (N_of_ascii c <? 128)%N then 1 else 2) + utf8_length r
  end.

(** [s.substring(0, n)] for a Number [n]. *)
Definition substring0 (s : string) (n : number) : string :=
  match ToIntegerOrInfinity n with
  | Int z => JsString.take (Z.to_nat z) s
  | PlusInfinity => s
  | MinusInfinity => EmptyString
  end.

End JsValue.

(** ** The engine *)

(** A regular expression literal: its source text and its flags. *)
Record RegExp := { source : string; flags : string }.

(** What the code takes from the JavaScript engine and this development does
    not define: regular expression replacement, the decimal form of a Number,
    the conversion of arrays and objects to primitives (their [toString] and
    [valueOf] methods) and JSON serialization. *)
Class Engine := {
  (** [text.replace(pattern, replacement)] *)
  String_replace : string -> RegExp -> string -> string;
  (** [Number::toString(n)] *)
  Number_toString : JsNumber.number -> string;
  (** [ToString(v)] for an array or object [v] *)
  Object_ToString : JsValue.value -> completion JsValue.value string;
  (** [ToNumber(v)] for an array or object [v] *)
  Object_ToNumber : JsValue.value -> completion JsValue.value JsNumber.number;
  (** [JSON.stringify(v)] for a [v] other than [undefined]; [None] is the
      result [undefined] *)
  JSON_stringify_defined : JsValue.value -> completion JsValue.value (option string)
}.

(** ** Redaction ([redaction.ts]) *)

Module Redaction.

Definition dquote : string := String (ascii_of_nat 34) EmptyString.

Definition PATTERNS0 : JsObject.t RegExp :=
  [ ("email", {| source := "\b[A-Za-z0-9._%+-]+@[A-Za-z0-9.-]+\.[A-Z|a-z]{2,}\b"; flags := "g" |});
    ("ssn", {| source := "\b\d{3}-\d{2}-\d{4}\b"; flags := "g" |});
    ("api_key", {| source := "\b[A-Za-z0-9_-]{20,}\b(?=.*key)"; flags := "gi" |});
    ("credit_card", {| source := "\b\d{4}[- ]?\d{4}[- ]?\d{4}[- ]?\d{4}\b"; flags := "g" |});
    ("phone", {| source := "\b\+?1?\s*\(?\d{3}\)?[-.\s]?\d{3}[-.\s]?\d{4}\b"; flags := "g" |});
    ("ipv4", {| source := "\b\d{1,3}\.\d{1,3}\.\d{1,3}\.\d{1,3}\b"; flags := "g" |});
    ("bearer_token", {| source := "Bearer\s+[A-Za-z0-9._-]+"; flags := "gi" |});
    ("aws_key",
      {| source := "(?:AWS|aws)[\w]*(?:key|KEY)[\w]*\s*[:=]\s*['" ++ dquote
                   ++ "]?([A-Za-z0-9/+=]{40})['" ++ dquote ++ "]?";
         flags := "g" |});
    ("github_token", {| source := "gh[pousr]_[A-Za-z0-9_]{36,255}"; flags := "g" |}) ].

Definition REPLACEMENTS0 : JsObject.t string :=
  [ ("email", "[EMAIL_REDACTED]");
    ("ssn", "[SSN_REDACTED]");
    ("api_key", "[API_KEY_REDACTED]");
    ("credit_card", "[CC_REDACTED]");
    ("phone", "[PHONE_REDACTED]");
    ("ipv4", "[IP_REDACTED]");
    ("bearer_token", "[BEARER_TOKEN_REDACTED]");
    ("aws_key", "[AWS_KEY_REDACTED]");
    ("github_token", "[GITHUB_TOKEN_REDACTED]") ].

(** The two module-level tables. *)
Record Registry := {
  PATTERNS : JsObject.t RegExp;
  REPLACEMENTS : JsObject.t string
}.

Definition initial : Registry :=
  {| PATTERNS := PATTERNS0; REPLACEMENTS := REPLACEMENTS0 |}.

(** [REPLACEMENTS[name] || '[REDACTED]']. *)
Definition replacement_for (reg : Registry) (name : string) : string :=
  match JsObject.get (REPLACEMENTS reg) name with
  | None => "[REDACTED]"
  | Some EmptyString => "[REDACTED]"
  | Some r => r
  end.

Section WithEngine.

Context {engine : Engine}.

(** The body of the loop for one [patternName]. *)
Definition redact_step (reg : Registry) (redacted patternName : string) : string :=
  let name := JsString.toLowerCase (JsString.trim patternName) in
  match JsObject.get (PATTERNS reg) name with
  | Some pattern => String_replace redacted pattern (replacement_for reg name)
  | None => redacted
  end.

(** The loop over a list of pattern names, from [text]. *)
Definition redact (reg : Registry) (text : string) (names : list string) : string :=
  fold_left (redact_step reg) names text.

Definition redactSensitiveData (reg : Registry) (text : string) (config : Config.GenAIConfig)
  : string :=
  redact reg text (Config.redactPatterns config).

End WithEngine.

(** [replacement] defaults to ['[REDACTED]'] in the source; callers of the
    model pass it. The two assignments make or overwrite a property for
    every name but [__proto__]: under that name the first replaces the
    prototype of [PATTERNS] and the second does nothing, which leaves a
    state this development does not represent; its properties leave the name
    out. *)
Definition addRedactionPattern (name : string) (pattern : RegExp) (replacement : string)
  (reg : Registry) : Registry :=
  {| PATTERNS := JsObject.set (PATTERNS reg) name pattern;
     REPLACEMENTS := JsObject.set (REPLACEMENTS reg) name replacement |}.

End Redaction.

(** ** Span lifecycle wrappers ([instrumentation.ts]) *)

Module Instrumentation.

Import JsNumber JsValue.
Local Open Scope float_scope.

(** *** The span, as the calls made on it *)

Inductive SpanStatusCode := UNSET | OK | ERROR.

Inductive span_op :=
| StartSpan (name : string)
| SetAttributes (attributes : list (string * value))
| SetAttribute (key : string) (v : value)
| SetStatus (code : SpanStatusCode) (message : value)
| SpanEnd.

(** *** The state a call runs in *)

(** The module-level state of the SDK and the clock. [calculator] is the
    calculator of the cost module, [None] before its first use. *)
Record World := {
  config : Config.GenAIConfig;
  registry : Redaction.Registry;
  calculator : option Cost.CostCalculator;
  clock : number
}.

(** The state of one instrumented call: the world, the calls made on its
    span so far, and the two local variables of [traceToolCall]. *)
Record State := {
  world : World;
  ops : list span_op;
  resultStatus : string;
  errorType : value
}.

Definition M (A : Type) : Type := State -> completion value A * State.

Definition ret {A : Type} (a : A) : M A := fun s => (Normal a, s).

Definition throw {A : Type} (e : value) : M A := fun s => (Throw e, s).

Definition bind {A B : Type} (m : M A) (k : A -> M B) : M B :=
  fun s =>
    match m s with
    | (Normal a, s') => k a s'
    | (Throw e, s') => (Throw e, s')
    end.

Notation "x <- m ;; k" := (bind m (fun x => k))
  (at level 61, m at next level, right associativity).
Notation "m ;; k" := (bind m (fun _ => k))
  (at level 61, right associativity).

Definition lift {A : Type} (c : completion value A) : M A := fun s => (c, s).

Definition when (b : bool) (m : M unit) : M unit := if b then m else ret tt.

(** [try { body } catch (error) { handler } finally { finalizer }]. *)
Definition try_catch_finally {A : Type} (body : M A) (handler : value -> M A)
  (finalizer : M unit) : M A :=
  fun s =>
    let '(r, s1) :=
      match body s with
      | (Normal a, s1) => (Normal a, s1)
      | (Throw error, s1) => handler error s1
      end in
    match finalizer s1 with
    | (Normal _, s2) => (r, s2)
    | (Throw e, s2) => (Throw e, s2)
    end.

Definition span (op : span_op) : M unit :=
  fun s => (Normal tt, {| world := world s; ops := ops s ++ [op];
                          resultStatus := resultStatus s; errorType := errorType s |}).

Definition set_resultStatus (v : string) : M unit :=
  fun s => (Normal tt, {| world := world s; ops := ops s;
                          resultStatus := v; errorType := errorType s |}).

Definition set_errorType (v : value) : M unit :=
  fun s => (Normal tt, {| world := world s; ops := ops s;
                          resultStatus := resultStatus s; errorType := v |}).

Definition get_resultStatus : M string := fun s => (Normal (resultStatus s), s).

Definition get_errorType : M value := fun s => (Normal (errorType s), s).

Definition getConfig : M Config.GenAIConfig :=
  fun s => (Normal (Config.getConfig (config (world s))), s).

Definition Date_now : M number := fun s => (Normal (clock (world s)), s).

Definition getRegistry : M Redaction.Registry := fun s => (Normal (registry (world s)), s).

Definition getCostCalculator : M Cost.CostCalculator :=
  fun s =>
    let w := world s in
    let '(c, calc) := Cost.getCostCalculator (calculator w) in
    (Normal c, {| world := {| config := config w; registry := registry w;
                              calculator := calc; clock := clock w |};
                  ops := ops s; resultStatus := resultStatus s; errorType := errorType s |}).

(** [tracer.startActiveSpan(name, fn)]. *)
Definition startActiveSpan {A : Type} (name : string) (fn : M A) : M A :=
  span (StartSpan name) ;; fn.

(** A wrapped function: from its arguments and the world it runs in to how
    it ends (for an asynchronous one, how its promise settles) and the world
    it leaves. *)
Definition Callable := list value -> World -> completion value value * World.

(** [await originalMethod.apply(this, args)]. *)
Definition call (originalMethod : Callable) (args : list value) : M value :=
  fun s =>
    let '(r, w) := originalMethod args (world s) in
    (r, {| world := w; ops := ops s; resultStatus := resultStatus s; errorType := errorType s |}).

Section WithEngine.

Context {engine : Engine}.

(** [String(v)]. *)
Definition ToString (v : value) : completion value string :=
  match v with
  | VUndefined => Normal "undefined"%string
  | VNull => Normal "null"%string
  | VBool true => Normal "true"%string
  | VBool false => Normal "false"%string
  | VNumber n => Normal (Number_toString n)
  | VString s => Normal s
  | VArray _ | VObject _ _ => Object_ToString v
  end.

Definition ToNumber (v : value) : completion value number :=
  match v with
  | VUndefined => Normal nan
  | VNull => Normal 0
  | VBool true => Normal 1
  | VBool false => Normal 0
  | VNumber n => Normal n
  | VString s => Normal (StringToNumber s)
  | VArray _ | VObject _ _ => Object_ToNumber v
  end.

Definition JSON_stringify (v : value) : completion value (option string) :=
  match v with
  | VUndefined => Normal None
  | _ => JSON_stringify_defined v
  end.

(** [v.substring(0, n)] for a value [v]: only a string has the method. *)
Definition substring_of (v : value) (n : number) : completion value string :=
  match v with
  | VString s => Normal (substring0 s n)
  | VUndefined | VNull => Throw (read_error v "substring")
  | _ => Throw (TypeError "substring is not a function")
  end.

(** [v?.substring(0, n)]. *)
Definition opt_substring (v : value) (n : number) : completion value value :=
  if is_nullish v then Normal VUndefined
  else match substring_of v n with
       | Normal s => Normal (VString s)
       | Throw e => Throw e
       end.

(** [Buffer.byteLength(s, 'utf8')] for the result of [JSON.stringify]. *)
Definition Buffer_byteLength (s : option string) : completion value nat :=
  match s with
  | Some s => Normal (utf8_length s)
  | None =>
      Throw (TypeError ("The " ++ Redaction.dquote ++ "string" ++ Redaction.dquote
                        ++ " argument must be of type string or an instance of Buffer"
                        ++ " or ArrayBuffer. Received undefined"))
  end.

(** [getCostCalculator().calculateCost(provider, model, inputTokens,
    outputTokens)] with token counts taken from a result: they are converted
    to numbers where the cost is computed, after the two lookups. *)
Definition calculateCost (provider model : string) (inputTokens outputTokens : value)
  : M number :=
  pricing <- getCostCalculator ;;
  match Cost.findPricing pricing provider model with
  | None => ret 0.0
  | Some modelPricing =>
      i <- lift (ToNumber inputTokens) ;;
      o <- lift (ToNumber outputTokens) ;;
      ret (Cost.costOf modelPricing i o)
  end.

(** [o || d] for an optional string. *)
Definition or_default (o : option string) (d : string) : string :=
  match o with
  | None => d
  | Some EmptyString => d
  | Some s => s
  end.

(** [v || 0]. *)
Definition or_zero (v : value) : value := if truthy v then v else VNumber 0.

(** [if (options.x) { k(options.x) }] for an optional property [x]. *)
Definition if_given (o : option value) (k : value -> M unit) : M unit :=
  match o with
  | Some v => when (truthy v) (k v)
  | None => ret tt
  end.

(** The [catch] block of [traceEmbed], [traceRetrieve], [traceRerank] and
    [traceGenerate]. *)
Definition record_error (error : value) : M value :=
  message <- lift (get_prop error "message") ;;
  span (SetStatus ERROR message) ;;
  type <- lift (constructor_name error) ;;
  message <- lift (get_prop error "message") ;;
  short <- lift (opt_substring message 200) ;;
  span (SetAttributes [("error", VBool true); ("error.type", type); ("error.message", short)]) ;;
  throw error.

Record EmbedOptions := {
  embed_model : string;
  embed_provider : option string;
  embed_batchSize : option number;
  embed_dimensions : option number
}.

Definition traceEmbed (options : EmbedOptions) (originalMethod : Callable)
  (args : list value) : M value :=
  config <- getConfig ;;
  startTime <- Date_now ;;
  startActiveSpan "gen_ai.embed"
    (try_catch_finally
       (span (SetAttributes
                [("gen_ai.operation.name", VString "embed");
                 ("gen_ai.request.model", VString (embed_model options));
                 ("gen_ai.request.provider", VString (or_default (embed_provider options) "openai"));
                 ("gen_ai.environment", VString (Config.environment config))]) ;;
        if_given (option_map VNumber (embed_batchSize options))
          (fun batchSize => span (SetAttribute "gen_ai.request.batch_size" batchSize)) ;;
        if_given (option_map VNumber (embed_dimensions options))
          (fun dimensions => span (SetAttribute "gen_ai.response.dimensions" dimensions)) ;;
        result <- call originalMethod args ;;
        when (truthy (opt_prop (opt_prop result "usage") "total_tokens"))
          (usage <- lift (get_prop result "usage") ;;
           inputTokens <- lift (get_prop usage "total_tokens") ;;
           span (SetAttribute "gen_ai.usage.input_tokens" inputTokens) ;;
           cost <- calculateCost (or_default (embed_provider options) "openai")
                     (embed_model options) inputTokens (VNumber 0) ;;
           when (0 <? cost) (span (SetAttribute "gen_ai.usage.cost_usd" (VNumber cost)))) ;;
        now <- Date_now ;;
        span (SetAttribute "gen_ai.request.duration_ms" (VNumber (now - startTime))) ;;
        span (SetStatus OK VUndefined) ;;
        ret result)
       record_error
       (span SpanEnd)).

Record RetrieveOptions := {
  retrieve_source : string;
  retrieve_topK : number;
  retrieve_indexName : option string;
  retrieve_filters : option value
}.

(** [JSON.stringify(v).substring(0, n)]. *)
Definition stringify_prefix (v : value) (n : number) : completion value string :=
  match JSON_stringify v with
  | Normal (Some s) => Normal (substring0 s n)
  | Normal None => Throw (read_error VUndefined "substring")
  | Throw e => Throw e
  end.

Definition traceRetrieve (options : RetrieveOptions) (originalMethod : Callable)
  (args : list value) : M value :=
  config <- getConfig ;;
  startTime <- Date_now ;;
  startActiveSpan "gen_ai.retrieve"
    (try_catch_finally
       (span (SetAttributes
                [("gen_ai.operation.name", VString "retrieve");
                 ("gen_ai.retrieval.top_k", VNumber (retrieve_topK options));
                 ("gen_ai.retrieval.source", VString (retrieve_source options));
                 ("gen_ai.environment", VString (Config.environment config))]) ;;
        if_given (option_map VString (retrieve_indexName options))
          (fun indexName => span (SetAttribute "gen_ai.retrieval.index_name" indexName)) ;;
        if_given (retrieve_filters options)
          (fun filters =>
             text <- lift (stringify_prefix filters (Config.maxAttributeLength config)) ;;
             span (SetAttribute "gen_ai.retrieval.filters" (VString text))) ;;
        result <- call originalMethod args ;;
        let resultsCount :=
          match result with
          | VArray l => of_nat (List.length l)
          | _ => 0
          end in
        span (SetAttribute "gen_ai.retrieval.results_count" (VNumber resultsCount)) ;;
        span (SetAttribute "gen_ai.retrieval.hit_at_k"
                (VNumber (if 0 <? resultsCount then 1 else 0))) ;;
        now <- Date_now ;;
        span (SetAttribute "gen_ai.request.duration_ms" (VNumber (now - startTime))) ;;
        span (SetStatus OK VUndefined) ;;
        ret result)
       record_error
       (span SpanEnd)).

Record RerankOptions := {
  rerank_model : string;
  rerank_provider : option string;
  rerank_inputCount : option number;
  rerank_topN : option number
}.

Definition traceRerank (options : RerankOptions) (originalMethod : Callable)
  (args : list value) : M value :=
  config <- getConfig ;;
  startTime <- Date_now ;;
  startActiveSpan "gen_ai.rerank"
    (try_catch_finally
       (span (SetAttributes
                [("gen_ai.operation.name", VString "rerank");
                 ("gen_ai.rerank.model", VString (rerank_model options));
                 ("gen_ai.environment", VString (Config.environment config))]) ;;
        if_given (option_map VNumber (rerank_inputCount options))
          (fun inputCount => span (SetAttribute "gen_ai.rerank.input_count" inputCount)) ;;
        if_given (option_map VNumber (rerank_topN options))
          (fun topN => span (SetAttribute "gen_ai.rerank.top_n" topN)) ;;
        result <- call originalMethod args ;;
        let outputCount :=
          match result with
          | VArray l => of_nat (List.length l)
          | _ => 0
          end in
        span (SetAttribute "gen_ai.rerank.output_count" (VNumber outputCount)) ;;
        now <- Date_now ;;
        span (SetAttribute "gen_ai.request.duration_ms" (VNumber (now - startTime))) ;;
        span (SetStatus OK VUndefined) ;;
        ret result)
       record_error
       (span SpanEnd)).

Record GenerateOptions := {
  generate_model : string;
  generate_provider : option string;
  generate_temperature : option number;
  generate_maxTokens : option number;
  generate_streaming : option bool
}.

(** [result?.choices?.[0]]. *)
Definition first_choice (result : value) : value :=
  opt_prop (opt_prop result "choices") "0".

Definition traceGenerate (options : GenerateOptions) (originalMethod : Callable)
  (args : list value) : M value :=
  config <- getConfig ;;
  startTime <- Date_now ;;
  startActiveSpan "gen_ai.generate"
    (try_catch_finally
       (span (SetAttributes
                [("gen_ai.operation.name", VString "generate");
                 ("gen_ai.request.model", VString (generate_model options));
                 ("gen_ai.request.provider",
                   VString (or_default (generate_provider options) "openai"));
                 ("gen_ai.environment", VString (Config.environment config))]) ;;
        match generate_temperature options with
        | Some t => span (SetAttribute "gen_ai.request.temperature" (VNumber t))
        | None => ret tt
        end ;;
        if_given (option_map VNumber (generate_maxTokens options))
          (fun maxTokens => span (SetAttribute "gen_ai.request.max_tokens" maxTokens)) ;;
        if_given (option_map VBool (generate_streaming options))
          (fun streaming => span (SetAttribute "gen_ai.request.streaming" streaming)) ;;
        when (Config.logPrompts config && negb (Nat.eqb (List.length args) 0))
          (text <- lift (ToString (nth 0 args VUndefined)) ;;
           let promptText := substring0 text (Config.maxAttributeLength config) in
           reg <- getRegistry ;;
           span (SetAttribute "gen_ai.prompt"
                   (VString (Redaction.redactSensitiveData reg promptText config)))) ;;
        result <- call originalMethod args ;;
        when (truthy (opt_prop result "usage"))
          (usage <- lift (get_prop result "usage") ;;
           let inputTokens := or_zero (prop usage "prompt_tokens") in
           let outputTokens := or_zero (prop usage "completion_tokens") in
           let totalTokens := or_zero (prop usage "total_tokens") in
           span (SetAttributes
                   [("gen_ai.usage.input_tokens", inputTokens);
                    ("gen_ai.usage.output_tokens", outputTokens);
                    ("gen_ai.usage.total_tokens", totalTokens)]) ;;
           cost <- calculateCost (or_default (generate_provider options) "openai")
                     (generate_model options) inputTokens outputTokens ;;
           when (0 <? cost) (span (SetAttribute "gen_ai.usage.cost_usd" (VNumber cost)))) ;;
        when (truthy (opt_prop (first_choice result) "finish_reason"))
          (span (SetAttribute "gen_ai.response.finish_reason"
                   (opt_prop (first_choice result) "finish_reason"))) ;;
        when (Config.logPrompts config
              && truthy (opt_prop (opt_prop (first_choice result) "message") "content"))
          (completion <- lift (substring_of
                                 (opt_prop (opt_prop (first_choice result) "message") "content")
                                 (Config.maxAttributeLength config)) ;;
           reg <- getRegistry ;;
           span (SetAttribute "gen_ai.completion"
                   (VString (Redaction.redactSensitiveData reg completion config)))) ;;
        now <- Date_now ;;
        span (SetAttribute "gen_ai.request.duration_ms" (VNumber (now - startTime))) ;;
        span (SetStatus OK VUndefined) ;;
        ret result)
       record_error
       (span SpanEnd)).

Record ToolCallOptions := {
  tool_toolName : string;
  tool_parameters : option value
}.

Definition traceToolCall (options : ToolCallOptions) (originalMethod : Callable)
  (args : list value) : M value :=
  config <- getConfig ;;
  startTime <- Date_now ;;
  set_resultStatus "success" ;;
  set_errorType VUndefined ;;
  startActiveSpan "gen_ai.tool_call"
    (try_catch_finally
       (span (SetAttributes
                [("gen_ai.operation.name", VString "tool_call");
                 ("gen_ai.tool.name", VString (tool_toolName options));
                 ("gen_ai.environment", VString (Config.environment config))]) ;;
        if_given (tool_parameters options)
          (fun parameters =>
             paramsStr <- lift (stringify_prefix parameters (Config.maxAttributeLength config)) ;;
             reg <- getRegistry ;;
             span (SetAttribute "gen_ai.tool.parameters"
                     (VString (Redaction.redactSensitiveData reg paramsStr config)))) ;;
        result <- call originalMethod args ;;
        resultStr <- lift (JSON_stringify result) ;;
        resultSize <- lift (Buffer_byteLength resultStr) ;;
        span (SetAttribute "gen_ai.tool.result_size_bytes" (VNumber (of_nat resultSize))) ;;
        now <- Date_now ;;
        span (SetAttribute "gen_ai.request.duration_ms" (VNumber (now - startTime))) ;;
        span (SetStatus OK VUndefined) ;;
        ret result)
       (fun error =>
          set_resultStatus "error" ;;
          type <- lift (constructor_name error) ;;
          set_errorType type ;;
          message <- lift (get_prop error "message") ;;
          span (SetStatus ERROR message) ;;
          type <- get_errorType ;;
          message <- lift (get_prop error "message") ;;
          short <- lift (opt_substring message 200) ;;
          span (SetAttributes
                  [("error", VBool true); ("error.type", type); ("error.message", short)]) ;;
          throw error)
       (status <- get_resultStatus ;;
        span (SetAttribute "gen_ai.tool.result_status" (VString status)) ;;
        type <- get_errorType ;;
        when (truthy type) (span (SetAttribute "gen_ai.tool.error_type" type)) ;;
        span SpanEnd)).

(** The five operation kinds with their static descriptors. *)
Inductive Operation :=
| Embed (options : EmbedOptions)
| Retrieve (options : RetrieveOptions)
| Rerank (options : RerankOptions)
| Generate (options : GenerateOptions)
| ToolCall (options : ToolCallOptions).

Definition instrumented (op : Operation) : Callable -> list value -> M value :=
  match op with
  | Embed options => traceEmbed options
  | Retrieve options => traceRetrieve options
  | Rerank options => traceRerank options
  | Generate options => traceGenerate options
  | ToolCall options => traceToolCall options
  end.

(** What [traceGenerate] is to attach as the prompt of a call made in world
    [w]: the first argument as a string, cut to [maxAttributeLength], then
    redacted, with the configuration and the registry of [w]. *)
Definition prompt_of (w : World) (args : list value) (v : value) : Prop :=
  exists text,
    ToString (nth 0 args VUndefined) = Normal text
    /\ v = VString (Redaction.redactSensitiveData (registry w)
                      (substring0 text (Config.maxAttributeLength (config w))) (config w)).

(** What [traceGenerate] is to attach as the completion: the content of the
    first choice of the result, cut to [maxAttributeLength], then redacted,
    with the configuration of [w] and the registry the wrapped function
    left. *)
Definition completion_of (w : World) (originalMethod : Callable) (args : list value)
  (v : value) : Prop :=
  exists result w1 content,
    originalMethod args w = (Normal result, w1)
    /\ opt_prop (opt_prop (first_choice result) "message") "content" = VString content
    /\ v = VString (Redaction.redactSensitiveData (registry w1)
                      (substring0 content (Config.maxAttributeLength (config w))) (config w)).

(** One instrumented call from world [w]: how it ends, the calls made on its
    span, and the world it leaves. *)
Definition run {A : Type} (m : M A) (w : World) : completion value A * list span_op * World :=
  let '(r, s) := m {| world := w; ops := []; resultStatus := EmptyString;
                      errorType := VUndefined |} in
  (r, ops s, world s).

End WithEngine.

(** *** Reading a span *)

(** The attributes set on the span, in the order they were set. *)
Fixpoint attributes (log : list span_op) : list (string * value) :=
  match log with
  | [] => []
  | SetAttributes l :: r => l ++ attributes r
  | SetAttribute k v :: r => (k, v) :: attributes r
  | _ :: r => attributes r
  end.

(** The values given to attribute [k], in the order they were set. *)
Definition attribute_values (k : string) (log : list span_op) : list value :=
  map snd (filter (fun kv => String.eqb (fst kv) k) (attributes log)).

Definition has_attribute (k : string) (log : list span_op) : bool :=
  match attribute_values k log with
  | [] => false
  | _ :: _ => true
  end.

(** How many times the span was ended. *)
Fixpoint end_count (log : list span_op) : nat :=
  match log with
  | [] => O
  | SpanEnd :: r => S (end_count r)
  | _ :: r => end_count r
  end.

Definition not_ended (l : list span_op) : Prop := end_count l = O.

Definition ended_once (l : list span_op) : Prop := end_count l = 1%nat.

(** No prompt and no completion on the span. *)
Definition unlogged (l : list span_op) : Prop :=
  attribute_values "gen_ai.prompt" l = [] /\ attribute_values "gen_ai.completion" l = [].

(** Every prompt and every completion on the span is the one
    [traceGenerate] is to attach. *)
Definition logged {engine : Engine} (w : World) (originalMethod : Callable)
  (args : list value) (l : list span_op) : Prop :=
  Forall (prompt_of w args) (attribute_values "gen_ai.prompt" l)
  /\ Forall (completion_of w originalMethod args) (attribute_values "gen_ai.completion" l).

(** The worlds that have the registry the wrapped function left. *)
Definition after_call (w : World) (originalMethod : Callable) (args : list value)
  (w' : World) : Prop :=
  exists result w1, originalMethod args w = (Normal result, w1) /\ registry w' = registry w1.

(** What the catch blocks attach as [error.message] for the error [e]:
    [e.message?.substring(0, 200)], when that does not throw. *)
Definition short_message (e : value) : option value :=
  match prop e "message" with
  | VString s => Some (VString (substring0 s 200))
  | VUndefined | VNull => Some VUndefined
  | _ => None
  end.

(** The call gets to the wrapped function without going through the engine:
    no filters or parameters to serialize, and no prompt to log, or a prompt
    that is a string already. *)
Definition reaches_call (op : Operation) (w : World) (args : list value) : bool :=
  match op with
  | Embed _ | Rerank _ => true
  | Retrieve options =>
      match retrieve_filters options with
      | Some v => negb (truthy v)
      | None => true
      end
  | Generate _ =>
      negb (Config.logPrompts (config w))
      || match args with
         | [] | VString _ :: _ => true
         | _ => false
         end
  | ToolCall options =>
      match tool_parameters options with
      | Some v => negb (truthy v)
      | None => true
      end
  end.

(** *** Reasoning about a call *)

(** From a state that satisfies [P], the computation [m] ends normally in a
    state that satisfies [Q], or throws in a state that satisfies [E]. *)
Definition hoare {A : Type} (P : State -> Prop) (m : M A)
  (Q : A -> State -> Prop) (E : value -> State -> Prop) : Prop :=
  forall s, P s ->
    match m s with
    | (Normal a, s') => Q a s'
    | (Throw e, s') => E e s'
    end.

(** No condition on the world. *)
Definition any_world : World -> Prop := fun _ => True.

(** No condition on a result. *)
Definition any_result {A : Type} : A -> Prop := fun _ => True.

(** [step W W' J m R]: from a world that satisfies [W] and a span on which
    [J] holds, [m] either returns a result that satisfies [R] in a world
    that satisfies [W'], or throws; either way [J] holds on the span
    afterwards. *)
Definition step {A : Type} (W W' : World -> Prop) (J : list span_op -> Prop)
  (m : M A) (R : A -> Prop) : Prop :=
  hoare (fun s => W (world s) /\ J (ops s)) m
    (fun a s => R a /\ W' (world s) /\ J (ops s))
    (fun _ s => J (ops s)).

End Instrumentation.

(** ** An engine for closed examples *)

(** [String.prototype.replace] is defined here for the patterns that are
    plain text: a non-empty source of letters, digits, spaces, [-], [_] and
    [@], with no flag or the flag [g], and a replacement without [$].
    [Number::toString] is defined for the integers below [10^21] in
    magnitude, [NaN] and the infinities. The examples of this development
    stay inside this fragment; outside it the instance leaves the text
    unchanged and rejects the conversions. *)
Module LiteralEngine.

Import JsNumber JsValue.

Definition plain_char (c : ascii) : bool :=
  let n := N_of_ascii c in
  ((48 <=? n) && (n <=? 57) || (65 <=? n) && (n <=? 90) || (97 <=? n) && (n <=? 122)
   || (n =? 32) || (n =? 45) || (n =? 95) || (n =? 64))%N.

Fixpoint all_chars (p : ascii -> bool) (s : string) : bool :=
  match s with
  | EmptyString => true
  | String c r => p c && all_chars p r
  end.

Definition plain_text (s : string) : bool :=
  negb (String.eqb s EmptyString) && all_chars plain_char s.

(** Left to right: at a position where [lit] occurs the replacement is
    written and the occurrence skipped; after the first replacement a
    pattern without [g] copies the rest. *)
Fixpoint replace_text (lit repl : string) (global : bool) (skip : nat) (stop : bool)
  (s : string) : string :=
  match s with
  | EmptyString => EmptyString
  | String c r =>
      match skip with
      | S k => replace_text lit repl global k stop r
      | O =>
          if negb stop && String.prefix lit s then
            (repl ++ replace_text lit repl global (String.length lit - 1) (negb global) r)%string
          else String c (replace_text lit repl global O stop r)
      end
  end.

Definition replace (text : string) (pattern : RegExp) (replacement : string) : string :=
  if plain_text (source pattern)
     && all_chars (fun c => negb (Ascii.eqb c "$")) replacement then
    if String.eqb (flags pattern) "g" then replace_text (source pattern) replacement true O false text
    else if String.eqb (flags pattern) EmptyString then
      replace_text (source pattern) replacement false O false text
    else text
  else text.

Definition integer_string (n : number) : string :=
  match Prim2SF n with
  | S754_nan => "NaN"
  | S754_infinity s => if s then "-Infinity" else "Infinity"
  | S754_zero _ => "0"
  | S754_finite s m e =>
      ((if s then "-" else EmptyString)
       ++ decimal_string (if (0 <=? e)%Z then Z.shiftl (Zpos m) e else Z.shiftr (Zpos m) (- e)))%string
  end.

Definition unsupported {A : Type} : completion value A :=
  Throw (VString "outside the fragment").

#[export] Instance engine : Engine := {|
  String_replace := replace;
  Number_toString := integer_string;
  Object_ToString := fun _ => unsupported;
  Object_ToNumber := fun _ => unsupported;
  JSON_stringify_defined := fun _ => unsupported
|}.

End LiteralEngine.

(** ** The specification's words *)

Module Spec.

(** [a] is a substring of [b]. *)
Definition substring_of (a b : string) : Prop :=
  exists before after, b = (before ++ a ++ after)%string.



End Spec.

(** ** Forms of strings and numbers *)

Module Forms.

(** A string with no white space in front. *)
Definition trimmed_start (s : string) : Prop :=
  match s with
  | EmptyString => True
  | String c _ => JsString.is_space c = false
  end.

(** A Number other than [NaN] and the infinities. *)
Definition finite (x : JsNumber.number) : bool :=
  match Prim2SF x with
  | S754_zero _ | S754_finite _ _ _ => true
  | _ => false
  end.

End Forms.

(** ** Reading the span of a finished call *)

Module Trace.

Import JsNumber JsValue Instrumentation.
Local Open Scope float_scope.
Local Open Scope list_scope.

(** The status codes given to the span, in the order they were set. *)
Fixpoint statuses (log : list span_op) : list SpanStatusCode :=
  match log with
  | [] => []
  | SetStatus code _ :: r => code :: statuses r
  | _ :: r => statuses r
  end.

(** The name each wrapper gives its span. *)
Definition span_name (op : Operation) : string :=
  match op with
  | Embed _ => "gen_ai.embed"
  | Retrieve _ => "gen_ai.retrieve"
  | Rerank _ => "gen_ai.rerank"
  | Generate _ => "gen_ai.generate"
  | ToolCall _ => "gen_ai.tool_call"
  end.

(** The value each wrapper gives [gen_ai.operation.name]. *)
Definition operation_name (op : Operation) : string :=
  match op with
  | Embed _ => "embed"
  | Retrieve _ => "retrieve"
  | Rerank _ => "rerank"
  | Generate _ => "generate"
  | ToolCall _ => "tool_call"
  end.

(** The attribute keys one call on the span writes. *)
Definition keys_of (op : span_op) : list string :=
  match op with
  | SetAttributes l => map fst l
  | SetAttribute k _ => [k]
  | _ => []
  end.

Definition avoids (keys : list string) (op : span_op) : bool :=
  forallb (fun k => negb (existsb (String.eqb k) keys)) (keys_of op).

(** The keys written where a call ends: after the wrapped function
    returned, in the [catch] block and in the [finally] block. *)
Definition end_keys : list string :=
  [ "gen_ai.request.duration_ms"; "error"; "error.type"; "error.message";
    "gen_ai.tool.result_status"; "gen_ai.tool.error_type" ].

(** The keys of the attributes every span starts with. *)
Definition start_keys : list string := [ "gen_ai.operation.name"; "gen_ai.environment" ].

(** A call on the span made in the course of the work: it sets attributes,
    under keys other than the ones of the start and the end. *)
Definition in_course (op : span_op) : bool :=
  match op with
  | SetAttributes _ | SetAttribute _ _ => avoids (start_keys ++ end_keys) op
  | _ => false
  end.

(** A call on the span that may be made on a failing call as well: one made
    in the course of the work, the status [ERROR], or the error
    attributes. *)
Definition in_failure (op : span_op) : bool :=
  match op with
  | SetAttributes _ | SetAttribute _ _ =>
      avoids (start_keys ++ [ "gen_ai.request.duration_ms"; "gen_ai.tool.result_status";
                              "gen_ai.tool.error_type" ]) op
  | SetStatus ERROR _ => true
  | _ => false
  end.

(** The span so far is [hd] followed by calls made in the course of the
    work. *)
Definition course (hd l : list span_op) : Prop :=
  exists mid, l = hd ++ mid /\ Forall (fun op => in_course op = true) mid.

Definition failing (hd l : list span_op) : Prop :=
  exists mid, l = hd ++ mid /\ Forall (fun op => in_failure op = true) mid.

Definition at_world (w0 w : World) : Prop := w = w0.

(** The wrapped function returned [result] from [w0], and [w] is the world
    it left, but for the cost calculator. *)
Definition returned (originalMethod : Callable) (args : list value) (w0 : World)
  (result : value) (w : World) : Prop :=
  exists w1,
    originalMethod args w0 = (Normal result, w1)
    /\ config w = config w1 /\ registry w = registry w1 /\ clock w = clock w1.

(** What the [try] block adds to the span last, when it gets to its end. *)
Definition success_marks (duration : number) : list span_op :=
  [ SetAttribute "gen_ai.request.duration_ms" (VNumber duration);
    SetStatus OK VUndefined ].

(** What the [finally] block adds to the span: [span.end()], after the two
    attributes of [traceToolCall]. *)
Definition closing (op : Operation) (status : string) (type : value) : list span_op :=
  match op with
  | ToolCall _ =>
      SetAttribute "gen_ai.tool.result_status" (VString status)
      :: (if truthy type then [SetAttribute "gen_ai.tool.error_type" type] else [])
      ++ [SpanEnd]
  | _ => [SpanEnd]
  end.

(** The state [s] with [l] added to its span. *)
Definition add_ops (s : State) (l : list span_op) : State :=
  {| world := world s; ops := ops s ++ l;
     resultStatus := resultStatus s; errorType := errorType s |}.

(** The attributes a span starts with. *)
Definition start_attributes (op : Operation) (w : World) (static : list (string * value))
  : Prop :=
  attribute_values "gen_ai.operation.name" [SetAttributes static]
  = [VString (operation_name op)]
  /\ attribute_values "gen_ai.environment" [SetAttributes static]
     = [VString (Config.environment (config w))]
  /\ avoids end_keys (SetAttributes static) = true.

(** The shape of every instrumented call, by the way it ends. *)
Definition outcome (op : Operation) (originalMethod : Callable) (args : list value)
  (w : World) (res : completion value value * list span_op * World) : Prop :=
  let '(r, log, w') := res in
  exists static mid,
    start_attributes op w static
    /\ match r with
       | Normal v =>
           returned originalMethod args w v w'
           /\ Forall (fun o => in_course o = true) mid
           /\ log = [StartSpan (span_name op); SetAttributes static] ++ mid
                    ++ success_marks (clock w' - clock w)
                    ++ closing op "success" VUndefined
       | Throw _ =>
           exists type,
             Forall (fun o => in_failure o = true) mid
             /\ log = [StartSpan (span_name op); SetAttributes static] ++ mid
                      ++ closing op "error" type
       end.

(** The span so far is [hd] followed by calls that write none of
    [keys]. *)
Definition written (keys : list string) (hd l : list span_op) : Prop :=
  exists more, l = hd ++ more /\ Forall (fun op => avoids keys op = true) more.

(** The span so far has, under each key of [kvs], the values listed with
    it. *)
Definition readings (kvs : list (string * list value)) (l : list span_op) : Prop :=
  Forall (fun kv => attribute_values (fst kv) l = snd kv) kvs.

(** [result.length] of a result that is an array, [0] of another one. *)
Definition count_of (result : value) : number :=
  match result with
  | VArray l => of_nat (List.length l)
  | _ => 0
  end.

(** A computation that leaves the two local variables of [traceToolCall]
    as they are. *)
Definition keeps_locals {A : Type} (m : M A) : Prop :=
  forall s, resultStatus (snd (m s)) = resultStatus s
            /\ errorType (snd (m s)) = errorType s.

End Trace.

(** ** An engine with JSON for closed examples *)

(** [LiteralEngine] with [JSON.stringify] for [null], the booleans and the
    strings of plain characters, which are written between double quotes as
    they are. *)
Module JsonEngine.

Import JsValue.

Definition stringify (v : value) : completion value (option string) :=
  match v with
  | VNull => Normal (Some "null")
  | VBool true => Normal (Some "true")
  | VBool false => Normal (Some "false")
  | VString s =>
      if LiteralEngine.all_chars LiteralEngine.plain_char s then
        Normal (Some (Redaction.dquote ++ s ++ Redaction.dquote))
      else LiteralEngine.unsupported
  | _ => LiteralEngine.unsupported
  end.

Definition engine : Engine := {|
  String_replace := LiteralEngine.replace;
  Number_toString := LiteralEngine.integer_string;
  Object_ToString := fun _ => LiteralEngine.unsupported;
  Object_ToNumber := fun _ => LiteralEngine.unsupported;
  JSON_stringify_defined := stringify
|}.

End JsonEngine.

(** * Properties *)

(** ** Comparison of numbers *)

Section NumberFacts.

Import JsNumber.
Local Open Scope float_scope.

Lemma SFcompare_antisym (a b : spec_float) :
  SFcompare b a = option_map CompOpp (SFcompare a b).
Proof.
  destruct a as [sa| sa | |sa ma ea], b as [sb|sb| |sb mb eb]; simpl;
    try reflexivity; try (destruct sa; reflexivity); try (destruct sb; reflexivity);
    try (destruct sa, sb; reflexivity).
  destruct sa, sb; simpl; try reflexivity;
    rewrite (Z.compare_antisym ea eb); destruct (ea ?= eb)%Z; simpl; try reflexivity;
    rewrite (Pos.compare_cont_antisym ma mb Eq); simpl;
    destruct (Pos.compare_cont Eq ma mb); reflexivity.
Qed.

Lemma SFcompare_none (a b : spec_float) :
  SFcompare a b = None -> a = S754_nan \/ b = S754_nan.
Proof.
  destruct a, b; simpl; intros H; try discriminate; auto.
Qed.

Lemma isNaN_false (x : number) : isNaN x = false -> Prim2SF x <> S754_nan.
Proof.
  unfold isNaN. rewrite eqb_spec. intros H E. rewrite E in H. discriminate.
Qed.

(** Between numbers, [not (x < y)] is [y <= x]. *)
Lemma not_ltb_leb (x y : number) :
  isNaN x = false -> isNaN y = false -> (x <? y) = false -> (y <=? x) = true.
Proof.
  intros Hx Hy. apply isNaN_false in Hx. apply isNaN_false in Hy.
  rewrite ltb_spec, leb_spec. unfold SFltb, SFleb.
  rewrite (SFcompare_antisym (Prim2SF x) (Prim2SF y)).
  destruct (SFcompare (Prim2SF x) (Prim2SF y)) as [[ | | ]|] eqn:E; simpl; try reflexivity.
  - discriminate.
  - apply SFcompare_none in E. tauto.
Qed.

End NumberFacts.

(** ** Configuration state *)

Section ConfigFacts.

Import JsNumber Config.
Local Open Scope float_scope.

(** Whatever way [setConfig] ends, the module variable holds the merged
    record. *)
Lemma setConfig_assigns_merge (newConfig : PartialConfig) (config : GenAIConfig) :
  snd (setConfig newConfig config) = spread config newConfig.
Proof.
  unfold setConfig.
  destruct ((sampleRate (spread config newConfig) <? 0)
            || (1 <? sampleRate (spread config newConfig))); [reflexivity|].
  destruct (maxAttributeLength (spread config newConfig) <? 100); reflexivity.
Qed.

(** A call that returns normally leaves a record that passed both tests. *)
Lemma setConfig_success_validated (newConfig : PartialConfig) (config : GenAIConfig) :
  succeeds newConfig config = true ->
  let c := snd (setConfig newConfig config) in
  (sampleRate c <? 0) = false /\ (1 <? sampleRate c) = false
  /\ (maxAttributeLength c <? 100) = false.
Proof.
  unfold succeeds, setConfig. cbv zeta.
  destruct (sampleRate (spread config newConfig) <? 0) eqn:E1;
    [cbn [orb fst snd]; discriminate|].
  destruct (1 <? sampleRate (spread config newConfig)) eqn:E2;
    [cbn [orb fst snd]; discriminate|].
  destruct (maxAttributeLength (spread config newConfig) <? 100) eqn:E3;
    cbn [orb fst snd]; [discriminate|].
  intros _. repeat split; assumption.
Qed.

Lemma validated_in_bounds (c : GenAIConfig) :
  numeric c = true ->
  (sampleRate c <? 0) = false -> (1 <? sampleRate c) = false ->
  (maxAttributeLength c <? 100) = false ->
  in_bounds c = true.
Proof.
  unfold numeric, in_bounds. intros N H1 H2 H3.
  apply andb_prop in N. destruct N as [N1 N2].
  apply negb_true_iff in N1. apply negb_true_iff in N2.
  rewrite (not_ltb_leb (sampleRate c) 0), (not_ltb_leb 1 (sampleRate c)),
    (not_ltb_leb (maxAttributeLength c) 100); auto.
Qed.

Lemma run_snoc (updates : list PartialConfig) (p : PartialConfig) (config : GenAIConfig) :
  run (updates ++ [p]) config = snd (setConfig p (run updates config)).
Proof. unfold run. rewrite fold_left_app. reflexivity. Qed.

Lemma all_succeed_snoc (updates : list PartialConfig) (p : PartialConfig) (config : GenAIConfig) :
  all_succeed (updates ++ [p]) config = true -> succeeds p (run updates config) = true.
Proof.
  revert config. induction updates as [|q updates IH]; simpl; intros config H.
  - apply andb_prop in H. tauto.
  - apply andb_prop in H. destruct H as [_ H]. apply IH in H. exact H.
Qed.

(** C1. Claim: when [setConfig(P)] is rejected, a configuration error is
    signalled and [getConfig()] still returns the configuration [C] in
    effect before the call. The code assigns the merged record to [config]
    before it validates, so in every case the record observable afterwards
    is the merge; with the default configuration and [P = { sampleRate: 1.5 }]
    the call throws and [getConfig()] then has [sampleRate = 1.5], not the
    [0.01] of [C]. *)
Theorem setConfig_rejected_update_is_retained :
  let C := defaultConfig empty_env in
  let P := only_sampleRate 1.5 in
  fst (setConfig P C) = Throw (mkError "sampleRate must be between 0 and 1")
  /\ (sampleRate (getConfig C) =? 0.01) = true
  /\ (sampleRate (getConfig (snd (setConfig P C))) =? 1.5) = true
  /\ getConfig (snd (setConfig P C)) <> C
  /\ (forall (newConfig : PartialConfig) (config : GenAIConfig),
        getConfig (snd (setConfig newConfig config)) = spread config newConfig).
Proof.
  cbv zeta. repeat split.
  - intros H.
    apply (f_equal (fun c => sampleRate c =? 1.5)) in H. vm_compute in H. discriminate.
  - intros newConfig config. apply setConfig_assigns_merge.
Qed.

(** C2, as stated, fails at the initial configuration: the values read from
    the environment are not validated, so with
    [GENAI_OTEL_SAMPLE_RATE=2] the configuration observable before any
    [setConfig] call has [sampleRate = 2]. *)
Lemma initial_configuration_can_be_out_of_bounds :
  ~ (forall (env : Env) (updates : list PartialConfig),
       in_bounds (getConfig (run updates (defaultConfig env))) = true).
Proof.
  intros H. specialize (H (env_with "GENAI_OTEL_SAMPLE_RATE" "2") []).
  vm_compute in H. discriminate.
Qed.

(** C2, amended. From a configuration within the bounds (the default one
    is, when the environment sets neither value), after any sequence of
    [setConfig] calls that all return normally, the configuration observable
    via [getConfig()] has [sampleRate] in [0,1] and
    [maxAttributeLength >= 100], provided both are numbers ([NaN] passes the
    two comparisons of the validation). *)
Theorem successful_updates_keep_bounds (config : GenAIConfig) (updates : list PartialConfig) :
  in_bounds config = true ->
  all_succeed updates config = true ->
  numeric (run updates config) = true ->
  in_bounds (getConfig (run updates config)) = true.
Proof.
  intros Hc Hs Hn. unfold getConfig.
  destruct updates as [|p updates] using rev_ind; [exact Hc|].
  apply all_succeed_snoc in Hs. rewrite run_snoc in *.
  destruct (setConfig_success_validated p (run updates config) Hs) as (H1 & H2 & H3).
  apply validated_in_bounds; assumption.
Qed.

Lemma successful_updates_keep_bounds_witness :
  in_bounds (getConfig (run [only_sampleRate 0.5; only_maxAttributeLength 500; no_update]
                          (defaultConfig empty_env))) = true.
Proof.
  apply successful_updates_keep_bounds; vm_compute; reflexivity.
Defined.

End ConfigFacts.

(** ** Strings and objects *)

Section StringFacts.

Import JsString.



End StringFacts.

Section ObjectFacts.

Context {V : Type}.

Lemma get_set_same (o : JsObject.t V) (k : string) (v : V) :
  JsObject.get (JsObject.set o k v) k = Some v.
Proof.
  induction o as [|[k' v'] o IH]; simpl.
  - rewrite String.eqb_refl. reflexivity.
  - destruct (String.eqb k' k) eqn:E; simpl; rewrite E; [reflexivity | exact IH].
Qed.

Lemma get_set_other (o : JsObject.t V) (k k' : string) (v : V) :
  k <> k' -> JsObject.get (JsObject.set o k v) k' = JsObject.get o k'.
Proof.
  intros N. induction o as [|[j w] o IH]; simpl.
  - destruct (String.eqb k k') eqn:E; [apply String.eqb_eq in E; contradiction | reflexivity].
  - destruct (String.eqb j k) eqn:E; simpl.
    + apply String.eqb_eq in E. subst j.
      destruct (String.eqb k k') eqn:E'; [apply String.eqb_eq in E'; contradiction | reflexivity].
    + rewrite IH. reflexivity.
Qed.

End ObjectFacts.

(** ** Writing a number with [toFixed] and reading it back *)

Section FixedRoundTrip.

Import JsNumber.

Lemma digit_of_decimal (c : ascii) :
  is_decimal_digit c = true -> digit_of 10 c = Some (N_of_ascii c - 48)%N.
Proof.
  unfold is_decimal_digit, digit_of. intros H. rewrite H.
  apply andb_prop in H. destruct H as [H1 H2].
  apply N.leb_le in H1. apply N.leb_le in H2.
  replace (N_of_ascii c - 48 <? 10)%N with true; [reflexivity|].
  symmetry. apply N.ltb_lt. lia.
Qed.

Lemma digits_run (ds rest : string) (acc : N) (len : nat) :
  decimal_digits ds = true -> ends_digits rest ->
  digits 10 acc len (ds ++ rest) = (decimal_value acc ds, (len + String.length ds)%nat, rest).
Proof.
  revert acc len. induction ds as [|c ds IH]; intros acc len Hd Hr.
  - simpl. rewrite Nat.add_0_r. destruct rest as [|c r]; [reflexivity|].
    simpl in *. rewrite Hr. reflexivity.
  - simpl in Hd. apply andb_prop in Hd. destruct Hd as [Hc Hd].
    cbn [append digits decimal_value String.length]. rewrite (digit_of_decimal c Hc).
    rewrite IH by assumption. f_equal. f_equal. lia.
Qed.

Lemma decimal_digits_app (a b : string) :
  decimal_digits (a ++ b) = decimal_digits a && decimal_digits b.
Proof.
  induction a as [|c a IH]; [reflexivity|]. simpl. rewrite IH, andb_assoc. reflexivity.
Qed.

Lemma decimal_value_app (a b : string) (acc : N) :
  decimal_value acc (a ++ b) = decimal_value (decimal_value acc a) b.
Proof.
  revert acc. induction a as [|c a IH]; intros acc; [reflexivity|]. simpl. apply IH.
Qed.

Lemma string_of_uint_digits (d : Decimal.uint) :
  decimal_digits (DecimalString.NilEmpty.string_of_uint d) = true.
Proof. induction d; simpl; auto. Qed.

Lemma string_of_uint_value_acc (d : Decimal.uint) (acc : positive) :
  decimal_value (Npos acc) (DecimalString.NilEmpty.string_of_uint d)
  = Npos (Pos.of_uint_acc d acc).
Proof.
  revert acc. induction d; intros acc; [reflexivity|..];
    cbn [DecimalString.NilEmpty.string_of_uint decimal_value Pos.of_uint_acc];
    rewrite <- IHd; f_equal;
    match goal with
    | |- context [N_of_ascii ?c] =>
        let v := eval vm_compute in (N_of_ascii c) in change (N_of_ascii c) with v
    end; lia.
Qed.

Lemma string_of_uint_value (d : Decimal.uint) :
  decimal_value 0 (DecimalString.NilEmpty.string_of_uint d) = N.of_uint d.
Proof.
  unfold N.of_uint. induction d; [reflexivity|..];
    cbn [DecimalString.NilEmpty.string_of_uint decimal_value Pos.of_uint];
    [exact IHd | rewrite <- string_of_uint_value_acc; reflexivity ..].
Qed.

(** The decimal form of a natural number: digits only, at least one, and
    its value is the number. *)
Lemma decimal_string_spec (n : Z) :
  (0 <= n)%Z ->
  decimal_digits (decimal_string n) = true
  /\ decimal_value 0 (decimal_string n) = Z.to_N n
  /\ (1 <= String.length (decimal_string n))%nat.
Proof.
  intros Hn. unfold decimal_string, DecimalString.NilZero.string_of_uint.
  pose proof (DecimalN.Unsigned.of_to (Z.to_N n)) as E.
  set (d := N.to_uint (Z.to_N n)) in *. rewrite <- E. clearbody d. clear.
  destruct d; cbv beta iota;
    (split; [first [reflexivity | apply string_of_uint_digits]|]);
    (split; [first [reflexivity | apply string_of_uint_value] | simpl; lia]).
Qed.

Lemma repeat_zero_digits (k : nat) :
  decimal_digits (JsString.repeat_string k "0") = true
  /\ (forall r, decimal_value 0 (JsString.repeat_string k "0" ++ r) = decimal_value 0 r)
  /\ String.length (JsString.repeat_string k "0") = k.
Proof.
  induction k as [|k (H1 & H2 & H3)]; simpl; repeat split; auto.
Qed.

Lemma length_append (a b : string) :
  String.length (a ++ b) = (String.length a + String.length b)%nat.
Proof. induction a as [|c a IH]; simpl; [reflexivity | rewrite IH; reflexivity]. Qed.

Lemma substring_split (s : string) (a : nat) :
  (a <= String.length s)%nat ->
  (String.substring 0 a s ++ String.substring a (String.length s - a) s)%string = s
  /\ String.length (String.substring 0 a s) = a.
Proof.
  revert a. induction s as [|c s IH]; intros a Ha.
  - simpl in Ha. assert (a = O) by lia. subst a. split; reflexivity.
  - destruct a as [|a].
    + cbn [String.substring String.length Nat.sub append]. split; [|reflexivity].
      f_equal. clear. induction s as [|c s IH]; simpl; [reflexivity | f_equal; exact IH].
    + simpl in Ha. destruct (IH a ltac:(lia)) as [E L].
      cbn [String.substring String.length Nat.sub append]. split; [f_equal; exact E | f_equal; exact L].
Qed.

(** The string [toFixed(f)] writes for the integer [n]: an integer part of
    at least one digit, a point, and [f] digits; read as one number without
    the point it is [n]. *)
Lemma fixed_digits_shape (f : nat) (n : Z) :
  (0 <= n)%Z ->
  exists a b,
    fixed_digits (S f) n = (a ++ "." ++ b)%string
    /\ decimal_digits a = true /\ decimal_digits b = true
    /\ (1 <= String.length a)%nat /\ String.length b = S f
    /\ decimal_value 0 (a ++ b) = Z.to_N n.
Proof.
  intros Hn. destruct (decimal_string_spec n Hn) as (Hd & Hv & Hl).
  unfold fixed_digits.
  set (m := decimal_string n) in *.
  set (m' := if Nat.leb (String.length m) (S f)
             then (JsString.repeat_string (S f + 1 - String.length m) "0" ++ m)%string
             else m).
  assert (Hm' : decimal_digits m' = true /\ decimal_value 0 m' = Z.to_N n
                /\ (S f + 1 <= String.length m')%nat).
  { unfold m'. destruct (Nat.leb (String.length m) (S f)) eqn:E.
    - apply Nat.leb_le in E.
      destruct (repeat_zero_digits (S f + 1 - String.length m)) as (Z1 & Z2 & Z3).
      rewrite decimal_digits_app, Z1, Hd, Z2, length_append, Z3. repeat split; auto. lia.
    - apply Nat.leb_gt in E. repeat split; auto. lia. }
  destruct Hm' as (Hd' & Hv' & Hl').
  destruct (substring_split m' (String.length m' - S f) ltac:(lia)) as [Es Ls].
  replace (String.length m' - (String.length m' - S f))%nat with (S f) in Es by lia.
  exists (String.substring 0 (String.length m' - S f) m'),
         (String.substring (String.length m' - S f) (S f) m').
  split; [reflexivity|].
  assert (Hab := Hd'). rewrite <- Es, decimal_digits_app in Hab.
  apply andb_prop in Hab. destruct Hab as [Ha Hb].
  assert (Lb : String.length (String.substring (String.length m' - S f) (S f) m') = S f).
  { apply (f_equal String.length) in Es. rewrite length_append, Ls in Es. lia. }
  repeat split; auto; [lia | rewrite Es; exact Hv'].
Qed.

Lemma digit_first (c : ascii) (r : string) :
  is_decimal_digit c = true ->
  JsString.is_space c = false
  /\ sign_prefix (String c r) = (false, String c r)
  /\ String.prefix "Infinity" (String c r) = false.
Proof.
  destruct c as [[] [] [] [] [] [] [] []]; intros H; try discriminate H;
    repeat split; reflexivity.
Qed.

Lemma append_empty (s : string) : (s ++ EmptyString)%string = s.
Proof. induction s as [|c s IH]; simpl; [reflexivity | rewrite IH; reflexivity]. Qed.

(** Reading back digits, a point and digits. *)
Lemma read_decimal_fixed (neg : bool) (a b : string) :
  decimal_digits a = true -> decimal_digits b = true -> (1 <= String.length a)%nat ->
  parseFloat ((if neg then "-" else EmptyString) ++ a ++ "." ++ b)
  = of_decimal neg (decimal_value 0 (a ++ b)) (- Z.of_nat (String.length b)).
Proof.
  intros Ha Hb La. destruct a as [|c a]; [simpl in La; lia|].
  assert (Hc : is_decimal_digit c = true) by (simpl in Ha; apply andb_prop in Ha; tauto).
  destruct (digit_first c (a ++ "." ++ b) Hc) as (Hs & Hp & Hi).
  assert (R : read_decimal ((if neg then "-" else EmptyString) ++ String c a ++ "." ++ b)
              = Some (of_decimal neg (decimal_value 0 (String c a ++ b))
                        (- Z.of_nat (String.length b)), EmptyString)).
  { unfold read_decimal.
    replace (sign_prefix ((if neg then "-" else EmptyString) ++ String c a ++ "." ++ b))
      with (neg, (String c a ++ "." ++ b)%string)
      by (destruct neg; [reflexivity | symmetry; exact Hp]).
    cbn [append] in Hi |- *. rewrite Hi.
    change (String c (a ++ String "." b)) with ((String c a) ++ String "." b)%string.
    rewrite (digits_run (String c a) (String "." b) 0 0 Ha) by reflexivity.
    cbv beta iota.
    rewrite <- (append_empty b) at 1.
    rewrite (digits_run b EmptyString (decimal_value 0 (String c a)) 0 Hb) by exact I.
    cbn [Nat.add String.length]. cbv beta iota.
    cbn [exponent_part].
    change (String c (a ++ b)) with (String c a ++ b)%string.
    rewrite decimal_value_app. reflexivity. }
  unfold parseFloat.
  replace (JsString.trimStart ((if neg then "-" else EmptyString) ++ String c a ++ "." ++ b))
    with ((if neg then "-" else EmptyString) ++ String c a ++ "." ++ b)%string.
  - rewrite R. reflexivity.
  - destruct neg; cbn [append JsString.trimStart]; [reflexivity | rewrite Hs; reflexivity].
Qed.

Lemma nearest_scaled_nonneg (f : nat) (m : positive) (e : Z) :
  (0 <= nearest_scaled f m e)%Z.
Proof.
  unfold nearest_scaled. destruct (0 <=? e)%Z eqn:E.
  - apply Z.mul_nonneg_nonneg; [apply Z.mul_nonneg_nonneg|]; try lia;
      apply Z.pow_nonneg; lia.
  - apply Z.leb_gt in E. apply Z.div_pos.
    + apply Z.add_nonneg_nonneg; [apply Z.mul_nonneg_nonneg; [lia|] |];
        apply Z.pow_nonneg; lia.
    + apply Z.pow_pos_nonneg; lia.
Qed.

(** [nearest_scaled f m e] is an integer nearest to [m * 2^e * 10^f]: the
    two differ by at most one half. Both sides are scaled by the power of
    two that clears the denominator. *)
Lemma nearest_scaled_nearest (f : nat) (m : positive) (e : Z) :
  (2 * Z.abs (nearest_scaled f m e * 2 ^ Z.max 0 (- e)
              - Zpos m * 10 ^ Z.of_nat f * 2 ^ Z.max 0 e)
   <= 2 ^ Z.max 0 (- e))%Z.
Proof.
  unfold nearest_scaled. destruct (0 <=? e)%Z eqn:E.
  - apply Z.leb_le in E. rewrite (Z.max_l 0 (- e)), (Z.max_r 0 e) by lia.
    replace (Zpos m * 2 ^ e * 10 ^ Z.of_nat f * 2 ^ 0
             - Zpos m * 10 ^ Z.of_nat f * 2 ^ e)%Z with 0%Z by ring.
    simpl. lia.
  - apply Z.leb_gt in E. rewrite (Z.max_r 0 (- e)), (Z.max_l 0 e) by lia.
    set (k := (- e)%Z). assert (Hk : (0 < k)%Z) by (unfold k; lia).
    replace (- e + 1)%Z with (k + 1)%Z by (unfold k; lia).
    set (a := (2 * Zpos m * 10 ^ Z.of_nat f + 2 ^ k)%Z).
    assert (P : (0 < 2 ^ k)%Z) by (apply Z.pow_pos_nonneg; lia).
    assert (D : (2 ^ (k + 1) = 2 * 2 ^ k)%Z) by (rewrite Z.pow_add_r by lia; ring).
    pose proof (Z.div_mod a (2 ^ (k + 1)) ltac:(lia)) as Q.
    pose proof (Z.mod_pos_bound a (2 ^ (k + 1)) ltac:(lia)) as B.
    set (n := (a / 2 ^ (k + 1))%Z) in *. set (r := (a mod 2 ^ (k + 1))%Z) in *.
    rewrite D in *. change (2 ^ 0)%Z with 1%Z. unfold a in Q.
    apply Z.abs_le. lia.
Qed.

(** [parseFloat(x.toFixed(8))] for a finite [x = (-1)^s * m * 2^e] below
    [10^21] in magnitude: the Number of [n / 10^8], with the sign of [x],
    where [n] is the integer that [toFixed] rounds to. *)
Lemma round8_finite (x : number) (s : bool) (m : positive) (e : Z) :
  Prim2SF x = S754_finite s m e ->
  (Zpos m * 2 ^ Z.max 0 e < 10 ^ 21 * 2 ^ Z.max 0 (- e))%Z ->
  Cost.round8 x = of_decimal s (Z.to_N (nearest_scaled 8 m e)) (- 8).
Proof.
  intros Hx Hlt. unfold Cost.round8, toFixed. rewrite Hx.
  replace (10 ^ 21 * 2 ^ Z.max 0 (- e) <=? Zpos m * 2 ^ Z.max 0 e)%Z with false
    by (symmetry; apply Z.leb_gt; exact Hlt).
  destruct (fixed_digits_shape 7 (nearest_scaled 8 m e) (nearest_scaled_nonneg 8 m e))
    as (a & b & E & Ha & Hb & La & Lb & V).
  rewrite E, (read_decimal_fixed s a b Ha Hb La), V, Lb. reflexivity.
Qed.

End FixedRoundTrip.

(** ** Cost calculator *)

Section CostFacts.

Import JsNumber JsString Cost.
Local Open Scope float_scope.








(** C6. With the built-in table, [calculateCost("openai", "gpt-4-turbo",
    1000, 500)] is the Number [0.025]. Whenever the lookup settles on a
    pricing entry, the result is [inputTokens / 1e6 * input + outputTokens /
    1e6 * output], computed in double arithmetic, written by [toFixed(8)]
    and read back by [parseFloat]; and that is rounding to 8 decimal places:
    for a finite [x = (-1)^s * m * 2^e] below [10^21] in magnitude the
    result is the Number of [n / 10^8] with the sign of [x], where the
    integer [n] is within one half of [m * 2^e * 10^8]. *)
Theorem calculateCost_formula :
  calculateCost (new_CostCalculator None) "openai" "gpt-4-turbo" 1000 500 = 0.025
  /\ (forall (pricing : CostCalculator) (provider model : string)
             (inputTokens outputTokens : number) (modelPricing : ModelPricing),
        findPricing pricing provider model = Some modelPricing ->
        calculateCost pricing provider model inputTokens outputTokens
        = round8 (inputTokens / 1000000 * input modelPricing
                  + outputTokens / 1000000 * output modelPricing))
  /\ (forall (x : number) (s : bool) (m : positive) (e : Z),
        Prim2SF x = S754_finite s m e ->
        (Zpos m * 2 ^ Z.max 0 e < 10 ^ 21 * 2 ^ Z.max 0 (- e))%Z ->
        round8 x = of_decimal s (Z.to_N (nearest_scaled 8 m e)) (- 8)
        /\ (2 * Z.abs (nearest_scaled 8 m e * 2 ^ Z.max 0 (- e)
                       - Zpos m * 10 ^ 8 * 2 ^ Z.max 0 e)
            <= 2 ^ Z.max 0 (- e))%Z).
Proof.
  split; [|split].
  - vm_compute. reflexivity.
  - intros pricing provider model inputTokens outputTokens modelPricing H.
    unfold calculateCost. rewrite H. reflexivity.
  - intros x s m e Hx Hlt. split.
    + apply round8_finite; assumption.
    + apply (nearest_scaled_nearest 8 m e).
Qed.

Lemma calculateCost_formula_witness :
  calculateCost PRICING_TABLE "cohere" "command-r" 2000000 1000000
  = round8 (2000000 / 1000000 * 0.5 + 1000000 / 1000000 * 1.5)
  /\ round8 0.123456789 = of_decimal false 12345679 (- 8).
Proof.
  split.
  - exact (proj1 (proj2 calculateCost_formula) PRICING_TABLE "cohere" "command-r"
             2000000 1000000 {| input := 0.5; output := 1.5 |} eq_refl).
  - exact (proj1 (proj2 (proj2 calculateCost_formula) 0.123456789 false
                    8895999182988127%positive (- 56)%Z eq_refl eq_refl)).
Defined.

(** X4. Custom pricing registered under a name that is already in normal
    form is found by the exact lookup, whatever the table held before, for
    a provider other than the two a calculator inherits, [constructor] and
    [__proto__]. *)
Lemma custom_pricing_found_for_normalized_name
  (pricing : CostCalculator) (provider model provider' model' : string)
  (inputPrice outputPrice inputTokens outputTokens : number) :
  JsObject.inherited (toLowerCase provider) = false ->
  toLowerCase provider' = toLowerCase provider ->
  normalizeModelName model' = model ->
  calculateCost (addCustomPricing provider model inputPrice outputPrice pricing)
    provider' model' inputTokens outputTokens
  = costOf {| input := inputPrice; output := outputPrice |} inputTokens outputTokens.
Proof.
  intros Hi Hp Hm. unfold calculateCost, findPricing, addCustomPricing.
  rewrite Hp, Hm, Hi.
  destruct (JsObject.get pricing (toLowerCase provider)) as [table|] eqn:E.
  - rewrite E, get_set_same, get_set_same. reflexivity.
  - rewrite get_set_same, get_set_same, get_set_same. reflexivity.
Qed.

(** C4. Claim: after [addCustomPricing(provider, model, in, out)], a
    [calculateCost] call with a matching provider and model returns the cost
    at the custom prices. [addCustomPricing] stores the entry under the
    model name as given, while [calculateCost] looks up the trimmed,
    lower-cased name: after [addCustomPricing("custom", "My-Model", 10, 30)]
    the call [calculateCost("custom", "My-Model", 1000, 500)] finds no entry
    and returns 0, where the custom prices give 0.025. *)
Theorem custom_pricing_under_unnormalized_name_is_missed :
  let calculator := addCustomPricing "custom" "My-Model" 10 30 (new_CostCalculator None) in
  calculateCost calculator "custom" "My-Model" 1000 500 = 0
  /\ costOf {| input := 10; output := 30 |} 1000 500 = 0.025
  /\ findPricing calculator "custom" "My-Model" = None
  /\ JsObject.get calculator "custom" = Some [("My-Model", {| input := 10; output := 30 |})].
Proof.
  cbv zeta. repeat split; vm_compute; reflexivity.
Qed.

End CostFacts.

(** ** Redaction *)

Section RedactionFacts.

Import JsString Redaction.

Lemma redact_app {engine : Engine} (reg : Registry) (text : string) (l1 l2 : list string) :
  redact reg text (l1 ++ l2) = redact reg (redact reg text l1) l2.
Proof. unfold redact. apply fold_left_app. Qed.

Lemma replacement_for_registered (reg : Registry) (name : string) (pattern : RegExp)
  (replacement : string) :
  replacement <> EmptyString ->
  replacement_for (addRedactionPattern name pattern replacement reg) name = replacement.
Proof.
  intros N. unfold replacement_for, addRedactionPattern. cbn [REPLACEMENTS].
  rewrite get_set_same. destruct replacement; [contradiction | reflexivity].
Qed.

(** X9. A pattern registered under a name in normal form other than
    [__proto__], with a non-empty replacement, is the one applied for every
    active name that normalizes to it. *)
Lemma registered_pattern_applies_for_normalized_name {engine : Engine}
  (reg : Registry) (name patternName : string) (pattern : RegExp) (replacement text : string) :
  name <> "__proto__" ->
  toLowerCase (trim patternName) = name ->
  replacement <> EmptyString ->
  redact_step (addRedactionPattern name pattern replacement reg) text patternName
  = String_replace text pattern replacement.
Proof.
  intros _ Hn Hr. unfold redact_step. rewrite Hn.
  cbn [PATTERNS addRedactionPattern]. rewrite get_set_same.
  fold (addRedactionPattern name pattern replacement reg).
  rewrite replacement_for_registered by exact Hr. reflexivity.
Qed.

(** A registration changes nothing for the active names that normalize to
    another name. *)
Lemma registration_leaves_other_names {engine : Engine}
  (reg : Registry) (name patternName : string) (pattern : RegExp) (replacement text : string) :
  toLowerCase (trim patternName) <> name ->
  redact_step (addRedactionPattern name pattern replacement reg) text patternName
  = redact_step reg text patternName.
Proof.
  intros Hn. unfold redact_step, replacement_for. cbn [PATTERNS REPLACEMENTS addRedactionPattern].
  rewrite !get_set_other by (intros E; apply Hn; symmetry; exact E). reflexivity.
Qed.

(** C8. Redaction is a left fold over the active names: the names of
    [l1 ++ l2] give what the names of [l2] give on the text already redacted
    with [l1], each step working on the text the steps before it left; and
    the order of the names matters: with a pattern that rewrites [secret]
    to [token] and one that rewrites [token] to [gone], the two orders give
    different texts. *)
Theorem redact_is_sequential :
  (forall (engine : Engine) (reg : Registry) (text : string) (l1 l2 : list string),
      redact reg text (l1 ++ l2) = redact reg (redact reg text l1) l2)
  /\ (forall (engine : Engine) (reg : Registry) (text name : string) (names : list string),
        redact reg text (names ++ [name]) = redact_step reg (redact reg text names) name)
  /\ (exists (reg : Registry) (text : string) (l1 l2 : list string),
        Permutation l1 l2
        /\ redact (engine := LiteralEngine.engine) reg text l1
           <> redact (engine := LiteralEngine.engine) reg text l2).
Proof.
  split; [|split].
  - intros. apply redact_app.
  - intros. rewrite redact_app. reflexivity.
  - exists (addRedactionPattern "first" {| source := "secret"; flags := "g" |} "token"
              (addRedactionPattern "second" {| source := "token"; flags := "g" |} "gone" initial)),
           "my secret", ["first"; "second"], ["second"; "first"].
    split; [apply perm_swap|].
    vm_compute. discriminate.
Qed.

(** C5. Claim: after [addRedactionPattern(name, pattern, replacement)], a
    redaction call whose active list includes [name] applies the pattern.
    [addRedactionPattern] stores the pattern under the name as given, while
    [redactSensitiveData] looks every active name up trimmed and lower-cased:
    a pattern registered as [Secret] is never found, and a call with
    [redactPatterns = ["Secret"]] returns its text unchanged, whatever the
    engine, where applying the pattern rewrites the text. *)
Theorem pattern_under_unnormalized_name_is_never_applied :
  let pattern := {| source := "hunter2"; flags := "g" |} in
  let reg := addRedactionPattern "Secret" pattern "[SECRET]" initial in
  let config := Config.spread (Config.defaultConfig Config.empty_env)
                  (Config.only_redactPatterns ["Secret"]) in
  (forall (engine : Engine) (text : string), redactSensitiveData reg text config = text)
  /\ String_replace (Engine := LiteralEngine.engine) "pw hunter2" pattern "[SECRET]"
     = "pw [SECRET]"
  /\ JsObject.get (PATTERNS reg) "Secret" = Some pattern
  /\ JsObject.get (PATTERNS reg) (toLowerCase (trim "Secret")) = None.
Proof.
  cbv zeta. repeat split.
Qed.

End RedactionFacts.

(** ** Span lifecycle wrappers *)

Section StepRules.

Import JsNumber JsValue Instrumentation.

Context {A B : Type}.
Variables (W W' W'' : World -> Prop) (J : list span_op -> Prop).

Lemma step_ret (a : A) (R : A -> Prop) : R a -> step W W J (ret a) R.
Proof. intros H s [Hw Hj]. simpl. auto. Qed.

Lemma step_throw (e : value) (R : A -> Prop) : step W W' J (throw e) R.
Proof. intros s [Hw Hj]. exact Hj. Qed.

Lemma step_lift (c : completion value A) (R : A -> Prop) :
  (forall a, c = Normal a -> R a) -> step W W J (lift c) R.
Proof. intros H s [Hw Hj]. unfold lift. destruct c; simpl; auto. Qed.

Lemma step_bind (m : M A) (k : A -> M B) (R : A -> Prop) (R' : B -> Prop) :
  step W W' J m R ->
  (forall a, R a -> step W' W'' J (k a) R') ->
  step W W'' J (bind m k) R'.
Proof.
  intros Hm Hk s Hs. unfold bind. specialize (Hm s Hs).
  destruct (m s) as [[a|e] s1]; [|exact Hm].
  destruct Hm as (Ha & Hw & Hj). apply (Hk a Ha s1). auto.
Qed.

End StepRules.

Section StepRulesForOperations.

Import JsNumber JsValue Instrumentation.

Variables (W : World -> Prop) (J : list span_op -> Prop).

Lemma step_span (op : span_op) :
  (forall l, J l -> J (l ++ [op])) -> step W W J (span op) any_result.
Proof. intros H s [Hw Hj]. simpl. unfold any_result. auto. Qed.

Lemma step_when (b : bool) (m : M unit) :
  step W W J m any_result -> step W W J (when b m) any_result.
Proof. intros H. destruct b; [exact H | apply step_ret; exact I]. Qed.

Lemma step_when_false (m : M unit) : step W W J (when false m) any_result.
Proof. apply step_ret. exact I. Qed.

Lemma step_if_given (o : option value) (k : value -> M unit) :
  (forall v, step W W J (k v) any_result) -> step W W J (if_given o k) any_result.
Proof.
  intros H. destruct o as [v|]; simpl; [apply step_when, H | apply step_ret; exact I].
Qed.

Lemma step_getRegistry (R : Redaction.Registry -> Prop) :
  (forall w, W w -> R (registry w)) -> step W W J getRegistry R.
Proof. intros H s [Hw Hj]. simpl. auto. Qed.

Lemma step_Date_now : step W W J Date_now any_result.
Proof. intros s [Hw Hj]. simpl. unfold any_result. auto. Qed.

Lemma step_set_resultStatus (v : string) : step W W J (set_resultStatus v) any_result.
Proof. intros s [Hw Hj]. simpl. unfold any_result. auto. Qed.

Lemma step_set_errorType (v : value) : step W W J (set_errorType v) any_result.
Proof. intros s [Hw Hj]. simpl. unfold any_result. auto. Qed.

Lemma step_get_resultStatus : step W W J get_resultStatus any_result.
Proof. intros s [Hw Hj]. simpl. unfold any_result. auto. Qed.

Lemma step_get_errorType : step W W J get_errorType any_result.
Proof. intros s [Hw Hj]. simpl. unfold any_result. auto. Qed.

(** The calculator is the only part of the world [getCostCalculator]
    writes. *)
Lemma step_getCostCalculator :
  (forall w c, W w -> W {| config := config w; registry := registry w;
                           calculator := c; clock := clock w |}) ->
  step W W J getCostCalculator any_result.
Proof.
  intros H s [Hw Hj]. unfold getCostCalculator, Cost.getCostCalculator, any_result.
  destruct (calculator (world s)); simpl; auto.
Qed.

Lemma step_call (W' : World -> Prop) (originalMethod : Callable) (args : list value)
  (R : value -> Prop) :
  (forall w r w', W w -> originalMethod args w = (Normal r, w') -> R r /\ W' w') ->
  step W W' J (call originalMethod args) R.
Proof.
  intros H s [Hw Hj]. unfold call.
  destruct (originalMethod args (world s)) as [[r|e] w'] eqn:E; simpl; [|exact Hj].
  destruct (H _ _ _ Hw E). auto.
Qed.

End StepRulesForOperations.

Section WrapperFacts.

Import JsNumber JsValue Instrumentation.
Local Open Scope float_scope.

Context {engine : Engine}.

Lemma step_lift_eq {A : Type} (W : World -> Prop) (J : list span_op -> Prop)
  (c : completion value A) :
  step W W J (lift c) (fun a => c = Normal a).
Proof. apply step_lift. auto. Qed.

Lemma step_getRegistry_eq (W : World -> Prop) (J : list span_op -> Prop) :
  step W W J getRegistry (fun reg => exists w, W w /\ reg = registry w).
Proof. apply step_getRegistry. intros w Hw. exists w. auto. Qed.

Lemma step_call_any (W : World -> Prop) (J : list span_op -> Prop)
  (originalMethod : Callable) (args : list value) :
  step W any_world J (call originalMethod args) any_result.
Proof. apply step_call. unfold any_result, any_world. auto. Qed.

(** [try]/[catch]/[finally] when the three blocks keep [J] on the span and
    the [finally] block then establishes [J']. *)
Lemma hoare_try_catch_finally {A : Type} (W W' : World -> Prop)
  (J J' : list span_op -> Prop) (body : M A) (handler : value -> M A) (finalizer : M unit)
  (R R' : A -> Prop) :
  step W W' J body R ->
  (forall e, step any_world any_world J (handler e) R') ->
  hoare (fun s => J (ops s)) finalizer (fun _ s => J' (ops s)) (fun _ s => J' (ops s)) ->
  hoare (fun s => W (world s) /\ J (ops s)) (try_catch_finally body handler finalizer)
    (fun _ s => J' (ops s)) (fun _ s => J' (ops s)).
Proof.
  intros Hb Hh Hf s Hs. unfold try_catch_finally. specialize (Hb s Hs).
  destruct (body s) as [[a|e] s1].
  - destruct Hb as (_ & _ & Hj). specialize (Hf s1 Hj).
    destruct (finalizer s1) as [[u|e] s2]; exact Hf.
  - specialize (Hh e s1 (conj I Hb)).
    destruct (handler e s1) as [[a|e'] s2].
    + destruct Hh as (_ & _ & Hj). specialize (Hf s2 Hj).
      destruct (finalizer s2) as [[u|e''] s3]; exact Hf.
    + specialize (Hf s2 Hh).
      destruct (finalizer s2) as [[u|e''] s3]; exact Hf.
Qed.

(** The cost lookup makes no call on the span and writes the calculator
    only. *)
Lemma step_calculateCost (W : World -> Prop) (J : list span_op -> Prop)
  (provider model : string) (inputTokens outputTokens : value) :
  (forall w c, W w -> W {| config := config w; registry := registry w;
                           calculator := c; clock := clock w |}) ->
  step W W J (calculateCost provider model inputTokens outputTokens) any_result.
Proof.
  intros HW. unfold calculateCost.
  eapply step_bind; [apply step_getCostCalculator; exact HW | intros pricing _].
  destruct (Cost.findPricing pricing provider model).
  - eapply step_bind; [apply step_lift_eq | intros i _].
    eapply step_bind; [apply step_lift_eq | intros o _].
    apply step_ret. exact I.
  - apply step_ret. exact I.
Qed.

End WrapperFacts.

(** One step of a derivation: the rule for the head of the computation,
    with [side] for the condition that an emitted span call keeps the
    invariant. *)
Ltac step_rule side :=
  lazymatch goal with
  | |- Instrumentation.step _ _ _ (Instrumentation.bind _ _) _ => eapply step_bind; [ | intros ? ? ]
  | |- Instrumentation.step _ _ _ (Instrumentation.ret _) _ => apply step_ret; exact I
  | |- Instrumentation.step _ _ _ (Instrumentation.throw _) _ => apply step_throw
  | |- Instrumentation.step _ _ _ (Instrumentation.span _) _ => apply step_span; side
  | |- Instrumentation.step _ _ _ (Instrumentation.when false _) _ => apply step_when_false
  | |- Instrumentation.step _ _ _ (Instrumentation.when _ _) _ => apply step_when
  | |- Instrumentation.step _ _ _ (Instrumentation.if_given _ _) _ => apply step_if_given; intros ?
  | |- Instrumentation.step _ _ _ (Instrumentation.lift _) _ => apply step_lift_eq
  | |- Instrumentation.step _ _ _ Instrumentation.Date_now _ => apply step_Date_now
  | |- Instrumentation.step _ _ _ Instrumentation.getRegistry _ => apply step_getRegistry_eq
  | |- Instrumentation.step _ _ _ Instrumentation.get_resultStatus _ => apply step_get_resultStatus
  | |- Instrumentation.step _ _ _ Instrumentation.get_errorType _ => apply step_get_errorType
  | |- Instrumentation.step _ _ _ (Instrumentation.set_resultStatus _) _ => apply step_set_resultStatus
  | |- Instrumentation.step _ _ _ (Instrumentation.set_errorType _) _ => apply step_set_errorType
  | |- Instrumentation.step _ _ _ (Instrumentation.call _ _) _ => apply step_call_any
  | |- Instrumentation.step _ _ _ (Instrumentation.calculateCost _ _ _ _) _ =>
      apply step_calculateCost; side
  | |- Instrumentation.step _ _ _ (match ?x with _ => _ end) _ => destruct x
  | |- forall _, _ => intros ?
  end.

Section SpanEndsOnce.

Import JsNumber JsValue Instrumentation.
Local Open Scope float_scope.

Context {engine : Engine}.

Lemma end_count_app (l1 l2 : list span_op) :
  end_count (l1 ++ l2) = (end_count l1 + end_count l2)%nat.
Proof.
  induction l1 as [|op l1 IH]; [reflexivity|].
  destruct op; simpl; rewrite IH; reflexivity.
Qed.

Lemma bind_getConfig {A : Type} (k : Config.GenAIConfig -> M A) (s : State) :
  bind getConfig k s = k (config (world s)) s.
Proof. reflexivity. Qed.

Lemma bind_Date_now {A : Type} (k : number -> M A) (s : State) :
  bind Date_now k s = k (clock (world s)) s.
Proof. reflexivity. Qed.

Lemma bind_span {A : Type} (op : span_op) (k : unit -> M A) (s : State) :
  bind (span op) k s
  = k tt {| world := world s; ops := ops s ++ [op];
            resultStatus := resultStatus s; errorType := errorType s |}.
Proof. reflexivity. Qed.

Lemma bind_set_resultStatus {A : Type} (v : string) (k : unit -> M A) (s : State) :
  bind (set_resultStatus v) k s
  = k tt {| world := world s; ops := ops s; resultStatus := v; errorType := errorType s |}.
Proof. reflexivity. Qed.

Lemma bind_set_errorType {A : Type} (v : value) (k : unit -> M A) (s : State) :
  bind (set_errorType v) k s
  = k tt {| world := world s; ops := ops s; resultStatus := resultStatus s; errorType := v |}.
Proof. reflexivity. Qed.

Lemma not_ended_snoc (op : span_op) :
  end_count [op] = O -> forall l, not_ended l -> not_ended (l ++ [op]).
Proof.
  unfold not_ended. intros H l Hl. rewrite end_count_app, Hl, H. reflexivity.
Qed.

Lemma record_error_not_ended (error : value) :
  step any_world any_world not_ended (record_error error) any_result.
Proof.
  unfold record_error. repeat step_rule ltac:(apply not_ended_snoc; reflexivity).
Qed.

Lemma SpanEnd_ends :
  hoare (fun s => not_ended (ops s)) (span SpanEnd)
    (fun _ s => ended_once (ops s)) (fun _ s => ended_once (ops s)).
Proof.
  intros s H. simpl. unfold ended_once. rewrite end_count_app, H. reflexivity.
Qed.

Ltac not_ended_side := first [apply not_ended_snoc; reflexivity | intros; exact I].

(** The finally block of [traceToolCall]. *)
Lemma tool_finalizer_ends :
  hoare (fun s => not_ended (ops s))
    (bind get_resultStatus (fun status =>
       bind (span (SetAttribute "gen_ai.tool.result_status" (VString status))) (fun _ =>
         bind get_errorType (fun type =>
           bind (when (truthy type) (span (SetAttribute "gen_ai.tool.error_type" type)))
             (fun _ => span SpanEnd)))))
    (fun _ s => ended_once (ops s)) (fun _ s => ended_once (ops s)).
Proof.
  intros s H. unfold bind, get_resultStatus, get_errorType, when.
  cbn [span ops errorType].
  destruct (truthy (errorType s)); cbn [span ret ops]; unfold ended_once;
    rewrite !end_count_app, H; reflexivity.
Qed.

Ltac ends_once :=
  match goal with
  | |- context [try_catch_finally ?b ?h ?f ?s] =>
      let H := fresh "H" in
      pose proof (hoare_try_catch_finally any_world any_world not_ended ended_once b h f
                    any_result any_result) as H;
      specialize (fun Hb Hh Hf => H Hb Hh Hf s);
      destruct (try_catch_finally b h f s) as [[? | ?] ?];
      cbn [fst snd]; apply H; clear H
  end;
  try (split; [exact I | reflexivity]);
  try (intros ?; apply record_error_not_ended);
  try apply SpanEnd_ends; try apply tool_finalizer_ends;
  repeat step_rule not_ended_side.

(** Every instrumented call ends its span exactly once, however the wrapped
    function and the wrapper's own steps end. *)
Lemma span_ends_exactly_once (op : Operation) (originalMethod : Callable)
  (args : list value) (w : World) :
  end_count (snd (fst (run (instrumented op originalMethod args) w))) = 1%nat.
Proof.
  destruct op as [options|options|options|options|options];
    unfold run, instrumented, traceEmbed, traceRetrieve, traceRerank, traceGenerate,
      traceToolCall, startActiveSpan;
    rewrite bind_getConfig, bind_Date_now, ?bind_set_resultStatus, ?bind_set_errorType,
      bind_span;
    cbn [world ops resultStatus errorType app];
    ends_once.
Qed.

End SpanEndsOnce.

Section PromptLogging.

Import JsNumber JsValue Instrumentation.
Local Open Scope float_scope.

Context {engine : Engine}.

Lemma attributes_app (l1 l2 : list span_op) :
  attributes (l1 ++ l2) = (attributes l1 ++ attributes l2)%list.
Proof.
  induction l1 as [|op l1 IH]; [reflexivity|].
  destruct op; simpl; rewrite IH; try reflexivity. apply app_assoc.
Qed.

Lemma attribute_values_app (k : string) (l1 l2 : list span_op) :
  attribute_values k (l1 ++ l2) = (attribute_values k l1 ++ attribute_values k l2)%list.
Proof.
  unfold attribute_values. rewrite attributes_app, filter_app, map_app. reflexivity.
Qed.

Lemma has_attribute_false (k : string) (l : list span_op) :
  attribute_values k l = [] -> has_attribute k l = false.
Proof. unfold has_attribute. intros ->. reflexivity. Qed.

Lemma unlogged_snoc (op : span_op) :
  attribute_values "gen_ai.prompt" [op] = [] ->
  attribute_values "gen_ai.completion" [op] = [] ->
  forall l, unlogged l -> unlogged (l ++ [op]).
Proof.
  intros H1 H2 l [Hp Hc]. unfold unlogged.
  rewrite !attribute_values_app, Hp, Hc, H1, H2. auto.
Qed.

Ltac unlogged_side := first [apply unlogged_snoc; reflexivity | intros; exact I].

Lemma SpanEnd_unlogged :
  hoare (fun s => unlogged (ops s)) (span SpanEnd)
    (fun _ s => unlogged (ops s)) (fun _ s => unlogged (ops s)).
Proof.
  intros s Hs. cbn [span ops]. apply unlogged_snoc; [reflexivity | reflexivity | exact Hs].
Qed.

Lemma record_error_unlogged (error : value) :
  step any_world any_world unlogged (record_error error) any_result.
Proof. unfold record_error. repeat step_rule unlogged_side. Qed.

(** With [logPrompts] off in the configuration read at call start, a
    generate call sets neither attribute, whatever the wrapped function
    does. *)
Lemma generate_without_logPrompts (options : GenerateOptions) (originalMethod : Callable)
  (args : list value) (w : World) :
  Config.logPrompts (config w) = false ->
  let log := snd (fst (run (traceGenerate options originalMethod args) w)) in
  has_attribute "gen_ai.prompt" log = false /\ has_attribute "gen_ai.completion" log = false.
Proof.
  intros Hlog. cbv zeta.
  assert (H : unlogged (snd (fst (run (traceGenerate options originalMethod args) w)))).
  { unfold run, traceGenerate, startActiveSpan.
    rewrite bind_getConfig, bind_Date_now, bind_span.
    cbn [world ops resultStatus errorType app]. rewrite Hlog. cbn [andb].
    match goal with
    | |- context [try_catch_finally ?b ?h ?f ?s] =>
        pose proof (hoare_try_catch_finally any_world any_world unlogged unlogged b h f
                      any_result any_result) as H;
        specialize (fun Hb Hh Hf => H Hb Hh Hf s);
        destruct (try_catch_finally b h f s) as [[? | ?] ?];
        cbn [fst snd]; apply H; clear H
    end.
    all: try (split; [exact I | split; reflexivity]).
    all: try (intros ?; apply record_error_unlogged).
    all: try apply SpanEnd_unlogged.
    all: repeat step_rule unlogged_side. }
  destruct H as [Hp Hc]. split; apply has_attribute_false; assumption.
Qed.

Section Logged.

Variables (w : World) (originalMethod : Callable) (args : list value).

Lemma logged_snoc (op : span_op) :
  attribute_values "gen_ai.prompt" [op] = [] ->
  attribute_values "gen_ai.completion" [op] = [] ->
  forall l, logged w originalMethod args l -> logged w originalMethod args (l ++ [op]).
Proof.
  intros H1 H2 l [Hp Hc]. unfold logged.
  rewrite !attribute_values_app, H1, H2, !app_nil_r. auto.
Qed.

Lemma logged_snoc_prompt (v : value) :
  prompt_of w args v ->
  forall l, logged w originalMethod args l ->
            logged w originalMethod args (l ++ [SetAttribute "gen_ai.prompt" v]).
Proof.
  intros Hv l [Hp Hc]. unfold logged. rewrite !attribute_values_app.
  cbn [attribute_values attributes filter map fst snd String.eqb Ascii.eqb Bool.eqb].
  rewrite app_nil_r. split; [|exact Hc].
  apply Forall_app. split; [exact Hp | constructor; [exact Hv | constructor]].
Qed.

Lemma logged_snoc_completion (v : value) :
  completion_of w originalMethod args v ->
  forall l, logged w originalMethod args l ->
            logged w originalMethod args (l ++ [SetAttribute "gen_ai.completion" v]).
Proof.
  intros Hv l [Hp Hc]. unfold logged. rewrite !attribute_values_app.
  cbn [attribute_values attributes filter map fst snd String.eqb Ascii.eqb Bool.eqb].
  rewrite app_nil_r. split; [exact Hp|].
  apply Forall_app. split; [exact Hc | constructor; [exact Hv | constructor]].
Qed.

Lemma after_call_calculator (w' : World) (c : option Cost.CostCalculator) :
  after_call w originalMethod args w' ->
  after_call w originalMethod args
    {| config := config w'; registry := registry w'; calculator := c; clock := clock w' |}.
Proof. intros (r & w1 & E & H). exists r, w1. auto. Qed.

Lemma substring_of_normal (v : value) (n : number) (s : string) :
  substring_of v n = Normal s -> exists c, v = VString c /\ s = substring0 c n.
Proof.
  destruct v; simpl; intros H; try discriminate.
  injection H as <-. eexists. split; reflexivity.
Qed.

Lemma step_call_tracked :
  step (eq w) (after_call w originalMethod args) (logged w originalMethod args)
    (call originalMethod args)
    (fun result => exists w1, originalMethod args w = (Normal result, w1)).
Proof.
  apply step_call. intros w0 r w1 <- E. split; [exists w1; exact E|].
  exists r, w1. auto.
Qed.

Ltac logged_side :=
  first
    [ apply logged_snoc; reflexivity
    | intros; exact I
    | intros; apply after_call_calculator; assumption
    | apply logged_snoc_prompt; cbv beta in *;
      match goal with
      | H : ToString _ = Normal ?text, R : exists _, _ /\ _ = registry _ |- _ =>
          destruct R as (? & <- & ->); exists text; split; [exact H | reflexivity]
      end
    | apply logged_snoc_completion; cbv beta in *;
      match goal with
      | H : substring_of _ _ = Normal _,
        R : exists _, after_call _ _ _ _ /\ _ = registry _,
        C : exists _, originalMethod args w = (Normal _, _) |- _ =>
          let c := fresh "c" in
          let Hv := fresh "Hv" in
          let r := fresh "r" in
          let w1 := fresh "w1" in
          let E := fresh "E" in
          let Hr := fresh "Hr" in
          let w2 := fresh "w2" in
          let E' := fresh "E'" in
          apply substring_of_normal in H; destruct H as (c & Hv & ->);
          destruct R as (? & (r & w1 & E & Hr) & ->);
          destruct C as (w2 & E');
          rewrite E in E'; injection E' as -> ->;
          eexists _, _, c; split; [exact E | split; [exact Hv | rewrite Hr; reflexivity]]
      end ].

Ltac logged_step :=
  lazymatch goal with
  | |- step _ _ _ (call _ _) _ => apply step_call_tracked
  | |- _ => step_rule logged_side
  end.

Lemma record_error_logged (error : value) :
  step any_world any_world (logged w originalMethod args) (record_error error) any_result.
Proof. unfold record_error. repeat step_rule logged_side. Qed.

Lemma SpanEnd_logged :
  hoare (fun s => logged w originalMethod args (ops s)) (span SpanEnd)
    (fun _ s => logged w originalMethod args (ops s))
    (fun _ s => logged w originalMethod args (ops s)).
Proof.
  intros s Hs. cbn [span ops]. apply logged_snoc; [reflexivity | reflexivity | exact Hs].
Qed.

(** Whatever a generate call attaches as prompt or completion is the text
    cut to [maxAttributeLength] and then redacted. *)
Lemma generate_logs_redacted_prefix (options : GenerateOptions) :
  logged w originalMethod args
    (snd (fst (run (traceGenerate options originalMethod args) w))).
Proof.
  unfold run, traceGenerate, startActiveSpan.
  rewrite bind_getConfig, bind_Date_now, bind_span.
  cbn [world ops resultStatus errorType app].
  match goal with
  | |- context [try_catch_finally ?b ?h ?f ?s] =>
      pose proof (hoare_try_catch_finally (eq w) (after_call w originalMethod args)
                    (logged w originalMethod args) (logged w originalMethod args) b h f
                    any_result any_result) as H;
      specialize (fun Hb Hh Hf => H Hb Hh Hf s);
      destruct (try_catch_finally b h f s) as [[? | ?] ?];
      cbn [fst snd]; apply H; clear H
  end.
  all: try (split; [reflexivity | split; constructor]).
  all: try (intros ?; apply record_error_logged).
  all: try apply SpanEnd_logged.
  all: repeat logged_step.
Qed.

End Logged.

(** C9, amended. A generate call attaches no prompt and no completion
    attribute unless [logPrompts] is on in the configuration read at call
    start; what it attaches is the redaction of the text cut to
    [maxAttributeLength] (the cut comes first, so the attached value can be
    longer than [maxAttributeLength]). This holds of every call, the ones
    that complete successfully among them. *)
Theorem generate_prompt_logging (options : GenerateOptions) (originalMethod : Callable)
  (args : list value) (w : World) :
  let log := snd (fst (run (traceGenerate options originalMethod args) w)) in
  (Config.logPrompts (config w) = false ->
   has_attribute "gen_ai.prompt" log = false /\ has_attribute "gen_ai.completion" log = false)
  /\ Forall (prompt_of w args) (attribute_values "gen_ai.prompt" log)
  /\ Forall (completion_of w originalMethod args) (attribute_values "gen_ai.completion" log).
Proof.
  cbv zeta. split.
  - apply generate_without_logPrompts.
  - apply generate_logs_redacted_prefix.
Qed.

End PromptLogging.

Section PromptLoggingExamples.

Import JsNumber JsValue Instrumentation.
Local Open Scope float_scope.

Lemma generate_prompt_logging_witness :
  let w := {| config := Config.defaultConfig Config.empty_env;
              registry := Redaction.initial; calculator := None; clock := 0 |} in
  let options := {| generate_model := "gpt-4"; generate_provider := None;
                    generate_temperature := None; generate_maxTokens := None;
                    generate_streaming := None |} in
  let originalMethod : Callable := fun _ w => (Normal (plain []), w) in
  let log := snd (fst (run (traceGenerate (engine := LiteralEngine.engine)
                              options originalMethod [VString "hello"]) w)) in
  has_attribute "gen_ai.prompt" log = false /\ has_attribute "gen_ai.completion" log = false.
Proof.
  intros w options originalMethod log.
  exact (proj1 (generate_prompt_logging (engine := LiteralEngine.engine)
                  options originalMethod [VString "hello"] w) eq_refl).
Defined.

(** C9, as stated, fails on the length: with [maxAttributeLength = 100] and
    a pattern that rewrites each [a] to [[MASKED]], a prompt of one hundred
    [a] is attached as a text of 800 characters. *)
Lemma attached_prompt_can_exceed_maxAttributeLength :
  let reg := Redaction.addRedactionPattern "mask" {| source := "a"; flags := "g" |}
               "[MASKED]" Redaction.initial in
  let cfg := Config.run [Config.logging_update 100 ["mask"]]
               (Config.defaultConfig Config.empty_env) in
  let w := {| config := cfg; registry := reg; calculator := None; clock := 0 |} in
  let options := {| generate_model := "gpt-4"; generate_provider := None;
                    generate_temperature := None; generate_maxTokens := None;
                    generate_streaming := None |} in
  let originalMethod : Callable := fun _ w => (Normal (plain []), w) in
  exists (log : list span_op) (text : string),
    run (traceGenerate (engine := LiteralEngine.engine)
           options originalMethod [VString (JsString.repeat_string 100 "a")]) w
    = (Normal (plain []), log, w)
    /\ Config.logPrompts cfg = true
    /\ ToIntegerOrInfinity (Config.maxAttributeLength cfg) = Int 100
    /\ attribute_values "gen_ai.prompt" log = [VString text]
    /\ String.length text = 800%nat.
Proof.
  cbv zeta. eexists _, _. split; [vm_compute; reflexivity|].
  repeat split; vm_compute; reflexivity.
Qed.

End PromptLoggingExamples.

Section ErrorPath.

Import JsNumber JsValue Instrumentation.
Local Open Scope float_scope.

Context {engine : Engine}.

Lemma bind_ret {A B : Type} (a : A) (k : A -> M B) (s : State) :
  bind (ret a) k s = k a s.
Proof. reflexivity. Qed.

Lemma bind_lift_normal {A B : Type} (a : A) (k : A -> M B) (s : State) :
  bind (lift (Normal a)) k s = k a s.
Proof. reflexivity. Qed.

Lemma bind_assoc {A B C : Type} (m : M A) (k : A -> M B) (k' : B -> M C) (s : State) :
  bind (bind m k) k' s = bind m (fun a => bind (k a) k') s.
Proof. unfold bind. destruct (m s) as [[a|e] s1]; reflexivity. Qed.

Lemma bind_getRegistry {A : Type} (k : Redaction.Registry -> M A) (s : State) :
  bind getRegistry k s = k (registry (world s)) s.
Proof. reflexivity. Qed.

Lemma bind_get_errorType {A : Type} (k : value -> M A) (s : State) :
  bind get_errorType k s = k (errorType s) s.
Proof. reflexivity. Qed.

Lemma bind_get_resultStatus {A : Type} (k : string -> M A) (s : State) :
  bind get_resultStatus k s = k (resultStatus s) s.
Proof. reflexivity. Qed.

Lemma bind_call_throws {A : Type} (originalMethod : Callable) (args : list value)
  (k : value -> M A) (w : World) (l : list span_op) (status : string) (type : value)
  (e : value) (w1 : World) :
  originalMethod args w = (Throw e, w1) ->
  bind (call originalMethod args) k
    {| world := w; ops := l; resultStatus := status; errorType := type |}
  = (Throw e, {| world := w1; ops := l; resultStatus := status; errorType := type |}).
Proof. intros H. unfold bind, call. cbn [world]. rewrite H. reflexivity. Qed.

Ltac run_to_call Hf :=
  repeat first
    [ rewrite bind_getConfig | rewrite bind_Date_now | rewrite bind_span
    | rewrite bind_set_resultStatus | rewrite bind_set_errorType
    | rewrite bind_ret | rewrite bind_lift_normal | rewrite bind_getRegistry
    | rewrite bind_assoc
    | rewrite (bind_call_throws _ _ _ _ _ _ _ _ _ Hf)
    | progress cbn [world ops resultStatus errorType if_given when option_map ToString
                    negb andb orb List.length Nat.eqb nth] ].

Lemma embed_error_path (options : EmbedOptions)
  (originalMethod : Callable) (args : list value) (w w1 : World)
  (c : string) (props : list (string * value)) (m : value) :
  let e := VObject (Some c) props in
  reaches_call (Embed options) w args = true ->
  originalMethod args w = (Throw e, w1) ->
  short_message e = Some m ->
  let '(r, log, w') := run (traceEmbed options originalMethod args) w in
  r = Throw e /\ w' = w1
  /\ attribute_values "error" log = [VBool true]
  /\ attribute_values "error.type" log = [VString c]
  /\ attribute_values "error.message" log = [m].
Proof.
  intros e Hr Hf Hm. unfold short_message in Hm.
  destruct options as [model provider [batchSize|] [dimensions|]]; cbn in Hr.
  all: unfold run, traceEmbed, startActiveSpan, try_catch_finally;
    cbn [embed_batchSize embed_dimensions embed_model embed_provider];
    run_to_call Hf;
    repeat match goal with
      | |- context [truthy ?v] => destruct (truthy v); run_to_call Hf
      end.
  all: unfold record_error, e in *; cbn [get_prop is_nullish constructor_name] in *;
    run_to_call Hf; rewrite ?bind_get_errorType, ?bind_get_resultStatus; run_to_call Hf.
  all: destruct (prop (VObject (Some c) props) "message"); try discriminate Hm;
    injection Hm as <-; cbn; repeat split.
Qed.

Lemma retrieve_error_path (options : RetrieveOptions)
  (originalMethod : Callable) (args : list value) (w w1 : World)
  (c : string) (props : list (string * value)) (m : value) :
  let e := VObject (Some c) props in
  reaches_call (Retrieve options) w args = true ->
  originalMethod args w = (Throw e, w1) ->
  short_message e = Some m ->
  let '(r, log, w') := run (traceRetrieve options originalMethod args) w in
  r = Throw e /\ w' = w1
  /\ attribute_values "error" log = [VBool true]
  /\ attribute_values "error.type" log = [VString c]
  /\ attribute_values "error.message" log = [m].
Proof.
  intros e Hr Hf Hm. unfold short_message in Hm.
  destruct options as [source topK [indexName|] [filters|]]; cbn in Hr; try (apply negb_true_iff in Hr).
  all: unfold run, traceRetrieve, startActiveSpan, try_catch_finally;
    cbn [retrieve_source retrieve_topK retrieve_indexName retrieve_filters];
    run_to_call Hf; try rewrite Hr; run_to_call Hf;
    repeat match goal with
      | |- context [truthy ?v] => destruct (truthy v); run_to_call Hf
      end.
  all: unfold record_error, e in *; cbn [get_prop is_nullish constructor_name] in *;
    run_to_call Hf; rewrite ?bind_get_errorType, ?bind_get_resultStatus; run_to_call Hf.
  all: destruct (prop (VObject (Some c) props) "message"); try discriminate Hm;
    injection Hm as <-; cbn; repeat split.
Qed.

Lemma rerank_error_path (options : RerankOptions)
  (originalMethod : Callable) (args : list value) (w w1 : World)
  (c : string) (props : list (string * value)) (m : value) :
  let e := VObject (Some c) props in
  reaches_call (Rerank options) w args = true ->
  originalMethod args w = (Throw e, w1) ->
  short_message e = Some m ->
  let '(r, log, w') := run (traceRerank options originalMethod args) w in
  r = Throw e /\ w' = w1
  /\ attribute_values "error" log = [VBool true]
  /\ attribute_values "error.type" log = [VString c]
  /\ attribute_values "error.message" log = [m].
Proof.
  intros e Hr Hf Hm. unfold short_message in Hm.
  destruct options as [model provider [inputCount|] [topN|]]; cbn in Hr.
  all: unfold run, traceRerank, startActiveSpan, try_catch_finally;
    cbn [rerank_model rerank_provider rerank_inputCount rerank_topN];
    run_to_call Hf;
    repeat match goal with
      | |- context [truthy ?v] => destruct (truthy v); run_to_call Hf
      end.
  all: unfold record_error, e in *; cbn [get_prop is_nullish constructor_name] in *;
    run_to_call Hf; rewrite ?bind_get_errorType, ?bind_get_resultStatus; run_to_call Hf.
  all: destruct (prop (VObject (Some c) props) "message"); try discriminate Hm;
    injection Hm as <-; cbn; repeat split.
Qed.

Lemma generate_error_path (options : GenerateOptions)
  (originalMethod : Callable) (args : list value) (w w1 : World)
  (c : string) (props : list (string * value)) (m : value) :
  let e := VObject (Some c) props in
  reaches_call (Generate options) w args = true ->
  originalMethod args w = (Throw e, w1) ->
  short_message e = Some m ->
  let '(r, log, w') := run (traceGenerate options originalMethod args) w in
  r = Throw e /\ w' = w1
  /\ attribute_values "error" log = [VBool true]
  /\ attribute_values "error.type" log = [VString c]
  /\ attribute_values "error.message" log = [m].
Proof.
  intros e Hr Hf Hm. unfold short_message in Hm.
  destruct options as [model provider [temperature|] [maxTokens|] [streaming|]]; cbn in Hr;
    (destruct (Config.logPrompts (config w)) eqn:Hl; cbn in Hr;
     [destruct args as [|[| | | |text| |] args]; try discriminate Hr|]).
  all: unfold run, traceGenerate, startActiveSpan, try_catch_finally;
    cbn [generate_model generate_provider generate_temperature generate_maxTokens generate_streaming];
    run_to_call Hf; rewrite ?Hl; run_to_call Hf;
    repeat match goal with
      | |- context [truthy ?v] => destruct (truthy v); run_to_call Hf
      end.
  all: unfold record_error, e in *; cbn [get_prop is_nullish constructor_name] in *;
    run_to_call Hf; rewrite ?bind_get_errorType, ?bind_get_resultStatus; run_to_call Hf.
  all: destruct (prop (VObject (Some c) props) "message"); try discriminate Hm;
    injection Hm as <-; cbn; repeat split.
Qed.

Lemma tool_error_path (options : ToolCallOptions)
  (originalMethod : Callable) (args : list value) (w w1 : World)
  (c : string) (props : list (string * value)) (m : value) :
  let e := VObject (Some c) props in
  reaches_call (ToolCall options) w args = true ->
  originalMethod args w = (Throw e, w1) ->
  short_message e = Some m ->
  let '(r, log, w') := run (traceToolCall options originalMethod args) w in
  r = Throw e /\ w' = w1
  /\ attribute_values "error" log = [VBool true]
  /\ attribute_values "error.type" log = [VString c]
  /\ attribute_values "error.message" log = [m].
Proof.
  intros e Hr Hf Hm. unfold short_message in Hm.
  destruct options as [toolName [parameters|]]; cbn in Hr; try (apply negb_true_iff in Hr).
  all: unfold run, traceToolCall, startActiveSpan, try_catch_finally;
    cbn [tool_toolName tool_parameters];
    run_to_call Hf; try rewrite Hr; run_to_call Hf;
    repeat match goal with
      | |- context [truthy ?v] => destruct (truthy v); run_to_call Hf
      end.
  all: unfold record_error, e in *; cbn [get_prop is_nullish constructor_name] in *;
    run_to_call Hf; rewrite ?bind_get_errorType, ?bind_get_resultStatus; run_to_call Hf.
  all: destruct (prop (VObject (Some c) props) "message"); try discriminate Hm;
    injection Hm as <-; destruct c; cbn; repeat split.
Qed.

(** X18. When the wrapped function throws an error object that has a
    [message] and the call got to it without going through the engine,
    every wrapper marks the span with the error attributes and throws the
    same value on, in the world the wrapped function left. *)
Lemma error_object_is_recorded_and_rethrown (op : Operation)
  (originalMethod : Callable) (args : list value) (w w1 : World)
  (c : string) (props : list (string * value)) (m : value) :
  let e := VObject (Some c) props in
  JsObject.get props "message" <> None ->
  reaches_call op w args = true ->
  originalMethod args w = (Throw e, w1) ->
  short_message e = Some m ->
  let '(r, log, w') := run (instrumented op originalMethod args) w in
  r = Throw e /\ w' = w1
  /\ attribute_values "error" log = [VBool true]
  /\ attribute_values "error.type" log = [VString c]
  /\ attribute_values "error.message" log = [m].
Proof.
  intros e _. subst e.
  destruct op as [options|options|options|options|options]; cbn [instrumented].
  - apply embed_error_path.
  - apply retrieve_error_path.
  - apply rerank_error_path.
  - apply generate_error_path.
  - apply tool_error_path.
Qed.

(** C3. Claim: the instrumented call fails exactly when the wrapped function
    fails, and re-raises the original error value. A tool that returns
    [undefined] makes [JSON.stringify] return [undefined] and
    [Buffer.byteLength] throw: the instrumented call fails with that
    [TypeError] though the wrapped function returned, and the span is marked
    as an error. A wrapped function that throws [null] makes the catch block
    itself throw: the caller gets a [TypeError], not [null], and no error
    attribute is recorded. *)
Theorem tool_call_fails_though_tool_returned (toolName : string) (args : list value)
  (w : World) :
  let options := {| tool_toolName := toolName; tool_parameters := None |} in
  let returns_undefined : Callable := fun _ w => (Normal VUndefined, w) in
  let throws_null : Callable := fun _ w => (Throw VNull, w) in
  (fst (fst (run (traceToolCall options returns_undefined args) w))
   = Throw (TypeError ("The " ++ Redaction.dquote ++ "string" ++ Redaction.dquote
                       ++ " argument must be of type string or an instance of Buffer"
                       ++ " or ArrayBuffer. Received undefined"))
   /\ attribute_values "error" (snd (fst (run (traceToolCall options returns_undefined args) w)))
      = [VBool true]
   /\ attribute_values "gen_ai.tool.result_status"
        (snd (fst (run (traceToolCall options returns_undefined args) w)))
      = [VString "error"])
  /\ (fst (fst (run (traceToolCall options throws_null args) w))
      = Throw (read_error VNull "constructor")
      /\ read_error VNull "constructor" <> VNull
      /\ attribute_values "error" (snd (fst (run (traceToolCall options throws_null args) w)))
         = []).
Proof.
  cbv zeta. repeat split. discriminate.
Qed.

End ErrorPath.

(** ** Normal forms of names *)

Section NormalForms.

Import JsString.

Lemma lower_char_idempotent (c : ascii) : lower_char (lower_char c) = lower_char c.
Proof. destruct c as [[] [] [] [] [] [] [] []]; reflexivity. Qed.

Lemma lower_char_space (c : ascii) : is_space (lower_char c) = is_space c.
Proof. destruct c as [[] [] [] [] [] [] [] []]; reflexivity. Qed.

Lemma toLowerCase_idempotent (s : string) : toLowerCase (toLowerCase s) = toLowerCase s.
Proof.
  induction s as [|c s IH]; simpl; [reflexivity|].
  rewrite lower_char_idempotent, IH. reflexivity.
Qed.

Lemma toLowerCase_trimStart (s : string) :
  trimStart (toLowerCase s) = toLowerCase (trimStart s).
Proof.
  induction s as [|c s IH]; simpl; [reflexivity|].
  rewrite lower_char_space. destruct (is_space c); [exact IH | reflexivity].
Qed.

Lemma toLowerCase_trimEnd (s : string) :
  trimEnd (toLowerCase s) = toLowerCase (trimEnd s).
Proof.
  induction s as [|c s IH]; simpl; [reflexivity|].
  rewrite IH, lower_char_space.
  destruct (trimEnd s) as [|d r]; simpl; [destruct (is_space c); reflexivity | reflexivity].
Qed.

Lemma trimEnd_idempotent (s : string) : trimEnd (trimEnd s) = trimEnd s.
Proof.
  induction s as [|c s IH]; simpl; [reflexivity|].
  destruct (trimEnd s) as [|d r] eqn:E.
  - destruct (is_space c) eqn:Hc; simpl; [reflexivity | rewrite Hc; reflexivity].
  - change (trimEnd (String c (String d r)))
      with (match trimEnd (String d r) with
            | EmptyString => if is_space c then EmptyString else String c EmptyString
            | String x y => String c (String x y)
            end).
    rewrite IH. reflexivity.
Qed.

Lemma trimStart_trimmed (s : string) : Forms.trimmed_start (trimStart s).
Proof.
  induction s as [|c s IH]; simpl; [exact I|].
  destruct (is_space c) eqn:E; [exact IH | exact E].
Qed.

Lemma trimStart_of_trimmed (s : string) : Forms.trimmed_start s -> trimStart s = s.
Proof. destruct s as [|c s]; simpl; [reflexivity | intros ->; reflexivity]. Qed.

Lemma trimEnd_keeps_trimmed (s : string) :
  Forms.trimmed_start s -> Forms.trimmed_start (trimEnd s).
Proof.
  destruct s as [|c s]; simpl; [auto|]. intros Hc.
  destruct (trimEnd s); [rewrite Hc|]; exact Hc.
Qed.

Lemma trim_idempotent (s : string) : trim (trim s) = trim s.
Proof.
  unfold trim.
  rewrite (trimStart_of_trimmed (trimEnd (trimStart s)))
    by (apply trimEnd_keeps_trimmed, trimStart_trimmed).
  apply trimEnd_idempotent.
Qed.

Lemma toLowerCase_trim (s : string) : trim (toLowerCase s) = toLowerCase (trim s).
Proof. unfold trim. rewrite toLowerCase_trimStart, toLowerCase_trimEnd. reflexivity. Qed.

(** Trimming and lower-casing a name twice is the same as doing it once. *)
Lemma normal_form_idempotent (s : string) :
  toLowerCase (trim (toLowerCase (trim s))) = toLowerCase (trim s).
Proof. rewrite toLowerCase_trim, toLowerCase_idempotent, trim_idempotent. reflexivity. Qed.

End NormalForms.


(** ** More on the cost calculator *)

Section MoreCostFacts.

Import JsNumber JsString Cost.
Local Open Scope float_scope.

(** X1. [calculateCost] reads its provider lower-cased and its model trimmed
    and lower-cased, so a call gives what the call with the normal forms of
    the two names gives. *)
Theorem calculateCost_ignores_case_and_padding
  (pricing : CostCalculator) (provider model : string) (inputTokens outputTokens : number) :
  calculateCost pricing (toLowerCase provider) (toLowerCase (trim model))
    inputTokens outputTokens
  = calculateCost pricing provider model inputTokens outputTokens.
Proof.
  unfold calculateCost, findPricing, normalizeModelName.
  rewrite toLowerCase_idempotent, normal_form_idempotent. reflexivity.
Qed.

Lemma get_absent {V : Type} (o : JsObject.t V) (k : string) :
  ~ In k (map fst o) -> JsObject.get o k = None.
Proof.
  induction o as [|[j v] o IH]; simpl; intros H; [reflexivity|].
  destruct (String.eqb j k) eqn:E.
  - apply String.eqb_eq in E. tauto.
  - apply IH. tauto.
Qed.

Lemma get_assign {V : Type} (src o : JsObject.t V) (k : string) :
  NoDup (map fst src) ->
  JsObject.get (JsObject.assign o src) k
  = match JsObject.get src k with
    | Some v => Some v
    | None => JsObject.get o k
    end.
Proof.
  unfold JsObject.assign. revert o.
  induction src as [|[j v] src IH]; intros o Hd; simpl; [reflexivity|].
  inversion Hd as [|? ? Hj Hd']; subst. rewrite IH by exact Hd'.
  destruct (String.eqb j k) eqn:E.
  - apply String.eqb_eq in E. subst j.
    rewrite (get_absent src k Hj), get_set_same. reflexivity.
  - destruct (JsObject.get src k); [reflexivity|].
    apply get_set_other. intros ->. rewrite String.eqb_refl in E. discriminate.
Qed.

(** X2. The constructor merges shallowly: whatever the module's table
    reads when a calculator is built with custom pricing, the calculator
    has, for each provider of the custom object, the custom table in place
    of the module's, and the module's tables of the other providers. The
    custom object has no own property [__proto__], which [Object.assign]
    would not copy as a property. *)
Theorem constructor_replaces_provider_tables
  (tables customPricing : JsObject.t ProviderPricing) (provider : string) :
  NoDup (map fst customPricing) ->
  ~ In "__proto__" (map fst customPricing) ->
  JsObject.get (merged_pricing tables (Some customPricing)) provider
  = match JsObject.get customPricing provider with
    | Some table => Some table
    | None => JsObject.get tables provider
    end.
Proof. intros H _. unfold merged_pricing. apply get_assign, H. Qed.

Lemma constructor_replaces_provider_tables_witness :
  let custom := [("openai", [("my-model", {| input := 1; output := 2 |})])] in
  JsObject.get (new_CostCalculator (Some custom)) "openai"
  = Some [("my-model", {| input := 1; output := 2 |})]
  /\ JsObject.get (new_CostCalculator (Some custom)) "cohere"
     = JsObject.get PRICING_TABLE "cohere".
Proof.
  intros custom.
  assert (Hd : NoDup (map fst custom)) by (repeat constructor; simpl; tauto).
  assert (Hp : ~ In "__proto__" (map fst custom))
    by (intros [E|[]]; discriminate E).
  split.
  - exact (constructor_replaces_provider_tables PRICING_TABLE custom "openai" Hd Hp).
  - exact (constructor_replaces_provider_tables PRICING_TABLE custom "cohere" Hd Hp).
Defined.



Lemma custom_pricing_found_for_normalized_name_witness :
  calculateCost (addCustomPricing "Custom" "my-model" 10 30 (new_CostCalculator None))
    "CUSTOM" " My-Model " 1000 500
  = costOf {| input := 10; output := 30 |} 1000 500.
Proof.
  apply custom_pricing_found_for_normalized_name; reflexivity.
Defined.

End MoreCostFacts.


(** ** Calls without tokens *)

Section ZeroTokens.

Import JsNumber Cost.
Local Open Scope float_scope.

Lemma zero_times_finite (p : number) :
  Forms.finite p = true -> exists s, Prim2SF (0 / 1000000 * p) = S754_zero s.
Proof.
  unfold Forms.finite. intros H. rewrite mul_spec.
  change (Prim2SF (0 / 1000000)) with (S754_zero false).
  destruct (Prim2SF p) as [s|s| |s m e]; try discriminate H.
  - exists (xorb false s). reflexivity.
  - exists (xorb false s). reflexivity.
Qed.

Lemma round8_zero (x : number) (s : bool) : Prim2SF x = S754_zero s -> round8 x = 0.
Proof. intros H. unfold round8, toFixed. rewrite H. vm_compute. reflexivity. Qed.

(** X5. A call with no tokens costs nothing: for a provider other than the
    two a calculator inherits, [constructor] and [__proto__], and whenever
    the prices the lookup settles on are finite,
    [calculateCost(provider, model, 0, 0)] is [0], as it is when the lookup
    finds no prices. *)
Theorem no_tokens_cost_nothing (pricing : CostCalculator) (provider model : string) :
  JsObject.inherited (JsString.toLowerCase provider) = false ->
  (forall modelPricing, findPricing pricing provider model = Some modelPricing ->
     Forms.finite (input modelPricing) = true
     /\ Forms.finite (output modelPricing) = true) ->
  calculateCost pricing provider model 0 0 = 0.
Proof.
  intros _ H. unfold calculateCost.
  destruct (findPricing pricing provider model) as [modelPricing|]; [|reflexivity].
  destruct (H modelPricing eq_refl) as [Hi Ho].
  destruct (zero_times_finite _ Hi) as [si Ei].
  destruct (zero_times_finite _ Ho) as [so Eo].
  unfold costOf. apply (round8_zero _ (if Bool.eqb si so then si else false)).
  rewrite add_spec, Ei, Eo. destruct si, so; reflexivity.
Qed.

Lemma no_tokens_cost_nothing_witness :
  calculateCost PRICING_TABLE "openai" "gpt-4" 0 0 = 0.
Proof.
  apply no_tokens_cost_nothing; [reflexivity|].
  intros modelPricing H. vm_compute in H. injection H as <-. split; reflexivity.
Defined.

End ZeroTokens.


(** ** More on redaction *)

Section MoreRedactionFacts.

Import JsString Redaction.

Context {engine : Engine}.

Lemma redact_step_normal_form (reg : Registry) (text patternName : string) :
  redact_step reg text (toLowerCase (trim patternName)) = redact_step reg text patternName.
Proof. unfold redact_step. rewrite normal_form_idempotent. reflexivity. Qed.

(** X6. [redactSensitiveData] looks every active name up trimmed and
    lower-cased, so a list of names gives what the list of their normal forms
    gives. *)
Theorem redact_ignores_case_and_padding (reg : Registry) (text : string)
  (names : list string) :
  redact reg text (map (fun name => toLowerCase (trim name)) names)
  = redact reg text names.
Proof.
  unfold redact. revert text.
  induction names as [|name names IH]; intros text; [reflexivity|].
  cbn [map fold_left]. rewrite redact_step_normal_form. apply IH.
Qed.

(** X7. An active name with no pattern registered under its normal form is
    skipped: a list of such names leaves the text as it is. *)
Theorem redact_skips_unknown_names (reg : Registry) (text : string) (names : list string) :
  (forall name, In name names ->
     JsObject.get (PATTERNS reg) (toLowerCase (trim name)) = None) ->
  redact reg text names = text.
Proof.
  unfold redact. revert text.
  induction names as [|name names IH]; intros text H; [reflexivity|].
  cbn [fold_left]. unfold redact_step at 2.
  rewrite (H name (or_introl eq_refl)). apply IH.
  intros n Hn. apply H. right. exact Hn.
Qed.

(** X10. Registering a pattern under a name other than [__proto__] changes
    the redaction of no list of active names of which none normalizes to
    the registered name. *)
Theorem registration_changes_only_its_name (reg : Registry) (name : string)
  (pattern : RegExp) (replacement : string) (names : list string) :
  name <> "__proto__" ->
  (forall n, In n names -> toLowerCase (trim n) <> name) ->
  forall text,
    redact (addRedactionPattern name pattern replacement reg) text names
    = redact reg text names.
Proof.
  intros _. unfold redact.
  induction names as [|n names IH]; intros H text; [reflexivity|].
  cbn [fold_left]. rewrite IH by (intros m Hm; apply H; right; exact Hm).
  f_equal. unfold redact_step, replacement_for.
  cbn [PATTERNS REPLACEMENTS addRedactionPattern].
  rewrite !get_set_other
    by (intros E; apply (H n (or_introl eq_refl)); symmetry; exact E).
  reflexivity.
Qed.

(** X8. A pattern registered, under a name other than [__proto__], with the
    empty string as replacement is applied with the default replacement
    text, since the code takes the replacement with [||]: matches are
    replaced by [[REDACTED]], not deleted. *)
Theorem empty_replacement_falls_back (reg : Registry) (name patternName : string)
  (pattern : RegExp) (text : string) :
  name <> "__proto__" ->
  toLowerCase (trim patternName) = name ->
  redact_step (addRedactionPattern name pattern EmptyString reg) text patternName
  = String_replace text pattern "[REDACTED]".
Proof.
  intros _ Hn. unfold redact_step, replacement_for. rewrite Hn.
  cbn [PATTERNS REPLACEMENTS addRedactionPattern]. rewrite !get_set_same. reflexivity.
Qed.

End MoreRedactionFacts.

Section MoreRedactionExamples.

Import JsString Redaction.

Lemma redact_skips_unknown_names_witness :
  redact (engine := LiteralEngine.engine) initial "call me" ["E-Mail"; "passport"]
  = "call me".
Proof.
  apply redact_skips_unknown_names.
  intros name [<-|[<-|[]]]; reflexivity.
Defined.

Lemma empty_replacement_falls_back_witness :
  redact_step (engine := LiteralEngine.engine)
    (addRedactionPattern "secret" {| source := "hunter2"; flags := "g" |} EmptyString initial)
    "password hunter2" " Secret "
  = "password [REDACTED]".
Proof.
  apply (empty_replacement_falls_back (engine := LiteralEngine.engine) initial "secret"
           " Secret " {| source := "hunter2"; flags := "g" |} "password hunter2").
  - discriminate.
  - reflexivity.
Defined.

Lemma registered_pattern_applies_for_normalized_name_witness :
  redact_step (engine := LiteralEngine.engine)
    (addRedactionPattern "secret" {| source := "hunter2"; flags := "g" |} "[PW]" initial)
    "password hunter2" " Secret "
  = "password [PW]".
Proof.
  apply (registered_pattern_applies_for_normalized_name (engine := LiteralEngine.engine)
           initial "secret" " Secret " {| source := "hunter2"; flags := "g" |} "[PW]"
           "password hunter2").
  - discriminate.
  - reflexivity.
  - discriminate.
Defined.

Lemma registration_changes_only_its_name_witness :
  redact (engine := LiteralEngine.engine)
    (addRedactionPattern "secret" {| source := "hunter2"; flags := "g" |} "[PW]" initial)
    "password hunter2" ["email"; " SSN "]
  = redact (engine := LiteralEngine.engine) initial "password hunter2" ["email"; " SSN "].
Proof.
  apply registration_changes_only_its_name; [discriminate|].
  intros n [<-|[<-|[]]]; discriminate.
Defined.

End MoreRedactionExamples.


(** ** More on the configuration state *)

Section MoreConfigFacts.

Import JsNumber Config.
Local Open Scope float_scope.

Lemma leb_not_ltb (x y : number) : (x <=? y) = true -> (y <? x) = false.
Proof.
  rewrite ltb_spec, leb_spec. unfold SFltb, SFleb.
  rewrite (SFcompare_antisym (Prim2SF x) (Prim2SF y)).
  destruct (SFcompare (Prim2SF x) (Prim2SF y)) as [[ | | ]|]; simpl;
    intros H; try reflexivity; discriminate.
Qed.

Lemma isNaN_true (x : number) : isNaN x = true -> Prim2SF x = S754_nan.
Proof.
  unfold isNaN. rewrite eqb_spec. unfold SFeqb.
  destruct (Prim2SF x) as [s|s| |s m e]; simpl; intros H; try reflexivity.
  - destruct s; discriminate.
  - destruct s; discriminate.
  - destruct s; simpl in H; rewrite Z.compare_refl, Pos.compare_cont_refl in H;
      discriminate.
Qed.

Lemma NaN_not_ltb (x y : number) :
  isNaN x = true -> (x <? y) = false /\ (y <? x) = false.
Proof.
  intros H. apply isNaN_true in H. rewrite !ltb_spec. unfold SFltb. rewrite H.
  split; [reflexivity|]. destruct (Prim2SF y); reflexivity.
Qed.

Lemma in_bounds_accepted (newConfig : PartialConfig) (config : GenAIConfig) :
  in_bounds (spread config newConfig) = true ->
  setConfig newConfig config = (Normal tt, spread config newConfig).
Proof.
  unfold in_bounds, setConfig. cbv zeta. intros H.
  apply andb_prop in H. destruct H as [H H3]. apply andb_prop in H. destruct H as [H1 H2].
  rewrite (leb_not_ltb _ _ H1), (leb_not_ltb _ _ H2), (leb_not_ltb _ _ H3). reflexivity.
Qed.

(** X11. On numbers the validation is exact: when the two numeric settings of
    the merged record are not [NaN], [setConfig] returns normally if the
    merged record is within the bounds and throws if it is not. *)
Theorem setConfig_validation_is_exact (newConfig : PartialConfig) (config : GenAIConfig) :
  numeric (spread config newConfig) = true ->
  succeeds newConfig config = in_bounds (spread config newConfig).
Proof.
  intros Hn. destruct (in_bounds (spread config newConfig)) eqn:Hb.
  - unfold succeeds. rewrite (in_bounds_accepted _ _ Hb). reflexivity.
  - destruct (succeeds newConfig config) eqn:Hs; [|reflexivity].
    destruct (setConfig_success_validated newConfig config Hs) as (H1 & H2 & H3).
    rewrite setConfig_assigns_merge in H1, H2, H3.
    rewrite (validated_in_bounds _ Hn H1 H2 H3) in Hb. discriminate.
Qed.

Lemma setConfig_validation_is_exact_witness :
  succeeds (only_sampleRate 0.5) (defaultConfig empty_env) = true
  /\ succeeds (only_maxAttributeLength 99) (defaultConfig empty_env) = false.
Proof.
  split.
  - exact (setConfig_validation_is_exact (only_sampleRate 0.5) (defaultConfig empty_env)
             eq_refl).
  - exact (setConfig_validation_is_exact (only_maxAttributeLength 99)
             (defaultConfig empty_env) eq_refl).
Defined.

(** X12. [NaN] passes the validation: both tests are comparisons, which are
    false on [NaN], so a merged record whose [sampleRate] is [NaN] and whose
    [maxAttributeLength] is [NaN] or at least 100 is accepted. *)
Theorem setConfig_accepts_NaN (newConfig : PartialConfig) (config : GenAIConfig) :
  isNaN (sampleRate (spread config newConfig)) = true ->
  isNaN (maxAttributeLength (spread config newConfig)) = true
  \/ (100 <=? maxAttributeLength (spread config newConfig)) = true ->
  setConfig newConfig config = (Normal tt, spread config newConfig).
Proof.
  intros H1 H2. unfold setConfig. cbv zeta.
  destruct (NaN_not_ltb _ 0 H1) as [-> _]. destruct (NaN_not_ltb _ 1 H1) as [_ ->].
  destruct H2 as [H2|H2].
  - destruct (NaN_not_ltb _ 100 H2) as [-> _]. reflexivity.
  - rewrite (leb_not_ltb _ _ H2). reflexivity.
Qed.

Lemma setConfig_accepts_NaN_witness :
  fst (setConfig (only_sampleRate nan) (defaultConfig empty_env)) = Normal tt
  /\ isNaN (sampleRate (snd (setConfig (only_sampleRate nan) (defaultConfig empty_env))))
     = true.
Proof.
  rewrite (setConfig_accepts_NaN (only_sampleRate nan) (defaultConfig empty_env) eq_refl
             (or_intror eq_refl)).
  split; reflexivity.
Defined.

End MoreConfigFacts.


(** ** The shape of a finished span *)

Section TraceRules.

Import JsNumber JsValue Instrumentation Trace.
Local Open Scope float_scope.
Local Open Scope list_scope.

Context {engine : Engine}.

Lemma hoare_bind_step {A B : Type} (W W' : World -> Prop) (J : list span_op -> Prop)
  (m : M A) (k : A -> M B) (R : A -> Prop) (Q : B -> State -> Prop) :
  step W W' J m R ->
  (forall a, R a ->
     hoare (fun s => W' (world s) /\ J (ops s)) (k a) Q (fun _ s => J (ops s))) ->
  hoare (fun s => W (world s) /\ J (ops s)) (bind m k) Q (fun _ s => J (ops s)).
Proof.
  intros Hm Hk s Hs. unfold bind. specialize (Hm s Hs).
  destruct (m s) as [[a|e] s1]; [|exact Hm].
  destruct Hm as (Ha & Hw & Hj). apply (Hk a Ha s1). auto.
Qed.

Lemma hoare_bind_call {B : Type} (w0 : World) (J : list span_op -> Prop)
  (originalMethod : Callable) (args : list value) (k : value -> M B)
  (Q : B -> State -> Prop) :
  (forall result,
     hoare (fun s => returned originalMethod args w0 result (world s) /\ J (ops s))
       (k result) Q (fun _ s => J (ops s))) ->
  hoare (fun s => at_world w0 (world s) /\ J (ops s)) (bind (call originalMethod args) k) Q
    (fun _ s => J (ops s)).
Proof.
  intros Hk s [Hw Hj]. unfold bind, call. unfold at_world in Hw. rewrite Hw.
  destruct (originalMethod args w0) as [[r|e] w1] eqn:E; [|exact Hj].
  apply (Hk r). split; [|exact Hj]. exists w1. cbn [world]. auto.
Qed.

Lemma returned_calculator (originalMethod : Callable) (args : list value) (w0 : World)
  (result : value) :
  forall w c, returned originalMethod args w0 result w ->
    returned originalMethod args w0 result
      {| config := config w; registry := registry w; calculator := c; clock := clock w |}.
Proof. intros w c (w1 & H & H1 & H2 & H3). exists w1. cbn. auto. Qed.

Lemma course_snoc (hd : list span_op) (op : span_op) :
  in_course op = true -> forall l, course hd l -> course hd (l ++ [op]).
Proof.
  intros H l (mid & -> & Hm). exists (mid ++ [op]). split.
  - rewrite app_assoc. reflexivity.
  - apply Forall_app. split; [exact Hm | constructor; [exact H | constructor]].
Qed.

Lemma failing_snoc (hd : list span_op) (op : span_op) :
  in_failure op = true -> forall l, failing hd l -> failing hd (l ++ [op]).
Proof.
  intros H l (mid & -> & Hm). exists (mid ++ [op]). split.
  - rewrite app_assoc. reflexivity.
  - apply Forall_app. split; [exact Hm | constructor; [exact H | constructor]].
Qed.

Lemma in_course_in_failure (op : span_op) : in_course op = true -> in_failure op = true.
Proof.
  destruct op as [n|l|k v|c m|]; cbn [in_course in_failure]; try discriminate.
  - unfold avoids. cbn [keys_of]. rewrite !forallb_forall. intros H k Hk.
    specialize (H k Hk). apply negb_true_iff in H. apply negb_true_iff.
    cbn [existsb app start_keys end_keys] in *.
    repeat (apply orb_false_iff in H; destruct H as [? H]).
    repeat (apply orb_false_iff; split); assumption.
  - unfold avoids. cbn [keys_of forallb]. rewrite !andb_true_r. intros H.
    apply negb_true_iff in H. apply negb_true_iff.
    cbn [existsb app start_keys end_keys] in *.
    repeat (apply orb_false_iff in H; destruct H as [? H]).
    repeat (apply orb_false_iff; split); assumption.
Qed.

Lemma course_failing (hd l : list span_op) : course hd l -> failing hd l.
Proof.
  intros (mid & -> & Hm). exists mid. split; [reflexivity|].
  eapply Forall_impl; [|exact Hm]. apply in_course_in_failure.
Qed.

(** The end of every [try] block. *)
Lemma success_tail (hd : list span_op) (originalMethod : Callable) (args : list value)
  (w0 : World) (startTime : number) (result : value) :
  hoare (fun s => returned originalMethod args w0 result (world s) /\ course hd (ops s))
    (bind Date_now (fun now =>
       bind (span (SetAttribute "gen_ai.request.duration_ms" (VNumber (now - startTime))))
         (fun _ => bind (span (SetStatus OK VUndefined)) (fun _ => ret result))))
    (fun a s =>
       returned originalMethod args w0 a (world s)
       /\ exists mid, ops s = hd ++ mid ++ success_marks (clock (world s) - startTime)
                      /\ Forall (fun op => in_course op = true) mid)
    (fun _ s => course hd (ops s)).
Proof.
  intros s [Hw (mid & Hl & Hm)]. cbn. split; [exact Hw|].
  exists mid. split; [|exact Hm]. rewrite Hl, <- !app_assoc. reflexivity.
Qed.

(** [try]/[catch]/[finally] with a [catch] block that always throws and a
    [finally] block that only adds to the span. *)
Lemma hoare_try_rethrow_finally {A : Type} (P : State -> Prop) (body : M A)
  (handler : value -> M A) (finalizer : M unit) (added : State -> list span_op)
  (Qb : A -> State -> Prop) (Eb Eh : value -> State -> Prop) :
  (forall s, finalizer s = (Normal tt, add_ops s (added s))) ->
  hoare P body Qb Eb ->
  (forall e, hoare (Eb e) (handler e) (fun _ _ => False) (fun _ s => Eh e s)) ->
  hoare P (try_catch_finally body handler finalizer)
    (fun a s => exists s1, Qb a s1 /\ s = add_ops s1 (added s1))
    (fun _ s => exists e s1, Eh e s1 /\ s = add_ops s1 (added s1)).
Proof.
  intros Hf Hb Hh s Hs. unfold try_catch_finally. specialize (Hb s Hs).
  destruct (body s) as [[a|e] s1].
  - rewrite Hf. exists s1. auto.
  - specialize (Hh e s1 Hb). destruct (handler e s1) as [[a|e'] s2]; [contradiction|].
    rewrite Hf. exists e, s2. auto.
Qed.

(** The first call of a [try] block on the span cannot throw. *)
Lemma try_span {A : Type} (op : span_op) (k : unit -> M A) (handler : value -> M A)
  (finalizer : M unit) (s : State) :
  try_catch_finally (bind (span op) k) handler finalizer s
  = try_catch_finally (k tt) handler finalizer (add_ops s [op]).
Proof. reflexivity. Qed.

Lemma record_error_failing (hd : list span_op) (error : value) :
  hoare (fun s => course hd (ops s)) (record_error error) (fun _ _ => False)
    (fun _ s => failing hd (ops s)).
Proof.
  intros s H. apply course_failing in H.
  assert (St : step any_world any_world (failing hd) (record_error error) (fun _ => False)).
  { unfold record_error. repeat step_rule ltac:(apply failing_snoc; reflexivity). }
  specialize (St s (conj I H)). destruct (record_error error s) as [[a|e] s1].
  - destruct St as [[] _].
  - exact St.
Qed.

End TraceRules.


Section LocalsRules.

Import JsNumber JsValue Instrumentation Trace.

Lemma keeps_bind {A B : Type} (m : M A) (k : A -> M B) :
  keeps_locals m -> (forall a, keeps_locals (k a)) -> keeps_locals (bind m k).
Proof.
  intros Hm Hk s. unfold bind. specialize (Hm s).
  destruct (m s) as [[a|e] s1]; cbn [snd] in *; [|exact Hm].
  destruct (Hk a s1) as [H1 H2]. destruct Hm as [H3 H4]. split; congruence.
Qed.

Lemma keeps_ret {A : Type} (a : A) : keeps_locals (ret a).
Proof. intros s. split; reflexivity. Qed.

Lemma keeps_lift {A : Type} (c : completion value A) : keeps_locals (lift c).
Proof. intros s. split; reflexivity. Qed.

Lemma keeps_span (op : span_op) : keeps_locals (span op).
Proof. intros s. split; reflexivity. Qed.

Lemma keeps_Date_now : keeps_locals Date_now.
Proof. intros s. split; reflexivity. Qed.

Lemma keeps_getRegistry : keeps_locals getRegistry.
Proof. intros s. split; reflexivity. Qed.

Lemma keeps_call (originalMethod : Callable) (args : list value) :
  keeps_locals (call originalMethod args).
Proof.
  intros s. unfold call. destruct (originalMethod args (world s)). split; reflexivity.
Qed.

Lemma keeps_when (b : bool) (m : M unit) : keeps_locals m -> keeps_locals (when b m).
Proof. intros H. destruct b; [exact H | apply keeps_ret]. Qed.

Lemma keeps_if_given (o : option value) (k : value -> M unit) :
  (forall v, keeps_locals (k v)) -> keeps_locals (if_given o k).
Proof.
  intros H. destruct o as [v|]; simpl; [apply keeps_when, H | apply keeps_ret].
Qed.

Lemma hoare_keeps_locals {A : Type} (P : State -> Prop) (m : M A)
  (Q : A -> State -> Prop) (E : value -> State -> Prop) (status : string) (type : value) :
  hoare P m Q E -> keeps_locals m ->
  hoare (fun s => P s /\ resultStatus s = status /\ errorType s = type) m
    (fun a s => Q a s /\ resultStatus s = status /\ errorType s = type)
    (fun e s => E e s).
Proof.
  intros H K s (Hp & H1 & H2). specialize (H s Hp). destruct (K s) as [K1 K2].
  destruct (m s) as [[a|e] s1]; cbn [snd] in *; [|exact H].
  repeat split; [exact H | congruence | congruence].
Qed.

End LocalsRules.

Ltac keeps_rule :=
  first
    [ apply keeps_bind; [ | intros ? ]
    | apply keeps_ret | apply keeps_lift | apply keeps_span | apply keeps_Date_now
    | apply keeps_getRegistry | apply keeps_call
    | apply keeps_when | apply keeps_if_given; intros ? ].

Ltac trace_side :=
  first [ apply course_snoc; reflexivity
        | apply returned_calculator
        | intros; exact I ].

(** One step along a [try] block: the wrapped call, the end of the block,
    or a step that keeps the course of the span. *)
Ltac walk :=
  lazymatch goal with
  | |- Instrumentation.hoare _ (Instrumentation.bind (Instrumentation.call _ _) _) _ _ =>
      apply hoare_bind_call; intros ?
  | |- Instrumentation.hoare _ (Instrumentation.bind Instrumentation.Date_now _) _ _ =>
      apply success_tail
  | |- Instrumentation.hoare _ (Instrumentation.bind _ _) _ _ =>
      eapply hoare_bind_step; [ solve [repeat step_rule trace_side] | intros ? ? ]
  end.

Section Outcomes.

Import JsNumber JsValue Instrumentation Trace.
Local Open Scope float_scope.
Local Open Scope list_scope.

Context {engine : Engine}.

Lemma outcome_of_try (op : Operation) (originalMethod : Callable) (args : list value)
  (w : World) (static : list (string * value)) (body : M value)
  (handler : value -> M value) (finalizer : M unit) (s0 : State) (startTime : number) :
  let hd := [StartSpan (span_name op); SetAttributes static] in
  start_attributes op w static ->
  (forall status type, closing op status type = [SpanEnd]) ->
  startTime = clock w ->
  world s0 = w -> ops s0 = hd ->
  hoare (fun s => at_world w (world s) /\ course hd (ops s)) body
    (fun a s =>
       returned originalMethod args w a (world s)
       /\ exists mid, ops s = hd ++ mid ++ success_marks (clock (world s) - startTime)
                      /\ Forall (fun op => in_course op = true) mid)
    (fun _ s => course hd (ops s)) ->
  (forall e, hoare (fun s => course hd (ops s)) (handler e) (fun _ _ => False)
               (fun _ s => failing hd (ops s))) ->
  (forall s, finalizer s = (Normal tt, add_ops s [SpanEnd])) ->
  outcome op originalMethod args w
    (let '(r, s) := try_catch_finally body handler finalizer s0 in (r, ops s, world s)).
Proof.
  intros hd Hst Hc Ht Hw Hl Hb Hh Hf.
  pose proof (hoare_try_rethrow_finally _ body handler finalizer (fun _ => [SpanEnd])
                _ _ (fun _ s => failing hd (ops s)) Hf Hb Hh s0) as H.
  cbv beta in H. specialize (H (conj Hw (ex_intro _ [] (conj (eq_sym (eq_trans (app_nil_r hd) (eq_sym Hl))) (Forall_nil _))))).
  destruct (try_catch_finally body handler finalizer s0) as [[v|e] s].
  - destruct H as (s1 & (Hr & mid & Hm & Hq) & ->). cbn [add_ops ops world].
    exists static, mid. split; [exact Hst|]. split; [exact Hr|]. split; [exact Hq|].
    rewrite Hm, Hc, Ht, <- !app_assoc. reflexivity.
  - destruct H as (e' & s1 & (mid & Hm & Hq) & ->). cbn [add_ops ops world].
    exists static, mid. split; [exact Hst|]. exists VUndefined. split; [exact Hq|].
    rewrite Hm, Hc, <- !app_assoc. reflexivity.
Qed.

Lemma embed_outcome (options : EmbedOptions) (originalMethod : Callable)
  (args : list value) (w : World) :
  outcome (Embed options) originalMethod args w
    (run (traceEmbed options originalMethod args) w).
Proof.
  unfold run, traceEmbed, startActiveSpan.
  rewrite bind_getConfig, bind_Date_now, bind_span, try_span.
  cbn [world ops resultStatus errorType app add_ops].
  eapply (outcome_of_try (Embed options)); try reflexivity.
  - repeat split.
  - repeat walk.
  - intros e. apply record_error_failing.
Qed.

Lemma retrieve_outcome (options : RetrieveOptions) (originalMethod : Callable)
  (args : list value) (w : World) :
  outcome (Retrieve options) originalMethod args w
    (run (traceRetrieve options originalMethod args) w).
Proof.
  unfold run, traceRetrieve, startActiveSpan.
  rewrite bind_getConfig, bind_Date_now, bind_span, try_span.
  cbn [world ops resultStatus errorType app add_ops].
  eapply (outcome_of_try (Retrieve options)); try reflexivity.
  - repeat split.
  - cbv zeta. repeat walk.
  - intros e. apply record_error_failing.
Qed.

Lemma rerank_outcome (options : RerankOptions) (originalMethod : Callable)
  (args : list value) (w : World) :
  outcome (Rerank options) originalMethod args w
    (run (traceRerank options originalMethod args) w).
Proof.
  unfold run, traceRerank, startActiveSpan.
  rewrite bind_getConfig, bind_Date_now, bind_span, try_span.
  cbn [world ops resultStatus errorType app add_ops].
  eapply (outcome_of_try (Rerank options)); try reflexivity.
  - repeat split.
  - cbv zeta. repeat walk.
  - intros e. apply record_error_failing.
Qed.

Lemma generate_outcome (options : GenerateOptions) (originalMethod : Callable)
  (args : list value) (w : World) :
  outcome (Generate options) originalMethod args w
    (run (traceGenerate options originalMethod args) w).
Proof.
  unfold run, traceGenerate, startActiveSpan.
  rewrite bind_getConfig, bind_Date_now, bind_span, try_span.
  cbn [world ops resultStatus errorType app add_ops].
  eapply (outcome_of_try (Generate options)); try reflexivity.
  - repeat split.
  - cbv zeta. repeat walk.
  - intros e. apply record_error_failing.
Qed.

Lemma outcome_of_tool (options : ToolCallOptions) (originalMethod : Callable)
  (args : list value) (w : World) (static : list (string * value)) (body : M value)
  (handler : value -> M value) (finalizer : M unit) (s0 : State) (startTime : number) :
  let op := ToolCall options in
  let hd := [StartSpan (span_name op); SetAttributes static] in
  start_attributes op w static ->
  startTime = clock w ->
  world s0 = w -> ops s0 = hd ->
  resultStatus s0 = "success"%string -> errorType s0 = VUndefined ->
  hoare (fun s => at_world w (world s) /\ course hd (ops s)) body
    (fun a s =>
       returned originalMethod args w a (world s)
       /\ exists mid, ops s = hd ++ mid ++ success_marks (clock (world s) - startTime)
                      /\ Forall (fun op => in_course op = true) mid)
    (fun _ s => course hd (ops s)) ->
  keeps_locals body ->
  (forall e, hoare (fun s => course hd (ops s)) (handler e) (fun _ _ => False)
               (fun _ s => failing hd (ops s) /\ resultStatus s = "error"%string)) ->
  (forall s, finalizer s
             = (Normal tt, add_ops s (closing op (resultStatus s) (errorType s)))) ->
  outcome op originalMethod args w
    (let '(r, s) := try_catch_finally body handler finalizer s0 in (r, ops s, world s)).
Proof.
  intros op hd Hst Ht Hw Hl Hs He Hb Hk Hh Hf.
  pose proof (hoare_keeps_locals _ _ _ _ "success"%string VUndefined Hb Hk) as Hb'.
  pose proof (hoare_try_rethrow_finally _ body handler finalizer
                (fun s => closing op (resultStatus s) (errorType s))
                _ _ (fun _ s => failing hd (ops s) /\ resultStatus s = "error"%string)
                Hf Hb' Hh s0) as H.
  cbv beta in H.
  specialize (H (conj (conj Hw (ex_intro _ [] (conj (eq_sym (eq_trans (app_nil_r hd)
                   (eq_sym Hl))) (Forall_nil _)))) (conj Hs He))).
  destruct (try_catch_finally body handler finalizer s0) as [[v|e] s].
  - destruct H as (s1 & ((Hr & mid & Hm & Hq) & Hs1 & He1) & ->). cbn [add_ops ops world].
    exists static, mid. split; [exact Hst|]. split; [exact Hr|]. split; [exact Hq|].
    rewrite Hm, Hs1, He1, Ht, <- !app_assoc. reflexivity.
  - destruct H as (e' & s1 & ((mid & Hm & Hq) & Hs1) & ->). cbn [add_ops ops world].
    exists static, mid. split; [exact Hst|]. exists (errorType s1). split; [exact Hq|].
    rewrite Hm, Hs1, <- !app_assoc. reflexivity.
Qed.

Lemma tool_finalizer_adds (options : ToolCallOptions) (s : State) :
  bind get_resultStatus (fun status =>
    bind (span (SetAttribute "gen_ai.tool.result_status" (VString status))) (fun _ =>
      bind get_errorType (fun type =>
        bind (when (truthy type) (span (SetAttribute "gen_ai.tool.error_type" type)))
          (fun _ => span SpanEnd)))) s
  = (Normal tt, add_ops s (closing (ToolCall options) (resultStatus s) (errorType s))).
Proof.
  unfold bind, get_resultStatus, get_errorType, when, span, ret, add_ops, closing.
  cbn [ops world resultStatus errorType].
  destruct (truthy (errorType s)); cbn [ops world resultStatus errorType app];
    rewrite <- ?app_assoc; reflexivity.
Qed.

Lemma tool_outcome (options : ToolCallOptions) (originalMethod : Callable)
  (args : list value) (w : World) :
  outcome (ToolCall options) originalMethod args w
    (run (traceToolCall options originalMethod args) w).
Proof.
  unfold run, traceToolCall, startActiveSpan.
  rewrite bind_getConfig, bind_Date_now, bind_set_resultStatus, bind_set_errorType,
    bind_span, try_span.
  cbn [world ops resultStatus errorType app add_ops].
  eapply (outcome_of_tool options); try reflexivity.
  - repeat split.
  - cbv zeta. repeat walk.
  - repeat keeps_rule.
  - intros e s H. apply course_failing in H.
    unfold bind, set_resultStatus, set_errorType, get_errorType, lift, span, throw.
    destruct (constructor_name e) as [type|e1]; cbn [ops resultStatus errorType];
      [|split; [exact H | reflexivity]].
    destruct (get_prop e "message") as [message|e2]; cbn [ops resultStatus errorType];
      [|split; [exact H | reflexivity]].
    destruct (opt_substring message 200) as [short|e3]; cbn [ops resultStatus errorType].
    + split; [|reflexivity].
      apply failing_snoc; [reflexivity|]. apply failing_snoc; [reflexivity | exact H].
    + split; [|reflexivity]. apply failing_snoc; [reflexivity | exact H].
  - apply tool_finalizer_adds.
Qed.

(** Every instrumented call has one of the two shapes. *)
Lemma call_outcome (op : Operation) (originalMethod : Callable) (args : list value)
  (w : World) :
  outcome op originalMethod args w (run (instrumented op originalMethod args) w).
Proof.
  destruct op as [options|options|options|options|options]; cbn [instrumented].
  - apply embed_outcome.
  - apply retrieve_outcome.
  - apply rerank_outcome.
  - apply generate_outcome.
  - apply tool_outcome.
Qed.

End Outcomes.


Section ReadingOutcomes.

Import JsNumber JsValue Instrumentation Trace.
Local Open Scope float_scope.
Local Open Scope list_scope.

Lemma statuses_app (l1 l2 : list span_op) : statuses (l1 ++ l2) = statuses l1 ++ statuses l2.
Proof.
  induction l1 as [|op l1 IH]; [reflexivity|].
  destruct op; simpl; rewrite IH; reflexivity.
Qed.

Lemma attribute_values_cons (k : string) (op : span_op) (l : list span_op) :
  attribute_values k (op :: l) = attribute_values k [op] ++ attribute_values k l.
Proof. apply (attribute_values_app k [op] l). Qed.

Lemma avoids_no_values (keys : list string) (k : string) (op : span_op) :
  In k keys -> avoids keys op = true -> attribute_values k [op] = [].
Proof.
  intros Hk. unfold avoids, attribute_values.
  assert (F : forall k', negb (existsb (String.eqb k') keys) = true -> String.eqb k' k = false).
  { intros k' H. apply negb_true_iff in H. destruct (String.eqb k' k) eqn:E; [|reflexivity].
    apply String.eqb_eq in E. subst k'.
    assert (T : existsb (String.eqb k) keys = true)
      by (apply existsb_exists; exists k; split; [exact Hk | apply String.eqb_refl]).
    congruence. }
  destruct op as [n|l|k' v|c m|]; cbn [keys_of attributes app]; try reflexivity.
  - rewrite app_nil_r. induction l as [|[k' v] l IH]; cbn [map forallb filter fst];
      [reflexivity|].
    intros H. apply andb_prop in H. destruct H as [H1 H2].
    rewrite (F k' H1). apply IH, H2.
  - cbn [forallb filter fst]. intros H. apply andb_prop in H. destruct H as [H _].
    rewrite (F k' H). reflexivity.
Qed.

Lemma course_no_values (k : string) (mid : list span_op) :
  In k (start_keys ++ end_keys) ->
  Forall (fun op => in_course op = true) mid -> attribute_values k mid = [].
Proof.
  intros Hk H. induction H as [|op mid Ho _ IH]; [reflexivity|].
  rewrite attribute_values_cons, IH, app_nil_r.
  destruct op; try discriminate Ho; exact (avoids_no_values _ k _ Hk Ho).
Qed.

Lemma course_no_status (mid : list span_op) :
  Forall (fun op => in_course op = true) mid -> statuses mid = [] /\ end_count mid = O.
Proof.
  intros H. induction H as [|op mid Ho _ IH]; [split; reflexivity|].
  destruct op; try discriminate Ho; exact IH.
Qed.

Lemma failure_no_values (k : string) (mid : list span_op) :
  In k (start_keys ++ [ "gen_ai.request.duration_ms"; "gen_ai.tool.result_status";
                        "gen_ai.tool.error_type" ]) ->
  Forall (fun op => in_failure op = true) mid -> attribute_values k mid = [].
Proof.
  intros Hk H. induction H as [|op mid Ho _ IH]; [reflexivity|].
  rewrite attribute_values_cons, IH, app_nil_r.
  destruct op; try reflexivity; exact (avoids_no_values _ k _ Hk Ho).
Qed.

Lemma failure_no_success (mid : list span_op) :
  Forall (fun op => in_failure op = true) mid -> ~ In OK (statuses mid) /\ end_count mid = O.
Proof.
  intros H. induction H as [|op mid Ho _ [IH1 IH2]]; [split; [intros [] | reflexivity]|].
  destruct op as [n|l|k v|[| |] m|]; try discriminate Ho; cbn [statuses end_count];
    (split; [|exact IH2]); try exact IH1.
  intros [E|E]; [discriminate E | exact (IH1 E)].
Qed.

Lemma closing_ends (op : Operation) (status : string) (type : value) :
  exists l, closing op status type = l ++ [SpanEnd]
            /\ end_count l = O /\ statuses (closing op status type) = []
            /\ (forall k, In k (start_keys ++ [ "gen_ai.request.duration_ms"; "error";
                                                "error.type"; "error.message" ]) ->
                          attribute_values k (closing op status type) = []).
Proof.
  destruct op; cbn [closing];
    try (exists []; repeat split; intros k Hk; reflexivity).
  destruct (truthy type); cbn [app].
  - exists [SetAttribute "gen_ai.tool.result_status" (VString status);
            SetAttribute "gen_ai.tool.error_type" type].
    repeat split. intros k Hk. cbn in Hk.
    repeat (destruct Hk as [<-|Hk]; [reflexivity|]). destruct Hk.
  - exists [SetAttribute "gen_ai.tool.result_status" (VString status)].
    repeat split. intros k Hk. cbn in Hk.
    repeat (destruct Hk as [<-|Hk]; [reflexivity|]). destruct Hk.
Qed.

End ReadingOutcomes.


Section SpanShape.

Import JsNumber JsValue Instrumentation Trace.
Local Open Scope float_scope.
Local Open Scope list_scope.

Context {engine : Engine}.

(** X13. The first call every wrapper makes on its span starts it, under the
    name of the operation, and the last one ends it; the span is not ended
    in between, however the wrapped function and the wrapper's own steps
    end. *)
Theorem span_starts_first_and_ends_last (op : Operation) (originalMethod : Callable)
  (args : list value) (w : World) :
  exists rest,
    snd (fst (run (instrumented op originalMethod args) w))
    = StartSpan (span_name op) :: rest ++ [SpanEnd]
    /\ end_count rest = O.
Proof.
  pose proof (call_outcome op originalMethod args w) as H.
  destruct (run (instrumented op originalMethod args) w) as [[r log] w'].
  destruct H as (static & mid & Hst & H). cbn [fst snd].
  destruct r as [v|e].
  - destruct H as (_ & Hm & ->).
    destruct (closing_ends op "success" VUndefined) as (l & -> & Hl & _).
    exists (SetAttributes static :: mid ++ success_marks (clock w' - clock w) ++ l).
    split.
    + cbn [app]. rewrite <- !app_assoc. reflexivity.
    + cbn [end_count]. rewrite !end_count_app, Hl, (proj2 (course_no_status mid Hm)).
      reflexivity.
  - destruct H as (type & Hm & ->).
    destruct (closing_ends op "error" type) as (l & -> & Hl & _).
    exists (SetAttributes static :: mid ++ l).
    split.
    + cbn [app]. rewrite <- !app_assoc. reflexivity.
    + cbn [end_count]. rewrite !end_count_app, Hl, (proj2 (failure_no_success mid Hm)).
      reflexivity.
Qed.

(** X14. Whatever way a call ends, its span has the operation name and the
    environment of the configuration read at call start, each set once. *)
Theorem start_attributes_are_on_every_span (op : Operation) (originalMethod : Callable)
  (args : list value) (w : World) :
  let log := snd (fst (run (instrumented op originalMethod args) w)) in
  attribute_values "gen_ai.operation.name" log = [VString (operation_name op)]
  /\ attribute_values "gen_ai.environment" log
     = [VString (Config.environment (config w))].
Proof.
  pose proof (call_outcome op originalMethod args w) as H.
  destruct (run (instrumented op originalMethod args) w) as [[r log] w'].
  destruct H as (static & mid & (H1 & H2 & _) & H). cbn [fst snd]. cbv zeta.
  destruct r as [v|e].
  - destruct H as (_ & Hm & ->).
    destruct (closing_ends op "success" VUndefined) as (_ & _ & _ & _ & Hc).
    rewrite !attribute_values_app.
    rewrite !(course_no_values _ mid) by (exact Hm || (cbn; tauto)).
    rewrite !Hc by (cbn; tauto).
    change (attribute_values "gen_ai.operation.name"
              [StartSpan (span_name op); SetAttributes static])
      with (attribute_values "gen_ai.operation.name" [SetAttributes static]).
    change (attribute_values "gen_ai.environment"
              [StartSpan (span_name op); SetAttributes static])
      with (attribute_values "gen_ai.environment" [SetAttributes static]).
    rewrite H1, H2. split; reflexivity.
  - destruct H as (type & Hm & ->).
    destruct (closing_ends op "error" type) as (_ & _ & _ & _ & Hc).
    rewrite !attribute_values_app.
    rewrite !(failure_no_values _ mid) by (exact Hm || (cbn; tauto)).
    rewrite !Hc by (cbn; tauto).
    change (attribute_values "gen_ai.operation.name"
              [StartSpan (span_name op); SetAttributes static])
      with (attribute_values "gen_ai.operation.name" [SetAttributes static]).
    change (attribute_values "gen_ai.environment"
              [StartSpan (span_name op); SetAttributes static])
      with (attribute_values "gen_ai.environment" [SetAttributes static]).
    rewrite H1, H2. split; reflexivity.
Qed.

Lemma returned_on_normal_return (op : Operation) (originalMethod : Callable)
  (args : list value) (w : World) (v : value) :
  fst (fst (run (instrumented op originalMethod args) w)) = Normal v ->
  returned originalMethod args w v (snd (run (instrumented op originalMethod args) w)).
Proof.
  pose proof (call_outcome op originalMethod args w) as H.
  destruct (run (instrumented op originalMethod args) w) as [[r log] w'].
  destruct H as (static & mid & _ & H). cbn [fst snd]. intros ->.
  destruct H as (Hr & _). exact Hr.
Qed.

(** X15. An instrumented call that returns normally returns the value the
    wrapped function returned, and leaves the configuration, the redaction
    registry and the clock as the wrapped function left them. *)
Theorem normal_return_is_transparent (op : Operation) (originalMethod : Callable)
  (args : list value) (w : World) (v : value) :
  fst (fst (run (instrumented op originalMethod args) w)) = Normal v ->
  exists w1,
    let w' := snd (run (instrumented op originalMethod args) w) in
    originalMethod args w = (Normal v, w1)
    /\ config w' = config w1 /\ registry w' = registry w1 /\ clock w' = clock w1.
Proof. intros E. exact (returned_on_normal_return op originalMethod args w v E). Qed.

(** X16. The status [OK] and the duration are on the span exactly when the
    call returns normally: then the status [OK] is the only status, the
    duration is the clock at the end less the clock at call start, and no
    error attribute is set; when the call throws, the span has neither the
    status [OK] nor a duration. *)
Theorem success_marks_tell_outcome (op : Operation) (originalMethod : Callable)
  (args : list value) (w : World) :
  let '(r, log, w') := run (instrumented op originalMethod args) w in
  match r with
  | Normal _ =>
      statuses log = [OK]
      /\ attribute_values "gen_ai.request.duration_ms" log = [VNumber (clock w' - clock w)]
      /\ attribute_values "error" log = []
  | Throw _ =>
      ~ In OK (statuses log)
      /\ attribute_values "gen_ai.request.duration_ms" log = []
  end.
Proof.
  pose proof (call_outcome op originalMethod args w) as H.
  destruct (run (instrumented op originalMethod args) w) as [[r log] w'].
  destruct H as (static & mid & (_ & _ & H3) & H).
  destruct r as [v|e].
  - destruct H as (_ & Hm & ->).
    destruct (closing_ends op "success" VUndefined) as (_ & _ & _ & Hs & Hc).
    rewrite !statuses_app, !attribute_values_app, Hs.
    rewrite (proj1 (course_no_status mid Hm)).
    rewrite !(course_no_values _ mid) by (exact Hm || (cbn; tauto)).
    rewrite !Hc by (cbn; tauto).
    change (attribute_values "gen_ai.request.duration_ms"
              [StartSpan (span_name op); SetAttributes static])
      with (attribute_values "gen_ai.request.duration_ms" [SetAttributes static]).
    change (attribute_values "error" [StartSpan (span_name op); SetAttributes static])
      with (attribute_values "error" [SetAttributes static]).
    rewrite !(avoids_no_values end_keys _ (SetAttributes static)) by (exact H3 || (cbn; tauto)).
    repeat split.
  - destruct H as (type & Hm & ->).
    destruct (closing_ends op "error" type) as (_ & _ & _ & Hs & Hc).
    rewrite !statuses_app, !attribute_values_app, Hs.
    rewrite !(failure_no_values _ mid) by (exact Hm || (cbn; tauto)).
    rewrite !Hc by (cbn; tauto).
    change (attribute_values "gen_ai.request.duration_ms"
              [StartSpan (span_name op); SetAttributes static])
      with (attribute_values "gen_ai.request.duration_ms" [SetAttributes static]).
    rewrite !(avoids_no_values end_keys _ (SetAttributes static)) by (exact H3 || (cbn; tauto)).
    split; [|reflexivity]. cbn [statuses app]. rewrite app_nil_r.
    exact (proj1 (failure_no_success mid Hm)).
Qed.

(** X17. A tool call sets [gen_ai.tool.result_status] once, in its [finally]
    block: to [success] when the call returns normally, with no
    [gen_ai.tool.error_type], and to [error] when it throws. *)
Theorem tool_result_status_tells_outcome (options : ToolCallOptions)
  (originalMethod : Callable) (args : list value) (w : World) :
  let '(r, log, _) := run (traceToolCall options originalMethod args) w in
  match r with
  | Normal _ =>
      attribute_values "gen_ai.tool.result_status" log = [VString "success"]
      /\ attribute_values "gen_ai.tool.error_type" log = []
  | Throw _ => attribute_values "gen_ai.tool.result_status" log = [VString "error"]
  end.
Proof.
  pose proof (call_outcome (ToolCall options) originalMethod args w) as H.
  cbn [instrumented] in H.
  destruct (run (traceToolCall options originalMethod args) w) as [[r log] w'].
  destruct H as (static & mid & (_ & _ & H3) & H).
  destruct r as [v|e].
  - destruct H as (_ & Hm & ->).
    rewrite !attribute_values_app.
    rewrite !(course_no_values _ mid) by (exact Hm || (cbn; tauto)).
    change (attribute_values "gen_ai.tool.result_status"
              [StartSpan (span_name (ToolCall options)); SetAttributes static])
      with (attribute_values "gen_ai.tool.result_status" [SetAttributes static]).
    change (attribute_values "gen_ai.tool.error_type"
              [StartSpan (span_name (ToolCall options)); SetAttributes static])
      with (attribute_values "gen_ai.tool.error_type" [SetAttributes static]).
    rewrite !(avoids_no_values end_keys _ (SetAttributes static)) by (exact H3 || (cbn; tauto)).
    split; reflexivity.
  - destruct H as (type & Hm & ->).
    rewrite !attribute_values_app.
    rewrite !(failure_no_values _ mid) by (exact Hm || (cbn; tauto)).
    change (attribute_values "gen_ai.tool.result_status"
              [StartSpan (span_name (ToolCall options)); SetAttributes static])
      with (attribute_values "gen_ai.tool.result_status" [SetAttributes static]).
    rewrite !(avoids_no_values end_keys _ (SetAttributes static)) by (exact H3 || (cbn; tauto)).
    cbn [closing]. destruct (truthy type); reflexivity.
Qed.

End SpanShape.


(** ** Attributes written before the wrapped call *)

Section WrittenOnce.

Import JsNumber JsValue Instrumentation Trace.
Local Open Scope float_scope.
Local Open Scope list_scope.

Context {engine : Engine}.

Lemma written_snoc (keys : list string) (hd : list span_op) (op : span_op) :
  avoids keys op = true -> forall l, written keys hd l -> written keys hd (l ++ [op]).
Proof.
  intros H l (more & -> & Hm). exists (more ++ [op]). split.
  - rewrite app_assoc. reflexivity.
  - apply Forall_app. split; [exact Hm | constructor; [exact H | constructor]].
Qed.

Lemma written_values (keys : list string) (hd l : list span_op) (k : string) :
  In k keys -> written keys hd l -> attribute_values k l = attribute_values k hd.
Proof.
  intros Hk (more & -> & Hm). rewrite attribute_values_app.
  replace (attribute_values k more) with (@nil value); [apply app_nil_r|].
  symmetry. induction Hm as [|op more Ho _ IH]; [reflexivity|].
  rewrite attribute_values_cons, IH, app_nil_r. exact (avoids_no_values keys k op Hk Ho).
Qed.

Lemma try_assoc {A B C : Type} (m : M A) (k : A -> M B) (k' : B -> M C)
  (handler : value -> M C) (finalizer : M unit) (s : State) :
  try_catch_finally (bind (bind m k) k') handler finalizer s
  = try_catch_finally (bind m (fun a => bind (k a) k')) handler finalizer s.
Proof. unfold try_catch_finally. rewrite bind_assoc. reflexivity. Qed.

Lemma try_ret {A B : Type} (a : A) (k : A -> M B) (handler : value -> M B)
  (finalizer : M unit) (s : State) :
  try_catch_finally (bind (ret a) k) handler finalizer s
  = try_catch_finally (k a) handler finalizer s.
Proof. reflexivity. Qed.

Lemma try_lift_normal {A B : Type} (a : A) (k : A -> M B) (handler : value -> M B)
  (finalizer : M unit) (s : State) :
  try_catch_finally (bind (lift (Normal a)) k) handler finalizer s
  = try_catch_finally (k a) handler finalizer s.
Proof. reflexivity. Qed.

Lemma try_getRegistry {A : Type} (k : Redaction.Registry -> M A) (handler : value -> M A)
  (finalizer : M unit) (s : State) :
  try_catch_finally (bind getRegistry k) handler finalizer s
  = try_catch_finally (k (registry (world s))) handler finalizer s.
Proof. reflexivity. Qed.

(** From a point of a [try] block on, when what is left of the block, the
    [catch] block and the [finally] block write none of [keys], the
    attributes under [keys] are the ones set so far. *)
Lemma rest_writes_none (keys : list string) (body : M value) (handler : value -> M value)
  (finalizer : M unit) (s0 : State) :
  step any_world any_world (written keys (ops s0)) body any_result ->
  (forall e, step any_world any_world (written keys (ops s0)) (handler e) any_result) ->
  step any_world any_world (written keys (ops s0)) finalizer any_result ->
  forall k, In k keys ->
    attribute_values k
      (snd (fst (let '(r, s) := try_catch_finally body handler finalizer s0 in
                 (r, ops s, world s))))
    = attribute_values k (ops s0).
Proof.
  intros Hb Hh Hf k Hk.
  assert (Hf' : hoare (fun s => written keys (ops s0) (ops s)) finalizer
                  (fun _ s => written keys (ops s0) (ops s))
                  (fun _ s => written keys (ops s0) (ops s))).
  { intros s Hs. specialize (Hf s (conj I Hs)).
    destruct (finalizer s) as [[u|e] s1]; [exact (proj2 (proj2 Hf)) | exact Hf]. }
  pose proof (hoare_try_catch_finally any_world any_world _ _ body handler finalizer
                any_result any_result Hb Hh Hf' s0) as H.
  cbv beta in H.
  specialize (H (conj I (ex_intro _ [] (conj (eq_sym (app_nil_r _)) (Forall_nil _))))).
  destruct (try_catch_finally body handler finalizer s0) as [[v|e] s]; cbn [fst snd];
    apply (written_values keys _ _ k Hk H).
Qed.

(** A conversion that threw ends the block it is in. *)
Lemma step_lift_throws {A B : Type} (W W' : World -> Prop) (J : list span_op -> Prop)
  (e : value) (k : A -> M B) (R : B -> Prop) :
  step W W' J (bind (lift (Throw e)) k) R.
Proof. intros s [Hw Hj]. exact Hj. Qed.

End WrittenOnce.

Ltac written_side :=
  first [ apply written_snoc; reflexivity | intros; exact I ].

Ltac written_steps :=
  repeat first [ apply step_lift_throws | step_rule written_side ].

(** The three conditions of [rest_writes_none], or the membership of a
    key. *)
Ltac writes_none :=
  lazymatch goal with
  | |- In _ _ => cbn; tauto
  | |- forall _ : JsValue.value, _ =>
      intros ?; unfold Instrumentation.record_error; written_steps
  | |- _ => written_steps
  end.

(** Reads the attributes under [keys] off the span at the point the [try]
    block has got to. *)
Ltac read_written keys :=
  match goal with
  | |- context [Instrumentation.try_catch_finally ?b ?h ?f ?s] =>
      let R := fresh "R" in
      assert (R := rest_writes_none keys b h f s);
      specialize (R ltac:(written_steps)
                    ltac:(intros ?; try unfold Instrumentation.record_error; written_steps)
                    ltac:(written_steps));
      rewrite !R by (cbn; tauto); clear R
  end.

Ltac to_try :=
  unfold Instrumentation.run, Instrumentation.traceEmbed, Instrumentation.traceRetrieve,
    Instrumentation.traceRerank, Instrumentation.traceGenerate,
    Instrumentation.traceToolCall, Instrumentation.startActiveSpan;
  rewrite bind_getConfig, bind_Date_now, ?bind_set_resultStatus, ?bind_set_errorType,
    bind_span, try_span;
  cbn [Instrumentation.world Instrumentation.ops Instrumentation.resultStatus
       Instrumentation.errorType app Trace.add_ops].

Ltac peel :=
  repeat first
    [ rewrite try_span | rewrite try_ret | rewrite try_lift_normal | rewrite try_getRegistry
    | rewrite try_assoc
    | progress cbn [Instrumentation.world Instrumentation.ops Instrumentation.resultStatus
                    Instrumentation.errorType app Trace.add_ops Instrumentation.if_given
                    Instrumentation.when option_map] ].

Section RequestAttributes.

Import JsNumber JsValue Instrumentation Trace.
Local Open Scope float_scope.
Local Open Scope list_scope.

Context {engine : Engine}.

(** X19. The request parameters of a generate call are on the span whatever
    way the call ends: the temperature whenever it is given, zero
    included, since the code tests it against [undefined]; [maxTokens] and
    [streaming] only when they are truthy, so [maxTokens: 0] and
    [streaming: false] leave no attribute. *)
Theorem generate_request_parameters (options : GenerateOptions)
  (originalMethod : Callable) (args : list value) (w : World) :
  let log := snd (fst (run (traceGenerate options originalMethod args) w)) in
  attribute_values "gen_ai.request.temperature" log
  = match generate_temperature options with
    | Some t => [VNumber t]
    | None => []
    end
  /\ attribute_values "gen_ai.request.max_tokens" log
     = match generate_maxTokens options with
       | Some n => if (n =? 0) || isNaN n then [] else [VNumber n]
       | None => []
       end
  /\ attribute_values "gen_ai.request.streaming" log
     = match generate_streaming options with
       | Some true => [VBool true]
       | _ => []
       end.
Proof.
  cbv zeta.
  destruct options as [model provider temperature maxTokens streaming].
  cbn [generate_temperature generate_maxTokens generate_streaming].
  to_try. cbn [generate_temperature generate_maxTokens generate_streaming generate_model
               generate_provider].
  destruct temperature as [t|], maxTokens as [n|], streaming as [[|]|];
    cbn [option_map if_given truthy];
    try destruct ((n =? 0) || isNaN n); cbn [negb]; peel.
  all: read_written [ "gen_ai.request.temperature"; "gen_ai.request.max_tokens";
                      "gen_ai.request.streaming" ].
  all: repeat split.
Qed.

(** X20. The parameters of a tool call are on the span as the first
    [maxAttributeLength] characters of their JSON text, redacted with the
    patterns active at call start, whatever [logPrompts] says and whatever
    way the call ends; parameters that are absent or falsy, or that
    [JSON.stringify] rejects, leave no attribute. *)
Theorem tool_parameters_are_redacted (options : ToolCallOptions)
  (originalMethod : Callable) (args : list value) (w : World) :
  attribute_values "gen_ai.tool.parameters"
    (snd (fst (run (traceToolCall options originalMethod args) w)))
  = match tool_parameters options with
    | Some parameters =>
        if truthy parameters then
          match stringify_prefix parameters (Config.maxAttributeLength (config w)) with
          | Normal text =>
              [VString (Redaction.redactSensitiveData (registry w) text (config w))]
          | Throw _ => []
          end
        else []
    | None => []
    end.
Proof.
  destruct options as [toolName parameters]. cbn [tool_parameters].
  to_try. cbn [tool_parameters tool_toolName].
  destruct parameters as [parameters|]; cbn [if_given];
    [destruct (truthy parameters); cbn [when];
     [destruct (stringify_prefix parameters (Config.maxAttributeLength (config w)))|]|];
    peel.
  all: read_written [ "gen_ai.tool.parameters" ].
  all: reflexivity.
Qed.

(** X21. The index name and the filters of a retrieve call are on the span
    whatever way the call ends: the index name when it is a non-empty
    string, the filters as the first [maxAttributeLength] characters of
    their JSON text, as they are: this text is not redacted. Filters that
    are absent or falsy, or that [JSON.stringify] rejects, leave no
    attribute. *)
Theorem retrieve_request_attributes (options : RetrieveOptions)
  (originalMethod : Callable) (args : list value) (w : World) :
  let log := snd (fst (run (traceRetrieve options originalMethod args) w)) in
  attribute_values "gen_ai.retrieval.index_name" log
  = match retrieve_indexName options with
    | Some (String c r) => [VString (String c r)]
    | _ => []
    end
  /\ attribute_values "gen_ai.retrieval.filters" log
     = match retrieve_filters options with
       | Some filters =>
           if truthy filters then
             match stringify_prefix filters (Config.maxAttributeLength (config w)) with
             | Normal text => [VString text]
             | Throw _ => []
             end
           else []
       | None => []
       end.
Proof.
  cbv zeta. destruct options as [source topK indexName filters].
  cbn [retrieve_indexName retrieve_filters].
  to_try. cbn [retrieve_indexName retrieve_filters retrieve_source retrieve_topK].
  destruct indexName as [[|c r]|]; cbn [option_map if_given truthy when];
    (destruct filters as [filters|]; cbn [if_given];
     [destruct (truthy filters); cbn [when];
      [destruct (stringify_prefix filters (Config.maxAttributeLength (config w)))|]|]);
    peel.
  all: read_written [ "gen_ai.retrieval.index_name"; "gen_ai.retrieval.filters" ].
  all: split; reflexivity.
Qed.

End RequestAttributes.


(** ** Attributes read off the result *)

Section ReturnRules.

Import JsNumber JsValue Instrumentation Trace.
Local Open Scope float_scope.
Local Open Scope list_scope.

Context {engine : Engine}.

Lemma readings_snoc (kvs : list (string * list value)) (op : span_op) :
  avoids (map fst kvs) op = true -> forall l, readings kvs l -> readings kvs (l ++ [op]).
Proof.
  intros H l Hl. unfold readings in *. rewrite Forall_forall in *. intros kv Hkv.
  rewrite attribute_values_app, (Hl kv Hkv).
  rewrite (avoids_no_values (map fst kvs) (fst kv) op (in_map fst kvs kv Hkv) H).
  apply app_nil_r.
Qed.

Lemma returns_bind_step {A B : Type} (W W' : World -> Prop) (J : list span_op -> Prop)
  (m : M A) (k : A -> M B) (R : A -> Prop) (Q : B -> State -> Prop) :
  step W W' J m R ->
  (forall a, R a ->
     hoare (fun s => W' (world s) /\ J (ops s)) (k a) Q (fun _ _ => True)) ->
  hoare (fun s => W (world s) /\ J (ops s)) (bind m k) Q (fun _ _ => True).
Proof.
  intros Hm Hk s Hs. unfold bind. specialize (Hm s Hs).
  destruct (m s) as [[a|e] s1]; [|exact I].
  destruct Hm as (Ha & Hw & Hj). apply (Hk a Ha s1). auto.
Qed.

Lemma returns_bind_call {B : Type} (w0 : World) (J : list span_op -> Prop)
  (originalMethod : Callable) (args : list value) (k : value -> M B)
  (Q : B -> State -> Prop) :
  (forall result w1, originalMethod args w0 = (Normal result, w1) ->
     hoare (fun s => at_world w1 (world s) /\ J (ops s)) (k result) Q (fun _ _ => True)) ->
  hoare (fun s => at_world w0 (world s) /\ J (ops s)) (bind (call originalMethod args) k) Q
    (fun _ _ => True).
Proof.
  intros Hk s [Hw Hj]. unfold bind, call. unfold at_world in Hw. rewrite Hw.
  destruct (originalMethod args w0) as [[r|e] w1] eqn:E; [|exact I].
  apply (Hk r w1 eq_refl). split; [reflexivity | exact Hj].
Qed.

Lemma handler_rethrows (handler : value -> M value) :
  (forall e, step any_world any_world (fun _ => True) (handler e) (fun _ => False)) ->
  forall e, hoare (fun _ => True) (handler e) (fun _ _ => False) (fun _ _ => True).
Proof.
  intros H e s _. specialize (H e s (conj I I)).
  destruct (handler e s) as [[a|e'] s1]; [destruct H as [[] _] | exact I].
Qed.

(** What a call that returns normally leaves: the state at the end of the
    [try] block with what the [finally] block adds to the span. *)
Lemma reads_on_return (body : M value) (handler : value -> M value) (finalizer : M unit)
  (added : State -> list span_op) (P : State -> Prop) (Qb : value -> State -> Prop)
  (s0 : State) (v : value) :
  (forall s, finalizer s = (Normal tt, add_ops s (added s))) ->
  (forall e, step any_world any_world (fun _ => True) (handler e) (fun _ => False)) ->
  hoare P body Qb (fun _ _ => True) ->
  P s0 ->
  fst (fst (let '(r, s) := try_catch_finally body handler finalizer s0 in
            (r, ops s, world s))) = Normal v ->
  exists s1,
    Qb v s1
    /\ (let '(r, s) := try_catch_finally body handler finalizer s0 in (r, ops s, world s))
       = (Normal v, ops s1 ++ added s1, world s1).
Proof.
  intros Hf Hh Hb Hp.
  pose proof (hoare_try_rethrow_finally P body handler finalizer added Qb
                (fun _ _ => True) (fun _ _ => True) Hf Hb
                (handler_rethrows handler Hh) s0 Hp) as H.
  destruct (try_catch_finally body handler finalizer s0) as [[a|e] s]; cbn [fst snd];
    intros E; [|discriminate E].
  injection E as ->. destruct H as (s1 & Hq & ->). exists s1. split; [exact Hq | reflexivity].
Qed.

Lemma record_error_rethrows (error : value) :
  step any_world any_world (fun _ => True) (record_error error) (fun _ => False).
Proof. unfold record_error. repeat step_rule ltac:(intros; exact I). Qed.

Lemma SpanEnd_adds (s : State) : span SpanEnd s = (Normal tt, add_ops s [SpanEnd]).
Proof. reflexivity. Qed.

End ReturnRules.

Ltac readings_side :=
  first [ apply readings_snoc; reflexivity | intros; exact I ].

(** One step along a [try] block up to the wrapped call. *)
Ltac to_call :=
  repeat lazymatch goal with
    | |- Instrumentation.hoare _ (Instrumentation.bind (Instrumentation.call _ _) _) _ _ =>
        fail
    | |- Instrumentation.hoare _ (Instrumentation.bind _ _) _ _ =>
        eapply returns_bind_step; [ solve [repeat step_rule readings_side] | intros ? ? ]
    end;
  apply returns_bind_call; intros ? ? ?.

Section ResultAttributes.

Import JsNumber JsValue Instrumentation Trace.
Local Open Scope float_scope.
Local Open Scope list_scope.

Context {engine : Engine}.

(** X22. A retrieve call that returns normally has counted the value it
    returns: [gen_ai.retrieval.results_count] is its length when it is an
    array and zero when it is anything else, and [gen_ai.retrieval.hit_at_k]
    is one when that count is positive and zero when it is not. *)
Theorem retrieve_counts_its_result (options : RetrieveOptions)
  (originalMethod : Callable) (args : list value) (w : World) (v : value) :
  fst (fst (run (traceRetrieve options originalMethod args) w)) = Normal v ->
  let log := snd (fst (run (traceRetrieve options originalMethod args) w)) in
  attribute_values "gen_ai.retrieval.results_count" log = [VNumber (count_of v)]
  /\ attribute_values "gen_ai.retrieval.hit_at_k" log
     = [VNumber (if 0 <? count_of v then 1 else 0)].
Proof.
  to_try. intros E.
  eapply (reads_on_return _ _ _ (fun _ => [SpanEnd])
            (fun s => at_world w (world s)
                      /\ readings [("gen_ai.retrieval.results_count", []);
                                   ("gen_ai.retrieval.hit_at_k", [])] (ops s))
            (fun a s =>
               attribute_values "gen_ai.retrieval.results_count" (ops s)
               = [VNumber (count_of a)]
               /\ attribute_values "gen_ai.retrieval.hit_at_k" (ops s)
                  = [VNumber (if 0 <? count_of a then 1 else 0)])) in E.
  - destruct E as (s1 & (H1 & H2) & ->). cbn [fst snd]. cbv zeta.
    rewrite !attribute_values_app, H1, H2. split; reflexivity.
  - apply SpanEnd_adds.
  - apply record_error_rethrows.
  - cbv zeta. to_call.
    intros s [_ Hs]. unfold readings in Hs.
    inversion Hs as [|? ? Hs1 Hs']; subst. inversion Hs' as [|? ? Hs2 _]; subst.
    cbn [fst snd] in Hs1, Hs2. cbn [bind span Date_now ret ops world].
    rewrite !attribute_values_app, Hs1, Hs2. split; reflexivity.
  - split; [reflexivity|]. repeat constructor.
Qed.

End ResultAttributes.


Section MoreResultAttributes.

Import JsNumber JsValue Instrumentation Trace.
Local Open Scope float_scope.
Local Open Scope list_scope.

Context {engine : Engine}.

Lemma readings_value (kvs : list (string * list value)) (l : list span_op)
  (k : string) (vs : list value) :
  readings kvs l -> In (k, vs) kvs -> attribute_values k l = vs.
Proof.
  unfold readings. rewrite Forall_forall. intros H Hk. exact (H (k, vs) Hk).
Qed.

(** X23. A rerank call that returns normally has counted the value it
    returns: [gen_ai.rerank.output_count] is its length when it is an array
    and zero when it is anything else. *)
Theorem rerank_counts_its_result (options : RerankOptions)
  (originalMethod : Callable) (args : list value) (w : World) (v : value) :
  fst (fst (run (traceRerank options originalMethod args) w)) = Normal v ->
  attribute_values "gen_ai.rerank.output_count"
    (snd (fst (run (traceRerank options originalMethod args) w)))
  = [VNumber (count_of v)].
Proof.
  to_try. intros E.
  eapply (reads_on_return _ _ _ (fun _ => [SpanEnd])
            (fun s => at_world w (world s)
                      /\ readings [("gen_ai.rerank.output_count", [])] (ops s))
            (fun a s =>
               attribute_values "gen_ai.rerank.output_count" (ops s)
               = [VNumber (count_of a)])) in E.
  - destruct E as (s1 & H1 & ->). cbn [fst snd].
    rewrite !attribute_values_app, H1. reflexivity.
  - apply SpanEnd_adds.
  - apply record_error_rethrows.
  - cbv zeta. to_call.
    intros s [_ Hs].
    pose proof (readings_value _ _ _ _ Hs (or_introl eq_refl)) as Hs1.
    cbn [bind span Date_now ret ops world].
    rewrite !attribute_values_app, Hs1. reflexivity.
  - split; [reflexivity|]. repeat constructor.
Qed.

(** X24. A tool call returns normally only when [JSON.stringify] turns the
    value it returns into a text, and [gen_ai.tool.result_size_bytes] is
    then the number of bytes of that text in UTF-8. *)
Theorem tool_measures_its_result (options : ToolCallOptions)
  (originalMethod : Callable) (args : list value) (w : World) (v : value) :
  fst (fst (run (traceToolCall options originalMethod args) w)) = Normal v ->
  exists text,
    JSON_stringify v = Normal (Some text)
    /\ attribute_values "gen_ai.tool.result_size_bytes"
         (snd (fst (run (traceToolCall options originalMethod args) w)))
       = [VNumber (of_nat (utf8_length text))].
Proof.
  to_try. intros E.
  eapply (reads_on_return _ _ _
            (fun s => closing (ToolCall options) (resultStatus s) (errorType s))
            (fun s => at_world w (world s)
                      /\ readings [("gen_ai.tool.result_size_bytes", [])] (ops s))
            (fun a s =>
               exists text,
                 JSON_stringify a = Normal (Some text)
                 /\ attribute_values "gen_ai.tool.result_size_bytes" (ops s)
                    = [VNumber (of_nat (utf8_length text))])) in E.
  - destruct E as (s1 & (text & H1 & H2) & ->). cbn [fst snd].
    exists text. split; [exact H1|].
    rewrite !attribute_values_app, H2. cbn [closing].
    destruct (truthy (errorType s1)); reflexivity.
  - apply tool_finalizer_adds.
  - intros e. repeat step_rule ltac:(intros; exact I).
  - cbv zeta. to_call.
    intros s [_ Hs].
    pose proof (readings_value _ _ _ _ Hs (or_introl eq_refl)) as Hs1.
    unfold bind at 1. unfold lift at 1.
    destruct (JSON_stringify result) as [[text|]|e] eqn:Ej; cbn [Buffer_byteLength];
      try exact I.
    cbn [bind lift span Date_now ret ops world].
    exists text. split; [exact Ej|].
    rewrite !attribute_values_app, Hs1. reflexivity.
  - split; [reflexivity|]. repeat constructor.
Qed.

End MoreResultAttributes.


(** ** Usage and cost *)

Section UsageRules.

Import JsNumber JsValue Instrumentation Trace.
Local Open Scope float_scope.
Local Open Scope list_scope.

Context {engine : Engine}.

Lemma opt_prop_defined (x : value) (k : string) :
  opt_prop x k <> VUndefined -> get_prop x k = Normal (opt_prop x k).
Proof.
  unfold opt_prop, get_prop. destruct (is_nullish x); [intros H; contradiction H|];
    reflexivity.
Qed.

Lemma bind_getCostCalculator {A : Type} (k : Cost.CostCalculator -> M A) (s : State) :
  bind getCostCalculator k s
  = k (fst (Cost.getCostCalculator (calculator (world s))))
      {| world := {| config := config (world s); registry := registry (world s);
                     calculator := snd (Cost.getCostCalculator (calculator (world s)));
                     clock := clock (world s) |};
         ops := ops s; resultStatus := resultStatus s; errorType := errorType s |}.
Proof.
  unfold bind, getCostCalculator.
  destruct (Cost.getCostCalculator (calculator (world s))). reflexivity.
Qed.

Lemma bind_lift_throw {A B : Type} (e : value) (k : A -> M B) (s : State) :
  bind (lift (Throw e)) k s = (Throw e, s).
Proof. reflexivity. Qed.

Lemma getCostCalculator_keeps (c : option Cost.CostCalculator) :
  snd (Cost.getCostCalculator c) = Some (fst (Cost.getCostCalculator c)).
Proof. destruct c; reflexivity. Qed.

End UsageRules.

Ltac run_on :=
  repeat first
    [ rewrite bind_assoc | rewrite bind_span | rewrite bind_ret | rewrite bind_lift_normal
    | rewrite bind_getRegistry | rewrite bind_Date_now | rewrite bind_getCostCalculator
    | rewrite bind_lift_throw
    | progress cbn [Instrumentation.world Instrumentation.ops Instrumentation.resultStatus
                    Instrumentation.errorType Instrumentation.when
                    Instrumentation.ToNumber Instrumentation.config
                    Instrumentation.registry Instrumentation.calculator
                    Instrumentation.clock] ].

Section UsageAndCost.

Import JsNumber JsValue Instrumentation Trace.
Local Open Scope float_scope.
Local Open Scope list_scope.

Context {engine : Engine}.

(** The usage and the cost on the span of an embed call that returns, with
    the calculator that [getCostCalculator] gives in the world the wrapped
    function left. *)
Lemma embed_usage_on_return (options : EmbedOptions)
  (originalMethod : Callable) (args : list value) (w : World) (v : value) (n : number) :
  fst (fst (run (traceEmbed options originalMethod args) w)) = Normal v ->
  opt_prop (opt_prop v "usage") "total_tokens" = VNumber n ->
  truthy (VNumber n) = true ->
  let '(_, log, w') := run (traceEmbed options originalMethod args) w in
  exists w1 pricing,
    originalMethod args w = (Normal v, w1)
    /\ pricing = fst (Cost.getCostCalculator (calculator w1))
    /\ calculator w' = Some pricing
    /\ attribute_values "gen_ai.usage.input_tokens" log = [VNumber n]
    /\ attribute_values "gen_ai.usage.cost_usd" log
       = (let cost := Cost.calculateCost pricing
                        (or_default (embed_provider options) "openai")
                        (embed_model options) n 0 in
          if 0 <? cost then [VNumber cost] else []).
Proof.
  intros E Hn Ht.
  destruct (returned_on_normal_return (Embed options) _ _ _ _ E) as (w1 & Hv & _).
  revert E. to_try. intros E.
  eapply (reads_on_return _ _ _ (fun _ => [SpanEnd])
            (fun s => at_world w (world s)
                      /\ readings [("gen_ai.usage.input_tokens", []);
                                   ("gen_ai.usage.cost_usd", [])] (ops s))
            (fun a s =>
               let pricing := fst (Cost.getCostCalculator (calculator w1)) in
               calculator (world s) = Some pricing
               /\ attribute_values "gen_ai.usage.input_tokens" (ops s) = [VNumber n]
               /\ attribute_values "gen_ai.usage.cost_usd" (ops s)
                  = (let cost := Cost.calculateCost pricing
                                   (or_default (embed_provider options) "openai")
                                   (embed_model options) n 0 in
                     if 0 <? cost then [VNumber cost] else []))) in E.
  - destruct E as (s1 & (H1 & H2 & H3) & ->).
    exists w1, (fst (Cost.getCostCalculator (calculator w1))).
    rewrite !attribute_values_app, H2, H3. cbv zeta.
    repeat split; try assumption.
    destruct (0 <? _); reflexivity.
  - apply SpanEnd_adds.
  - apply record_error_rethrows.
  - to_call.
    match goal with
    | Hf : originalMethod args w = (Normal ?r, ?w2) |- _ =>
        rewrite Hv in Hf; injection Hf as Hr Hw; subst r w2
    end.
    rewrite Hn, Ht.
    assert (Hu : get_prop v "usage" = Normal (opt_prop v "usage")).
    { apply opt_prop_defined. intros U. rewrite U in Hn. discriminate Hn. }
    assert (Hk : get_prop (opt_prop v "usage") "total_tokens" = Normal (VNumber n)).
    { rewrite opt_prop_defined; rewrite Hn; [reflexivity | discriminate]. }
    intros s [Hs0 Hs]. unfold at_world in Hs0.
    pose proof (readings_value _ _ _ _ Hs (or_introl eq_refl)) as Hs1.
    pose proof (readings_value _ _ _ _ Hs (or_intror (or_introl eq_refl))) as Hs2.
    run_on. rewrite Hu. run_on. rewrite Hk. run_on.
    unfold calculateCost. run_on. rewrite Hs0.
    unfold Cost.calculateCost.
    destruct (Cost.findPricing (fst (Cost.getCostCalculator (calculator w1)))
                (or_default (embed_provider options) "openai") (embed_model options))
      as [modelPricing|]; run_on.
    + destruct (0 <? Cost.costOf modelPricing n 0); run_on;
        cbn [ret world ops calculator];
        rewrite getCostCalculator_keeps, !attribute_values_app, Hs1, Hs2;
        repeat split.
    + change (0 <? 0.0) with false. run_on. cbn [ret world ops calculator].
      rewrite getCostCalculator_keeps, !attribute_values_app, Hs1, Hs2. repeat split.
  - split; [reflexivity|]. repeat constructor.
Qed.

(** The usage and the cost on the span of a generate call that returns,
    with the calculator that [getCostCalculator] gives in the world the
    wrapped function left. *)
Lemma generate_usage_on_return (options : GenerateOptions)
  (originalMethod : Callable) (args : list value) (w : World) (v : value)
  (i o : number) :
  fst (fst (run (traceGenerate options originalMethod args) w)) = Normal v ->
  truthy (opt_prop v "usage") = true ->
  or_zero (prop (opt_prop v "usage") "prompt_tokens") = VNumber i ->
  or_zero (prop (opt_prop v "usage") "completion_tokens") = VNumber o ->
  let '(_, log, w') := run (traceGenerate options originalMethod args) w in
  exists w1 pricing,
    originalMethod args w = (Normal v, w1)
    /\ pricing = fst (Cost.getCostCalculator (calculator w1))
    /\ calculator w' = Some pricing
    /\ attribute_values "gen_ai.usage.input_tokens" log = [VNumber i]
    /\ attribute_values "gen_ai.usage.output_tokens" log = [VNumber o]
    /\ attribute_values "gen_ai.usage.total_tokens" log
       = [or_zero (prop (opt_prop v "usage") "total_tokens")]
    /\ attribute_values "gen_ai.usage.cost_usd" log
       = (let cost := Cost.calculateCost pricing
                        (or_default (generate_provider options) "openai")
                        (generate_model options) i o in
          if 0 <? cost then [VNumber cost] else []).
Proof.
  intros E Hu Hi Ho.
  destruct (returned_on_normal_return (Generate options) _ _ _ _ E) as (w1 & Hv & _).
  revert E. to_try. intros E.
  eapply (reads_on_return _ _ _ (fun _ => [SpanEnd])
            (fun s => at_world w (world s)
                      /\ readings [("gen_ai.usage.input_tokens", []);
                                   ("gen_ai.usage.output_tokens", []);
                                   ("gen_ai.usage.total_tokens", []);
                                   ("gen_ai.usage.cost_usd", [])] (ops s))
            (fun a s =>
               let pricing := fst (Cost.getCostCalculator (calculator w1)) in
               calculator (world s) = Some pricing
               /\ attribute_values "gen_ai.usage.input_tokens" (ops s) = [VNumber i]
               /\ attribute_values "gen_ai.usage.output_tokens" (ops s) = [VNumber o]
               /\ attribute_values "gen_ai.usage.total_tokens" (ops s)
                  = [or_zero (prop (opt_prop v "usage") "total_tokens")]
               /\ attribute_values "gen_ai.usage.cost_usd" (ops s)
                  = (let cost := Cost.calculateCost pricing
                                   (or_default (generate_provider options) "openai")
                                   (generate_model options) i o in
                     if 0 <? cost then [VNumber cost] else []))) in E.
  - destruct E as (s1 & (H1 & H2 & H3 & H4 & H5) & ->).
    exists w1, (fst (Cost.getCostCalculator (calculator w1))).
    rewrite !attribute_values_app, H2, H3, H4, H5. cbv zeta.
    repeat split; try assumption.
    destruct (0 <? _); reflexivity.
  - apply SpanEnd_adds.
  - apply record_error_rethrows.
  - cbv zeta. to_call.
    match goal with
    | Hf : originalMethod args w = (Normal ?r, ?w2) |- _ =>
        rewrite Hv in Hf; injection Hf as Hr Hw; subst r w2
    end.
    rewrite Hu.
    assert (Hg : get_prop v "usage" = Normal (opt_prop v "usage")).
    { apply opt_prop_defined. intros U. rewrite U in Hu. discriminate Hu. }
    intros s [Hs0 Hs]. unfold at_world in Hs0.
    pose proof (readings_value _ _ "gen_ai.usage.input_tokens" _ Hs
                  ltac:(cbn; tauto)) as Hs1.
    pose proof (readings_value _ _ "gen_ai.usage.output_tokens" _ Hs
                  ltac:(cbn; tauto)) as Hs2.
    pose proof (readings_value _ _ "gen_ai.usage.total_tokens" _ Hs
                  ltac:(cbn; tauto)) as Hs3.
    pose proof (readings_value _ _ "gen_ai.usage.cost_usd" _ Hs
                  ltac:(cbn; tauto)) as Hs4.
    run_on. rewrite Hg. run_on. rewrite Hi, Ho.
    unfold calculateCost. run_on. rewrite Hs0.
    unfold Cost.calculateCost.
    destruct (Cost.findPricing (fst (Cost.getCostCalculator (calculator w1)))
                (or_default (generate_provider options) "openai")
                (generate_model options))
      as [modelPricing|]; run_on;
      [destruct (0 <? Cost.costOf modelPricing i o) | change (0 <? 0.0) with false];
      run_on.
    all: destruct (truthy (opt_prop (first_choice v) "finish_reason")); run_on.
    all: destruct (Config.logPrompts (config w)
                   && truthy (opt_prop (opt_prop (first_choice v) "message") "content"));
      run_on.
    all: try (destruct (substring_of
                          (opt_prop (opt_prop (first_choice v) "message") "content")
                          (Config.maxAttributeLength (config w))); run_on).
    all: try exact I.
    all: cbn [ret world ops calculator];
      rewrite getCostCalculator_keeps, !attribute_values_app, Hs1, Hs2, Hs3, Hs4;
      repeat split.
  - split; [reflexivity|]. repeat constructor.
Qed.

(** X25. An embed call that returns a value with a truthy
    [usage.total_tokens], a Number, has that Number as
    [gen_ai.usage.input_tokens] and has asked the calculator of the module,
    the one in place when the wrapped function returned, for the cost of
    that many input tokens and no output tokens, for the model of the
    options and their provider or [openai]: [gen_ai.usage.cost_usd] is that
    cost when it is positive, and is not set when it is not. The provider
    is not one of the two names a calculator inherits. *)
Theorem embed_records_usage_and_cost (options : EmbedOptions)
  (originalMethod : Callable) (args : list value) (w w1 : World) (v : value) (n : number)
  (pricing : Cost.CostCalculator) :
  fst (fst (run (traceEmbed options originalMethod args) w)) = Normal v ->
  originalMethod args w = (Normal v, w1) ->
  calculator w1 = Some pricing ->
  JsObject.inherited (JsString.toLowerCase (or_default (embed_provider options) "openai"))
  = false ->
  opt_prop (opt_prop v "usage") "total_tokens" = VNumber n ->
  truthy (VNumber n) = true ->
  let '(_, log, w') := run (traceEmbed options originalMethod args) w in
  calculator w' = Some pricing
  /\ attribute_values "gen_ai.usage.input_tokens" log = [VNumber n]
  /\ attribute_values "gen_ai.usage.cost_usd" log
     = (let cost := Cost.calculateCost pricing
                      (or_default (embed_provider options) "openai")
                      (embed_model options) n 0 in
        if 0 <? cost then [VNumber cost] else []).
Proof.
  intros E Hf Hc _ Hn Ht.
  pose proof (embed_usage_on_return options originalMethod args w v n E Hn Ht) as H.
  destruct (run (traceEmbed options originalMethod args) w) as [[r log] w'].
  destruct H as (w2 & pricing' & Hv & Hp & H1 & H2 & H3).
  rewrite Hf in Hv. injection Hv as <-. rewrite Hc in Hp. cbn in Hp. subst pricing'.
  repeat split; assumption.
Qed.

(** X26. A generate call that returns a value with a truthy [usage] has
    the three token counts of that usage on its span, each replaced by zero
    when it is falsy; the total is the one reported, not a sum. When the
    prompt and completion counts are Numbers, the call has asked the
    calculator of the module, the one in place when the wrapped function
    returned, for the cost of these two counts, for the model of the
    options and their provider or [openai]: [gen_ai.usage.cost_usd] is that
    cost when it is positive, and is not set when it is not. The provider
    is not one of the two names a calculator inherits. *)
Theorem generate_records_usage_and_cost (options : GenerateOptions)
  (originalMethod : Callable) (args : list value) (w w1 : World) (v : value)
  (i o : number) (pricing : Cost.CostCalculator) :
  fst (fst (run (traceGenerate options originalMethod args) w)) = Normal v ->
  originalMethod args w = (Normal v, w1) ->
  calculator w1 = Some pricing ->
  JsObject.inherited (JsString.toLowerCase (or_default (generate_provider options) "openai"))
  = false ->
  truthy (opt_prop v "usage") = true ->
  or_zero (prop (opt_prop v "usage") "prompt_tokens") = VNumber i ->
  or_zero (prop (opt_prop v "usage") "completion_tokens") = VNumber o ->
  let '(_, log, w') := run (traceGenerate options originalMethod args) w in
  calculator w' = Some pricing
  /\ attribute_values "gen_ai.usage.input_tokens" log = [VNumber i]
  /\ attribute_values "gen_ai.usage.output_tokens" log = [VNumber o]
  /\ attribute_values "gen_ai.usage.total_tokens" log
     = [or_zero (prop (opt_prop v "usage") "total_tokens")]
  /\ attribute_values "gen_ai.usage.cost_usd" log
     = (let cost := Cost.calculateCost pricing
                      (or_default (generate_provider options) "openai")
                      (generate_model options) i o in
        if 0 <? cost then [VNumber cost] else []).
Proof.
  intros E Hf Hc _ Hu Hi Ho.
  pose proof (generate_usage_on_return options originalMethod args w v i o E Hu Hi Ho) as H.
  destruct (run (traceGenerate options originalMethod args) w) as [[r log] w'].
  destruct H as (w2 & pricing' & Hv & Hp & H1 & H2 & H3 & H4 & H5).
  rewrite Hf in Hv. injection Hv as <-. rewrite Hc in Hp. cbn in Hp. subst pricing'.
  repeat split; assumption.
Qed.

End UsageAndCost.


(** ** Closed examples of instrumented calls *)

Section CallExamples.

Import JsNumber JsValue Instrumentation Trace.
Local Open Scope float_scope.
Local Open Scope list_scope.

Lemma error_object_is_recorded_and_rethrown_witness :
  let w := {| config := Config.defaultConfig Config.empty_env;
              registry := Redaction.initial; calculator := None; clock := 0 |} in
  let options := {| rerank_model := "rerank-english-v3.0"; rerank_provider := None;
                    rerank_inputCount := Some 20; rerank_topN := Some 5 |} in
  let e := VObject (Some "RangeError") [("message", VString "too many documents")] in
  let originalMethod : Callable := fun _ w => (Throw e, w) in
  let '(r, log, w') :=
    run (instrumented (engine := LiteralEngine.engine) (Rerank options) originalMethod []) w in
  r = Throw e /\ w' = w
  /\ attribute_values "error" log = [VBool true]
  /\ attribute_values "error.type" log = [VString "RangeError"]
  /\ attribute_values "error.message" log = [VString "too many documents"].
Proof.
  intros w options e originalMethod.
  apply (error_object_is_recorded_and_rethrown (engine := LiteralEngine.engine)
           (Rerank options) originalMethod [] w w "RangeError"
           [("message", VString "too many documents")] (VString "too many documents")).
  - discriminate.
  - reflexivity.
  - reflexivity.
  - reflexivity.
Defined.

Lemma normal_return_is_transparent_witness :
  let w := {| config := Config.defaultConfig Config.empty_env;
              registry := Redaction.initial; calculator := None; clock := 0 |} in
  let options := {| embed_model := "text-embedding-3-small"; embed_provider := None;
                    embed_batchSize := None; embed_dimensions := None |} in
  let v := plain [("usage", plain [("total_tokens", VNumber 1000)])] in
  let originalMethod : Callable :=
    fun _ w => (Normal v, {| config := config w; registry := registry w;
                             calculator := calculator w; clock := 12 |}) in
  exists w1,
    let w' := snd (run (instrumented (engine := LiteralEngine.engine) (Embed options)
                          originalMethod []) w) in
    originalMethod [] w = (Normal v, w1)
    /\ config w' = config w1 /\ registry w' = registry w1 /\ clock w' = clock w1.
Proof.
  intros w options v originalMethod.
  apply (normal_return_is_transparent (engine := LiteralEngine.engine) (Embed options)
           originalMethod [] w v).
  vm_compute. reflexivity.
Defined.

Lemma retrieve_counts_its_result_witness :
  let w := {| config := Config.defaultConfig Config.empty_env;
              registry := Redaction.initial; calculator := None; clock := 0 |} in
  let options := {| retrieve_source := "pinecone"; retrieve_topK := 5;
                    retrieve_indexName := None; retrieve_filters := None |} in
  let v := VString "no documents" in
  let originalMethod : Callable := fun _ w => (Normal v, w) in
  let log := snd (fst (run (traceRetrieve (engine := LiteralEngine.engine) options
                              originalMethod []) w)) in
  attribute_values "gen_ai.retrieval.results_count" log = [VNumber (count_of v)]
  /\ attribute_values "gen_ai.retrieval.hit_at_k" log
     = [VNumber (if 0 <? count_of v then 1 else 0)].
Proof.
  intros w options v originalMethod.
  apply (retrieve_counts_its_result (engine := LiteralEngine.engine) options
           originalMethod [] w v).
  vm_compute. reflexivity.
Defined.

Lemma rerank_counts_its_result_witness :
  let w := {| config := Config.defaultConfig Config.empty_env;
              registry := Redaction.initial; calculator := None; clock := 0 |} in
  let options := {| rerank_model := "rerank-english-v3.0"; rerank_provider := None;
                    rerank_inputCount := Some 20; rerank_topN := Some 5 |} in
  let v := VArray [VString "a"; VString "b"] in
  let originalMethod : Callable := fun _ w => (Normal v, w) in
  attribute_values "gen_ai.rerank.output_count"
    (snd (fst (run (traceRerank options originalMethod []) w)))
  = [VNumber (count_of v)].
Proof.
  intros w options v originalMethod.
  apply (rerank_counts_its_result options originalMethod [] w v).
  vm_compute. reflexivity.
Defined.

Lemma tool_measures_its_result_witness :
  let w := {| config := Config.defaultConfig Config.empty_env;
              registry := Redaction.initial; calculator := None; clock := 0 |} in
  let options := {| tool_toolName := "search"; tool_parameters := None |} in
  let v := VString "done" in
  let originalMethod : Callable := fun _ w => (Normal v, w) in
  exists text,
    JSON_stringify (engine := JsonEngine.engine) v = Normal (Some text)
    /\ attribute_values "gen_ai.tool.result_size_bytes"
         (snd (fst (run (traceToolCall (engine := JsonEngine.engine) options
                           originalMethod []) w)))
       = [VNumber (of_nat (utf8_length text))].
Proof.
  intros w options v originalMethod.
  apply (tool_measures_its_result (engine := JsonEngine.engine) options
           originalMethod [] w v).
  vm_compute. reflexivity.
Defined.

Lemma embed_records_usage_and_cost_witness :
  let pricing := Cost.addCustomPricing "openai" "my-embedder" 0.5 0 Cost.PRICING_TABLE in
  let w := {| config := Config.defaultConfig Config.empty_env;
              registry := Redaction.initial; calculator := Some pricing; clock := 0 |} in
  let options := {| embed_model := "My-Embedder"; embed_provider := None;
                    embed_batchSize := None; embed_dimensions := None |} in
  let v := plain [("usage", plain [("total_tokens", VNumber 1000)])] in
  let originalMethod : Callable := fun _ w => (Normal v, w) in
  let '(_, log, w') :=
    run (traceEmbed (engine := LiteralEngine.engine) options originalMethod []) w in
  calculator w' = Some pricing
  /\ attribute_values "gen_ai.usage.input_tokens" log = [VNumber 1000]
  /\ attribute_values "gen_ai.usage.cost_usd" log
     = (let cost := Cost.calculateCost pricing
                      (or_default (embed_provider options) "openai")
                      (embed_model options) 1000 0 in
        if 0 <? cost then [VNumber cost] else []).
Proof.
  intros pricing w options v originalMethod.
  apply (embed_records_usage_and_cost (engine := LiteralEngine.engine) options
           originalMethod [] w w v 1000 pricing); vm_compute; reflexivity.
Defined.

Lemma generate_records_usage_and_cost_witness :
  let pricing := Cost.PRICING_TABLE in
  let w := {| config := Config.defaultConfig Config.empty_env;
              registry := Redaction.initial; calculator := Some pricing; clock := 0 |} in
  let options := {| generate_model := "gpt-4"; generate_provider := None;
                    generate_temperature := Some 0; generate_maxTokens := None;
                    generate_streaming := None |} in
  let usage := plain [("prompt_tokens", VNumber 1000); ("total_tokens", VNumber 1000)] in
  let v := plain [("usage", usage)] in
  let originalMethod : Callable := fun _ w => (Normal v, w) in
  let '(_, log, w') :=
    run (traceGenerate (engine := LiteralEngine.engine) options originalMethod []) w in
  calculator w' = Some pricing
  /\ attribute_values "gen_ai.usage.input_tokens" log = [VNumber 1000]
  /\ attribute_values "gen_ai.usage.output_tokens" log = [VNumber 0]
  /\ attribute_values "gen_ai.usage.total_tokens" log
     = [or_zero (prop (opt_prop v "usage") "total_tokens")]
  /\ attribute_values "gen_ai.usage.cost_usd" log
     = (let cost := Cost.calculateCost pricing
                      (or_default (generate_provider options) "openai")
                      (generate_model options) 1000 0 in
        if 0 <? cost then [VNumber cost] else []).
Proof.
  intros pricing w options usage v originalMethod.
  apply (generate_records_usage_and_cost (engine := LiteralEngine.engine) options
           originalMethod [] w w v 1000 0 pricing); vm_compute; reflexivity.
Defined.

End CallExamples.

(** ** The initial configuration *)

Section InitialConfiguration.

Import JsNumber Config.
Local Open Scope float_scope.

Lemma env_or_unset (v : option string) (d : string) :
  v = None \/ v = Some EmptyString -> env_or v d = d.
Proof. intros [-> | ->]; reflexivity. Qed.

(** X27. When the environment leaves [GENAI_OTEL_SAMPLE_RATE] and
    [GENAI_MAX_ATTR_LENGTH] unset or empty, the initial configuration is
    within the bounds [setConfig] checks, whatever the other variables
    hold: [sampleRate] is the Number [0.01] and [maxAttributeLength] is
    [2000]. *)
Theorem unset_environment_gives_valid_defaults (env : Env) :
  env "GENAI_OTEL_SAMPLE_RATE" = None \/ env "GENAI_OTEL_SAMPLE_RATE" = Some EmptyString ->
  env "GENAI_MAX_ATTR_LENGTH" = None \/ env "GENAI_MAX_ATTR_LENGTH" = Some EmptyString ->
  sampleRate (defaultConfig env) = 0.01
  /\ maxAttributeLength (defaultConfig env) = 2000
  /\ in_bounds (defaultConfig env) = true.
Proof.
  intros Hs Hm.
  assert (E1 : sampleRate (defaultConfig env) = 0.01).
  { cbn [defaultConfig sampleRate]. rewrite (env_or_unset _ _ Hs). vm_compute. reflexivity. }
  assert (E2 : maxAttributeLength (defaultConfig env) = 2000).
  { cbn [defaultConfig maxAttributeLength]. rewrite (env_or_unset _ _ Hm).
    vm_compute. reflexivity. }
  split; [exact E1|]. split; [exact E2|].
  unfold in_bounds. rewrite E1, E2. reflexivity.
Qed.

Lemma unset_environment_gives_valid_defaults_witness :
  let env := env_with "GENAI_OTEL_LOG_PROMPTS" "TRUE" in
  sampleRate (defaultConfig env) = 0.01
  /\ maxAttributeLength (defaultConfig env) = 2000
  /\ in_bounds (defaultConfig env) = true.
Proof.
  intros env.
  apply unset_environment_gives_valid_defaults; left; reflexivity.
Defined.

End InitialConfiguration.
